(** * Sinceides platform: credential and session lifecycle

    A shallow embedding of the authentication code of the platform
    (services layer, main services layer, security configuration and the
    passport / RBAC middleware of the API layer) together with the
    properties of the session life cycle that were checked against it.

    Conventions of the embedding:
    - a table of the database is the list of its rows, in insertion order;
      the PRIMARY KEY and UNIQUE constraints of [supabase_schema.sql] are
      enforced by the [create] functions, and so are the foreign keys that
      a modelled insert can present without a row behind them
      ([activity_logs.user_id], [lessons.course_id],
      [lessons.instructor_id]); [refresh_tokens.user_id] is always the id
      of a row the same call has just read or written;
    - an asynchronous method is a computation in the monad [M]: it reads and
      writes the [State] and may throw; what was written before a throw
      stays written (the code opens no transaction);
    - the wall clock is an argument [now] (milliseconds since the epoch) of
      each operation; ISO-8601 timestamps are the instants they denote;
    - [uuidv4] and the bcrypt salt draw from a counter kept in the state;
    - a JavaScript string is a [string], one character per code unit. *)

From Stdlib Require Import ZArith Ascii String List Bool Lia.
From stdpp Require Import base decidable option list gmap strings pretty.

Local Open Scope Z_scope.
Local Open Scope string_scope.
Local Open Scope list_scope.

(** ** Data model (services layer) *)

Definition Id := string.
Definition Timestamp := Z.

Inductive Gender := MALE | FEMALE | OTHER.

Inductive Role := ADMIN | INSTRUCTOR | STUDENT | HR | SUPPORT.

#[global] Instance Gender_eq_dec : EqDecision Gender.
Proof. solve_decision. Defined.

#[global] Instance Role_eq_dec : EqDecision Role.
Proof. solve_decision. Defined.

(** The string value of each member of [enum Role]. *)
Definition Role_value (r : Role) : string :=
  match r with
  | ADMIN => "admin"
  | INSTRUCTOR => "instructor"
  | STUDENT => "student"
  | HR => "hr"
  | SUPPORT => "support"
  end.

(** bcryptjs, symbolically: a hash remembers the cost, the salt and the
    plaintext it was made from; any other stored string is [NotAHash]. *)
Inductive PasswordHash :=
| Bcrypt (rounds : N) (salt : N) (plaintext : string)
| NotAHash (raw : string).

Definition bcrypt_compare (password : string) (h : PasswordHash) : bool :=
  match h with
  | Bcrypt _ _ plaintext => bool_decide (plaintext = password)
  | NotAHash _ => false
  end.

(** jsonwebtoken, symbolically.  [jwt.sign(payload, secret, {expiresIn})]
    adds [iat = floor(Date.now() / 1000)] and [exp = iat + expiresIn] to the
    payload and signs with HS256, which is deterministic: the token is a
    function of the key, the payload and the second of issuance.  A string
    that is no such token is [Opaque]. *)
Record Claims := { claim_id : Id; claim_email : string; claim_role : Role }.

Inductive TokenValue :=
| Jwt (key : string) (payload : Claims) (iat exp : Z)
| Opaque (raw : string).

#[global] Instance Claims_eq_dec : EqDecision Claims.
Proof. solve_decision. Defined.

#[global] Instance TokenValue_eq_dec : EqDecision TokenValue.
Proof. solve_decision. Defined.

Definition jwt_sign (payload : Claims) (key : string) (expiresIn : Z) (now : Timestamp)
  : TokenValue :=
  Jwt key payload (now / 1000) (now / 1000 + expiresIn).

(** [jwt.verify] as the passport-jwt strategy runs it: right key, not yet
    expired. *)
Definition jwt_verify (token : TokenValue) (key : string) (now : Timestamp)
  : option Claims :=
  match token with
  | Jwt k payload _ exp =>
      if decide (k = key) then
        if decide (now / 1000 < exp) then Some payload else None
      else None
  | Opaque _ => None
  end.

Module User.
Record t := mk {
  id : Id;
  name : string;
  email : string;
  passwordHash : PasswordHash;
  phoneNumber : string;
  dateOfBirth : string;
  country : string;
  gender : Gender;
  role : Role;
  profilePictureUrl : option string;
  enrolledCourseIds : list string;
  isBlocked : bool;
  assignedHrId : option Id;
  createdAt : Timestamp;
  updatedAt : Timestamp;
  deletedAt : option Timestamp
}.

(** The row after [update({ isBlocked, updatedAt })]. *)
Definition set_isBlocked (b : bool) (now : Timestamp) (u : t) : t :=
    mk (id u) (name u) (email u) (passwordHash u) (phoneNumber u)
       (dateOfBirth u) (country u) (gender u) (role u) (profilePictureUrl u)
       (enrolledCourseIds u) b (assignedHrId u) (createdAt u) now
       (deletedAt u).

(** The row after [update({ deletedAt, updatedAt })]. *)
Definition set_deletedAt (d : option Timestamp) (now : Timestamp) (u : t) : t :=
    mk (id u) (name u) (email u) (passwordHash u) (phoneNumber u)
       (dateOfBirth u) (country u) (gender u) (role u) (profilePictureUrl u)
       (enrolledCourseIds u) (isBlocked u) (assignedHrId u) (createdAt u) now
       d.

(** The row after [update({ assignedHrId, updatedAt })]. *)
Definition set_assignedHrId (hrId : option Id) (now : Timestamp) (u : t) : t :=
    mk (id u) (name u) (email u) (passwordHash u) (phoneNumber u)
       (dateOfBirth u) (country u) (gender u) (role u) (profilePictureUrl u)
       (enrolledCourseIds u) (isBlocked u) hrId (createdAt u) now
       (deletedAt u).
End User.

(** [Omit<User, keyof BaseEntity>], the argument of [userRepo.create]. *)
Module NewUser.
Record t := mk {
  name : string;
  email : string;
  passwordHash : PasswordHash;
  phoneNumber : string;
  dateOfBirth : string;
  country : string;
  gender : Gender;
  role : Role;
  profilePictureUrl : option string;
  enrolledCourseIds : list string;
  isBlocked : bool
}.
End NewUser.

Module UserDTO.
Record t := mk {
  id : Id;
  name : string;
  email : string;
  phoneNumber : string;
  dateOfBirth : string;
  country : string;
  gender : Gender;
  role : Role;
  profilePictureUrl : option string;
  isBlocked : bool;
  createdAt : Timestamp;
  updatedAt : Timestamp;
  assignedHrId : option Id
}.

Definition of_user (user : User.t) : t :=
    mk (User.id user) (User.name user) (User.email user)
       (User.phoneNumber user) (User.dateOfBirth user) (User.country user)
       (User.gender user) (User.role user) (User.profilePictureUrl user)
       (User.isBlocked user) (User.createdAt user) (User.updatedAt user)
       (User.assignedHrId user).
End UserDTO.

Module RefreshToken.
Record t := mk {
  id : Id;
  userId : Id;
  token : TokenValue;
  expiresAt : Timestamp;
  createdAt : Timestamp;
  updatedAt : Timestamp;
  deletedAt : option Timestamp
}.
End RefreshToken.

Module ActivityLog.
Record t := mk {
  id : Id;
  userId : Id;
  action : string;
  resourceType : string;
  resourceId : option Id;
  details : list (string * string);
  createdAt : Timestamp;
  updatedAt : Timestamp;
  deletedAt : option Timestamp
}.
End ActivityLog.

(** What [generateTokens] returns. *)
Module Tokens.
Record t := mk {
  user : UserDTO.t;
  accessToken : TokenValue;
  refreshToken : TokenValue
}.
End Tokens.

(** ** Process environment and state *)

(** The part of [process.env] the authentication code reads, with the
    durations already parsed to seconds. *)
Record Config := {
  JWT_SECRET : string;
  JWT_REFRESH_SECRET : string;
  JWT_EXPIRES_IN : Z;
  JWT_REFRESH_EXPIRES_IN : Z;
  BCRYPT_ROUNDS : N
}.

(** The defaults the code falls back to: ['1h'], ['7d'], ['12']. *)
Definition default_config : Config :=
  {| JWT_SECRET := "access-secret";
     JWT_REFRESH_SECRET := "refresh-secret";
     JWT_EXPIRES_IN := 3600;
     JWT_REFRESH_EXPIRES_IN := 604800;
     BCRYPT_ROUNDS := 12 |}.

(** Tables [users], [refresh_tokens], [activity_logs]; the [user:] keys of
    the Redis cache, each with the instant at which it expires; and the
    counter behind [uuidv4] and the bcrypt salt. *)
Record State := mkState {
  env : Config;
  entropy : N;
  users : list User.t;
  refresh_tokens : list RefreshToken.t;
  activity_logs : list ActivityLog.t;
  cache : gmap string (User.t * Timestamp)
}.

Definition with_entropy (n : N) (s : State) : State :=
  mkState (env s) n (users s) (refresh_tokens s) (activity_logs s) (cache s).

Definition with_users (l : list User.t) (s : State) : State :=
  mkState (env s) (entropy s) l (refresh_tokens s) (activity_logs s) (cache s).

Definition with_refresh_tokens (l : list RefreshToken.t) (s : State) : State :=
  mkState (env s) (entropy s) (users s) l (activity_logs s) (cache s).

Definition with_activity_logs (l : list ActivityLog.t) (s : State) : State :=
  mkState (env s) (entropy s) (users s) (refresh_tokens s) l (cache s).

Definition with_cache (c : gmap string (User.t * Timestamp)) (s : State) : State :=
  mkState (env s) (entropy s) (users s) (refresh_tokens s) (activity_logs s) c.

Definition initial_state (cfg : Config) : State :=
  mkState cfg 0%N [] [] [] ∅.

(** ** Errors and the monad of the asynchronous methods *)

(** One constructor per [throw new Error(...)] of the modelled code. *)
Inductive Error :=
| UserAlreadyExists
| PasswordTooShort
| InvalidCredentials
| AccountIsBlocked
| InvalidRefreshToken
| RefreshTokenIsExpired
| UserNotFound
| FailedToCreate (tableName : string)
| FailedToUpdate (tableName : string).

Definition message (e : Error) : string :=
  match e with
  | UserAlreadyExists => "User already exists with this email"
  | PasswordTooShort => "Password must be at least 8 characters long"
  | InvalidCredentials => "Invalid credentials"
  | AccountIsBlocked => "Account is blocked"
  | InvalidRefreshToken => "Invalid refresh token"
  | RefreshTokenIsExpired => "Refresh token expired"
  | UserNotFound => "User not found"
  | FailedToCreate tableName => "Failed to create " +:+ tableName
  | FailedToUpdate tableName => "Failed to update " +:+ tableName
  end.

(** The error kinds of the specification, and the kind each thrown error
    stands for ([None]: an internal failure with no kind of its own). *)
Inductive ErrorKind :=
| WeakCredential
| DuplicateCredential
| InvalidCredential
| AccountBlocked
| AccountLockedOut
| TokenExpired
| TokenInvalid
| InsufficientPermission
| ValidationError.

Definition kind (e : Error) : option ErrorKind :=
  match e with
  | UserAlreadyExists => Some DuplicateCredential
  | PasswordTooShort => Some WeakCredential
  | InvalidCredentials => Some InvalidCredential
  | AccountIsBlocked => Some AccountBlocked
  | InvalidRefreshToken => Some TokenInvalid
  | RefreshTokenIsExpired => Some TokenExpired
  | UserNotFound => None
  | FailedToCreate _ => None
  | FailedToUpdate _ => None
  end.

Inductive result (A : Type) :=
| Ok (a : A)
| Throw (e : Error).

Arguments Ok {A} a.
Arguments Throw {A} e.

Definition M (A : Type) : Type := State -> result A * State.

Definition ret {A} (a : A) : M A := fun s => (Ok a, s).

Definition throw {A} (e : Error) : M A := fun s => (Throw e, s).

Definition bind {A B} (m : M A) (k : A -> M B) : M B :=
  fun s =>
    match m s with
    | (Ok a, s') => k a s'
    | (Throw e, s') => (Throw e, s')
    end.

Definition gets {A} (f : State -> A) : M A := fun s => (Ok (f s), s).

Definition modify (f : State -> State) : M unit := fun s => (Ok tt, f s).

Notation "'let*' x ':=' m 'in' k" := (bind m (fun x => k))
  (at level 10, x name, m at level 100, k at level 200).

Notation "m ';;' k" := (bind m (fun _ => k))
  (at level 100, k at level 200, right associativity).

(** [uuidv4()]: the next value of the generator. *)
Definition uuidv4 : M Id :=
  fun s => (Ok ("uuid-" +:+ pretty (entropy s)), with_entropy (entropy s + 1)%N s).

(** [bcrypt.hash(password, rounds)] with a salt from the generator. *)
Definition bcrypt_hash (password : string) (rounds : N) : M PasswordHash :=
  fun s => (Ok (Bcrypt rounds (entropy s) password), with_entropy (entropy s + 1)%N s).

(** [.single()] of the Supabase client: the row, when the query selects
    exactly one; otherwise the error PGRST116, which every caller below
    turns into [null]. *)
Definition single {A} (rows : list A) : option A :=
  match rows with
  | [row] => Some row
  | _ => None
  end.

(** ** Repositories (services layer) *)

Module UserRepository.

Definition tableName : string := "users".

(** [BaseRepository.create]: a fresh id, the data, the three timestamps;
    the insert fails on the primary key and on [email ... UNIQUE]. *)
Definition create (data : NewUser.t) (now : Timestamp) : M User.t :=
    let* id := uuidv4 in
    let entity :=
      User.mk id (NewUser.name data) (NewUser.email data)
        (NewUser.passwordHash data) (NewUser.phoneNumber data)
        (NewUser.dateOfBirth data) (NewUser.country data)
        (NewUser.gender data) (NewUser.role data)
        (NewUser.profilePictureUrl data) (NewUser.enrolledCourseIds data)
        (NewUser.isBlocked data) None now now None in
    let* rows := gets users in
    if decide (id ∈ User.id <$> rows ∨ NewUser.email data ∈ User.email <$> rows)
    then throw (FailedToCreate tableName)
    else modify (with_users (rows ++ [entity])) ;; ret entity.

(** [BaseRepository.findById(id, includeDeleted = false)]. *)
Definition findById (id : Id) (includeDeleted : bool) : M (option User.t) :=
    gets (fun s =>
      let query := filter (fun u => User.id u = id) (users s) in
      let query :=
        if includeDeleted then query
        else filter (fun u => User.deletedAt u = None) query in
      single query).

Definition findByEmail (email : string) : M (option User.t) :=
    gets (fun s =>
      single (filter (fun u => User.deletedAt u = None)
                (filter (fun u => User.email u = email) (users s)))).

(** [BaseRepository.update(id, { isBlocked })]: the live row with this id
      is rewritten; [.select().single()] makes the call fail, unchanged,
      when it is not exactly one row. *)
Definition update (id : Id) (isBlocked : bool) (now : Timestamp) : M User.t :=
    let* rows := gets users in
    let hit u := User.id u = id ∧ User.deletedAt u = None in
    match single (filter hit rows) with
    | Some u =>
        modify (with_users
          ((fun u => if decide (hit u) then User.set_isBlocked isBlocked now u else u)
             <$> rows)) ;;
        ret (User.set_isBlocked isBlocked now u)
    | None => throw (FailedToUpdate tableName)
    end.

Definition blockUser (id : Id) (now : Timestamp) : M bool :=
    update id true now ;; ret true.

Definition unblockUser (id : Id) (now : Timestamp) : M bool :=
    update id false now ;; ret true.

(** [assignHr]: [update(instructorId, { assignedHrId: hrId })]; beside the
      [.single()] of every update, the write fails on
      [assigned_hr_id ... REFERENCES users(id)]. *)
Definition assignHr (instructorId hrId : Id) (now : Timestamp) : M bool :=
    let* rows := gets users in
    let hit u := User.id u = instructorId ∧ User.deletedAt u = None in
    match single (filter hit rows) with
    | Some _ =>
        if decide (hrId ∈ User.id <$> rows)
        then
          modify (with_users
            ((fun u => if decide (hit u)
                       then User.set_assignedHrId (Some hrId) now u else u)
               <$> rows)) ;;
          ret true
        else throw (FailedToUpdate tableName)
    | None => throw (FailedToUpdate tableName)
    end.

(** [BaseRepository.softDelete]: no [.single()], so no row is no error. *)
Definition softDelete (id : Id) (now : Timestamp) : M bool :=
    let* rows := gets users in
    modify (with_users
      ((fun u =>
          if decide (User.id u = id ∧ User.deletedAt u = None)
          then User.set_deletedAt (Some now) now u else u) <$> rows)) ;;
    ret true.

Definition restore (id : Id) (now : Timestamp) : M bool :=
    let* rows := gets users in
    modify (with_users
      ((fun u =>
          if decide (User.id u = id ∧ User.deletedAt u ≠ None)
          then User.set_deletedAt None now u else u) <$> rows)) ;;
    ret true.

End UserRepository.

Module RefreshTokenRepository.

Definition tableName : string := "refresh_tokens".

(** [create({ userId, token, expiresAt })]; the insert fails on the
      primary key and on [token ... UNIQUE]. *)
Definition create (userId : Id) (token : TokenValue) (expiresAt : Timestamp)
      (now : Timestamp) : M RefreshToken.t :=
    let* id := uuidv4 in
    let entity := RefreshToken.mk id userId token expiresAt now now None in
    let* rows := gets refresh_tokens in
    if decide (id ∈ RefreshToken.id <$> rows ∨ token ∈ RefreshToken.token <$> rows)
    then throw (FailedToCreate tableName)
    else modify (with_refresh_tokens (rows ++ [entity])) ;; ret entity.

Definition findByToken (token : TokenValue) : M (option RefreshToken.t) :=
    gets (fun s =>
      single (filter (fun r => RefreshToken.token r = token) (refresh_tokens s))).

(** [invalidateToken]: a [DELETE ... WHERE token = ...]. *)
Definition invalidateToken (token : TokenValue) : M bool :=
    let* rows := gets refresh_tokens in
    modify (with_refresh_tokens
      (filter (fun r => RefreshToken.token r ≠ token) rows)) ;;
    ret true.

End RefreshTokenRepository.

Module ActivityLogRepository.

Definition tableName : string := "activity_logs".

(** [log(...)] is a [create]: the insert fails on the primary key and on
      [user_id ... REFERENCES users(id)]. *)
Definition log (userId : Id) (action resourceType : string)
      (resourceId : option Id) (details : list (string * string))
      (now : Timestamp) : M unit :=
    let* id := uuidv4 in
    let entity :=
      ActivityLog.mk id userId action resourceType resourceId details
        now now None in
    let* rows := gets activity_logs in
    let* owners := gets users in
    if decide (id ∈ ActivityLog.id <$> rows ∨ userId ∉ User.id <$> owners)
    then throw (FailedToCreate tableName)
    else modify (with_activity_logs (rows ++ [entity])).

End ActivityLogRepository.

(** The cache service on the keys [user:<id>].  [JSON.stringify] followed
    by [JSON.parse] gives back every column of the row, so an entry is the
    row itself; [setex] keeps it for [ttl] seconds. *)
Module CacheService.

Definition get (key : string) (now : Timestamp) : M (option User.t) :=
    gets (fun s =>
      match cache s !! key with
      | Some (value, expiry) => if decide (now < expiry) then Some value else None
      | None => None
      end).

Definition set (key : string) (value : User.t) (ttl : Z) (now : Timestamp)
    : M bool :=
    modify (fun s => with_cache (<[key := (value, now + ttl * 1000)]> (cache s)) s) ;;
    ret true.

Definition del (key : string) : M bool :=
    modify (fun s => with_cache (delete key (cache s)) s) ;;
    ret true.

End CacheService.

(** ** Auth service and user service (main services layer) *)

Module AuthService.

Definition validatePassword (password : string) : bool :=
  (8 <=? String.length password)%nat.

(** The refresh-token record expires seven days after [now] (the code adds
    7 to the day of the month; the server clock is taken to be UTC). *)
Definition generateTokens (user : User.t) (now : Timestamp) : M Tokens.t :=
  let* cfg := gets env in
  let payload :=
    {| claim_id := User.id user;
       claim_email := User.email user;
       claim_role := User.role user |} in
  let accessToken := jwt_sign payload (JWT_SECRET cfg) (JWT_EXPIRES_IN cfg) now in
  let refreshTokenValue :=
    jwt_sign payload (JWT_REFRESH_SECRET cfg) (JWT_REFRESH_EXPIRES_IN cfg) now in
  let expiresAt := now + 7 * 86400000 in
  RefreshTokenRepository.create (User.id user) refreshTokenValue expiresAt now ;;
  ret (Tokens.mk (UserDTO.of_user user) accessToken refreshTokenValue).

Definition register (name email password phoneNumber : string) (role : Role)
    (now : Timestamp) : M Tokens.t :=
  let* existingUser := UserRepository.findByEmail email in
  match existingUser with
  | Some _ => throw UserAlreadyExists
  | None =>
      if negb (validatePassword password) then throw PasswordTooShort
      else
        let* cfg := gets env in
        let* passwordHash := bcrypt_hash password (BCRYPT_ROUNDS cfg) in
        let* user :=
          UserRepository.create
            (NewUser.mk name email passwordHash phoneNumber "" "" OTHER role
               None [] false) now in
        let* tokens := generateTokens user now in
        ActivityLogRepository.log (User.id user) "register" "user"
          (Some (User.id user)) [("role", Role_value role)] now ;;
        ret tokens
  end.

Definition login (email password : string) (now : Timestamp) : M Tokens.t :=
  let* user := UserRepository.findByEmail email in
  match user with
  | None => throw InvalidCredentials
  | Some user =>
      if User.isBlocked user then throw AccountIsBlocked
      else if negb (bcrypt_compare password (User.passwordHash user))
      then throw InvalidCredentials
      else
        let* tokens := generateTokens user now in
        ActivityLogRepository.log (User.id user) "login" "user"
          (Some (User.id user)) [] now ;;
        ret tokens
  end.

Definition refreshToken (refreshToken : TokenValue) (now : Timestamp)
  : M Tokens.t :=
  let* tokenRecord := RefreshTokenRepository.findByToken refreshToken in
  match tokenRecord with
  | None => throw InvalidRefreshToken
  | Some tokenRecord =>
      if decide (RefreshToken.expiresAt tokenRecord < now) then
        RefreshTokenRepository.invalidateToken refreshToken ;;
        throw RefreshTokenIsExpired
      else
        let* user := UserRepository.findById (RefreshToken.userId tokenRecord) false in
        match user with
        | None => throw UserNotFound
        | Some user =>
            RefreshTokenRepository.invalidateToken refreshToken ;;
            generateTokens user now
        end
  end.

Definition logout (refreshToken : TokenValue) : M bool :=
  RefreshTokenRepository.invalidateToken refreshToken.

End AuthService.

Module UserService.

Definition getUserById (id : Id) (now : Timestamp) : M UserDTO.t :=
  let cacheKey := "user:" +:+ id in
  let* cached := CacheService.get cacheKey now in
  let* user :=
    match cached with
    | Some user => ret user
    | None =>
        let* found := UserRepository.findById id false in
        match found with
        | None => throw UserNotFound
        | Some user => CacheService.set cacheKey user 3600 now ;; ret user
        end
    end in
  ret (UserDTO.of_user user).

(** What the four mutators do once the repository call has returned. *)
Definition after_mutation (result : bool) (id : Id) (action : string)
    (now : Timestamp) : M bool :=
  (if result then
     CacheService.del ("user:" +:+ id) ;;
     ActivityLogRepository.log id action "user" (Some id) [] now
   else ret tt) ;;
  ret result.

Definition blockUser (id : Id) (now : Timestamp) : M bool :=
  let* result := UserRepository.blockUser id now in
  after_mutation result id "block_user" now.

Definition unblockUser (id : Id) (now : Timestamp) : M bool :=
  let* result := UserRepository.unblockUser id now in
  after_mutation result id "unblock_user" now.

Definition softDeleteUser (id : Id) (now : Timestamp) : M bool :=
  let* result := UserRepository.softDelete id now in
  after_mutation result id "soft_delete_user" now.

Definition restoreUser (id : Id) (now : Timestamp) : M bool :=
  let* result := UserRepository.restore id now in
  after_mutation result id "restore_user" now.

End UserService.

(** ** Passport strategy and RBAC middleware (API layer) *)

(** [req.user], as the strategy fills it in. *)
Module ReqUser.
Record t := mk { id : Id; email : string; role : string }.
End ReqUser.

(** What a middleware does with a request: hand it on, or answer it. *)
Inductive Outcome :=
| Next
| Respond (status : Z) (error : string).

Module JwtStrategy.

(** The verify callback: [done(null, {id, email, role})] is [Some],
    [done(null, false)] is [None]. *)
Definition verify (payload : Claims) : M (option ReqUser.t) :=
  let* user := UserRepository.findById (claim_id payload) false in
  match user with
  | Some user =>
      if negb (User.isBlocked user)
      then ret (Some (ReqUser.mk (User.id user) (User.email user)
                        (Role_value (User.role user))))
      else ret None
  | None => ret None
  end.

End JwtStrategy.

Module AuthMiddleware.

(** [passport.authenticate('jwt', { session: false })] on the bearer token
    of the request. *)
Definition authenticate (bearer : option TokenValue) (now : Timestamp)
  : M (option ReqUser.t) :=
  let* cfg := gets env in
  match bearer with
  | None => ret None
  | Some token =>
      match jwt_verify token (JWT_SECRET cfg) now with
      | None => ret None
      | Some payload => JwtStrategy.verify payload
      end
  end.

End AuthMiddleware.

Module RBACMiddleware.

Definition checkRole (roles : list string) (user : option ReqUser.t) : Outcome :=
  match user with
  | None => Respond 401 "Authentication required"
  | Some user =>
      if negb (bool_decide (ReqUser.role user ∈ roles))
      then Respond 403 "Insufficient permissions"
      else Next
  end.

End RBACMiddleware.

(** A route declared as
    [AuthMiddleware.authenticate(), RBACMiddleware.checkRole(roles), handler]:
    the role check runs only on what authentication let through. *)
Definition guarded_route (roles : list string) (bearer : option TokenValue)
    (now : Timestamp) : M Outcome :=
  let* user := AuthMiddleware.authenticate bearer now in
  match user with
  | None => ret (Respond 401 "Unauthorized")
  | Some user => ret (RBACMiddleware.checkRole roles (Some user))
  end.

(** ** Security configuration *)

Module SecurityConfig.

Definition MIN_PASSWORD_LENGTH : nat := 8.
Definition MAX_PASSWORD_LENGTH : nat := 128.
Definition MAX_LOGIN_ATTEMPTS : Z := 5.
Definition LOCKOUT_DURATION : Z := 15 * 60 * 1000.

Definition in_range (lo hi : nat) (c : ascii) : bool :=
  let n := Ascii.nat_of_ascii c in ((lo <=? n) && (n <=? hi))%nat.

Definition is_upper : ascii -> bool := in_range 65 90.
Definition is_lower : ascii -> bool := in_range 97 122.
Definition is_digit : ascii -> bool := in_range 48 57.

(** The character class of the special-character test, by character
    code: the code points of ! @ # $ % ^ & * ( ) , . ? and the double
    quote, then : { } | < >. *)
Definition is_special (c : ascii) : bool :=
  bool_decide (Ascii.nat_of_ascii c ∈
    [33; 64; 35; 36; 37; 94; 38; 42; 40; 41; 44; 46; 63; 34; 58; 123; 125;
     124; 60; 62]%nat).

Fixpoint some_char (p : ascii -> bool) (s : string) : bool :=
  match s with
  | EmptyString => false
  | String c rest => p c || some_char p rest
  end.

Definition lower_char (c : ascii) : ascii :=
  if is_upper c then Ascii.ascii_of_nat (Ascii.nat_of_ascii c + 32) else c.

(** [String.prototype.toLowerCase], on the ASCII letters. *)
Fixpoint toLowerCase (s : string) : string :=
  match s with
  | EmptyString => EmptyString
  | String c rest => String (lower_char c) (toLowerCase rest)
  end.

Definition commonPasswords : list string :=
  ["password"; "123456"; "password123"; "admin"; "qwerty";
   "letmein"; "welcome"; "monkey"; "1234567890"; "abc123"].

(** [validatePassword(password).errors]; [valid] is [errors.length === 0]. *)
Definition validatePassword_errors (password : string) : list string :=
  (if (String.length password <? MIN_PASSWORD_LENGTH)%nat
   then ["Password must be at least 8 characters long"] else []) ++
  (if (MAX_PASSWORD_LENGTH <? String.length password)%nat
   then ["Password must be no more than 128 characters long"] else []) ++
  (if negb (some_char is_upper password)
   then ["Password must contain at least one uppercase letter"] else []) ++
  (if negb (some_char is_lower password)
   then ["Password must contain at least one lowercase letter"] else []) ++
  (if negb (some_char is_digit password)
   then ["Password must contain at least one number"] else []) ++
  (if negb (some_char is_special password)
   then ["Password must contain at least one special character"] else []) ++
  (if bool_decide (toLowerCase password ∈ commonPasswords)
   then ["Password is too common, please choose a more unique password"]
   else []).

Definition validatePassword (password : string) : bool :=
  bool_decide (validatePassword_errors password = []).

(** The in-memory attempt tracking: a [Map] from identifier to
    [{ count, timestamp }], threaded explicitly. *)
Definition getAttemptCount (identifier : string) (now : Timestamp)
    (attemptCounts : gmap string (Z * Timestamp))
  : Z * gmap string (Z * Timestamp) :=
  match attemptCounts !! identifier with
  | None => (0, attemptCounts)
  | Some (count, timestamp) =>
      if decide (now - timestamp > LOCKOUT_DURATION)
      then (0, delete identifier attemptCounts)
      else (count, attemptCounts)
  end.

Definition incrementAttemptCount (identifier : string) (now : Timestamp)
    (attemptCounts : gmap string (Z * Timestamp))
  : gmap string (Z * Timestamp) :=
  let (current, attemptCounts) := getAttemptCount identifier now attemptCounts in
  <[identifier := (current + 1, now)]> attemptCounts.

Definition resetAttemptCount (identifier : string)
    (attemptCounts : gmap string (Z * Timestamp))
  : gmap string (Z * Timestamp) :=
  delete identifier attemptCounts.

Definition checkBruteForceAttempts (identifier : string) (maxAttempts : Z)
    (now : Timestamp) (attemptCounts : gmap string (Z * Timestamp))
  : bool * gmap string (Z * Timestamp) :=
  let (attempts, attemptCounts) := getAttemptCount identifier now attemptCounts in
  (bool_decide (attempts >= maxAttempts), attemptCounts).

Definition recordFailedAttempt := incrementAttemptCount.

Definition clearFailedAttempts := resetAttemptCount.

(** A code unit outside the ASCII range; [toLowerCase] above is the code's
    on strings without one. *)
Definition non_ascii (c : ascii) : bool := (128 <=? Ascii.nat_of_ascii c)%nat.

(** [input.replace(/x/g, '')] for a character class [x]. *)
Fixpoint remove_chars (p : ascii -> bool) (s : string) : string :=
  match s with
  | EmptyString => EmptyString
  | String c rest =>
      if p c then remove_chars p rest else String c (remove_chars p rest)
  end.

(** White space and line terminators of [String.prototype.trim], among the
    code units below 256: TAB, LF, VT, FF, CR, space, no-break space. *)
Definition is_white_space (c : ascii) : bool :=
  bool_decide (Ascii.nat_of_ascii c ∈ [9; 10; 11; 12; 13; 32; 160]%nat).

Fixpoint trimStart (s : string) : string :=
  match s with
  | EmptyString => EmptyString
  | String c rest => if is_white_space c then trimStart rest else s
  end.

Fixpoint trimEnd (s : string) : string :=
  match s with
  | EmptyString => EmptyString
  | String c rest =>
      match trimEnd rest with
      | EmptyString => if is_white_space c then EmptyString else String c EmptyString
      | kept => String c kept
      end
  end.

Definition trim (s : string) : string := trimEnd (trimStart s).

(** The three classes [sanitizeInput] removes: angle brackets, quotes,
    semicolons. *)
Definition is_angle (c : ascii) : bool :=
  bool_decide (Ascii.nat_of_ascii c ∈ [60; 62]%nat).
Definition is_quote (c : ascii) : bool :=
  bool_decide (Ascii.nat_of_ascii c ∈ [39; 34]%nat).
Definition is_semicolon (c : ascii) : bool :=
  bool_decide (Ascii.nat_of_ascii c = 59%nat).

Definition sanitizeInput (input : string) : string :=
  trim (remove_chars is_semicolon
          (remove_chars is_quote (remove_chars is_angle input))).

End SecurityConfig.

(** ** Sequential executions *)

(** The calls the executions below are made of, each at an instant: those
    of the auth service, and [getUserById] and the four calls of the user
    service that block, unblock, soft-delete and restore.  The routed
    [updateUser] and [assignHr], which also rewrite rows of [users], are
    not among them: what is proved of [run] is proved of these nine calls,
    and nothing that is stated of every state of the database rests on
    it. *)
Inductive Call :=
| Register (name email password phoneNumber : string) (role : Role)
| Login (email password : string)
| RefreshTokenCall (refreshToken : TokenValue)
| Logout (refreshToken : TokenValue)
| GetUserById (id : Id)
| BlockUser (id : Id)
| UnblockUser (id : Id)
| SoftDeleteUser (id : Id)
| RestoreUser (id : Id).

(** The state a call leaves behind, whether it returned or threw. *)
Definition step (s : State) (c : Call * Timestamp) : State :=
  let (call, now) := c in
  match call with
  | Register name email password phoneNumber role =>
      snd (AuthService.register name email password phoneNumber role now s)
  | Login email password => snd (AuthService.login email password now s)
  | RefreshTokenCall v => snd (AuthService.refreshToken v now s)
  | Logout v => snd (AuthService.logout v s)
  | GetUserById id => snd (UserService.getUserById id now s)
  | BlockUser id => snd (UserService.blockUser id now s)
  | UnblockUser id => snd (UserService.unblockUser id now s)
  | SoftDeleteUser id => snd (UserService.softDeleteUser id now s)
  | RestoreUser id => snd (UserService.restoreUser id now s)
  end.

Definition run (s : State) (calls : list (Call * Timestamp)) : State :=
  foldl step s calls.

(** The email after case normalisation, as the specification keys
    identities. *)
Definition normalize_email (email : string) : string :=
  SecurityConfig.toLowerCase email.

(** The three calls that return a token pair. *)
Inductive Issuance :=
| ViaRegister (name email password phoneNumber : string) (role : Role)
| ViaLogin (email password : string)
| ViaRefresh (refreshToken : TokenValue).

Definition issue (i : Issuance) (now : Timestamp) : M Tokens.t :=
  match i with
  | ViaRegister name email password phoneNumber role =>
      AuthService.register name email password phoneNumber role now
  | ViaLogin email password => AuthService.login email password now
  | ViaRefresh v => AuthService.refreshToken v now
  end.

(** The refresh-token records a call of that kind leaves in place: all of
    them, but for the records of the value a refresh consumes. *)
Definition survivors (i : Issuance) (rows : list RefreshToken.t)
  : list RefreshToken.t :=
  match i with
  | ViaRefresh v => filter (fun r => RefreshToken.token r ≠ v) rows
  | _ => rows
  end.

(** The refresh-token records of an identity that are still usable. *)
Definition active_tokens (userId : Id) (now : Timestamp) (s : State)
  : list RefreshToken.t :=
  filter (fun r => RefreshToken.userId r = userId ∧ ¬ RefreshToken.expiresAt r < now)
    (refresh_tokens s).

(** The cache is coherent when each entry sits under the key of its own id
    and is, field for field, the live row the [users] table holds for that
    id.  The calls of [Call] keep it; [assignHr] does not. *)
Definition cache_coherent (s : State) : Prop :=
  forall (key : string) (entry : User.t) (expiry : Timestamp),
    cache s !! key = Some (entry, expiry) ->
    key = "user:" +:+ User.id entry /\
    fst (UserRepository.findById (User.id entry) false s) = Ok (Some entry).

(** ** A running example *)

Definition alice_claims : Claims :=
  {| claim_id := "uuid-1"; claim_email := "alice@x.com"; claim_role := STUDENT |}.

Definition alice_access : TokenValue := Jwt "access-secret" alice_claims 1 3601.

Definition alice_refresh : TokenValue := Jwt "refresh-secret" alice_claims 1 604801.

(** Alice registers at 1.000 s on an empty database. *)
Definition alice_registered : State :=
  snd (AuthService.register "Alice" "alice@x.com" "Str0ng!Pass" "0123456789"
         STUDENT 1000 (initial_state default_config)).

(** An administrator blocks her at 4.500 s. *)
Definition alice_blocked : State :=
  snd (UserService.blockUser "uuid-1" 4500 alice_registered).

(** [n] logins with a wrong password, one every second from 2 s on. *)
Fixpoint failed_logins (n : nat) (now : Timestamp) (s : State) : State :=
  match n with
  | O => s
  | S n => failed_logins n (now + 1000)
             (snd (AuthService.login "alice@x.com" "wrong-password" now s))
  end.

(** [n] failures recorded with the throttle of the security configuration,
    one every second from [now] on. *)
Fixpoint recorded_failures (n : nat) (now : Timestamp)
    (attemptCounts : gmap string (Z * Timestamp)) : gmap string (Z * Timestamp) :=
  match n with
  | O => attemptCounts
  | S n => recorded_failures n (now + 1000)
             (SecurityConfig.recordFailedAttempt "alice@x.com" now attemptCounts)
  end.

(** ** Identifiers drawn from the generator *)

(** The id was drawn from the generator before it reached [n]. *)
Definition issued (n : N) (id : Id) : Prop :=
  exists k : N, (k < n)%N /\ id = "uuid-" +:+ pretty k.

(** The value is a signed token whose subject is an issued id. *)
Definition token_issued (n : N) (token : TokenValue) : Prop :=
  match token with
  | Jwt _ payload _ _ => issued n (claim_id payload)
  | Opaque _ => False
  end.

(** A state is well formed when every row id was drawn from the generator,
    the ids of the [users] table are pairwise distinct, and every stored
    refresh token is a signed token for an issued id. *)
Definition well_formed (s : State) : Prop :=
  (forall u, u ∈ users s -> issued (entropy s) (User.id u)) /\
  NoDup (User.id <$> users s) /\
  (forall r, r ∈ refresh_tokens s ->
     issued (entropy s) (RefreshToken.id r) /\
     token_issued (entropy s) (RefreshToken.token r)) /\
  (forall a, a ∈ activity_logs s -> issued (entropy s) (ActivityLog.id a)).

(** From a well-formed state satisfying [P], the computation ends in a
    well-formed state, and what it returns satisfies [Q] there. *)
Definition keeps {A} (P : State -> Prop) (m : M A) (Q : A -> State -> Prop)
  : Prop :=
  forall s, well_formed s -> P s ->
    well_formed (snd (m s)) /\
    forall a, fst (m s) = Ok a -> Q a (snd (m s)).

(** The payload [generateTokens] signs for a row. *)
Definition claims_of (user : User.t) : Claims :=
  {| claim_id := User.id user;
     claim_email := User.email user;
     claim_role := User.role user |}.

(** The refresh token [generateTokens] mints for a row at [now]. *)
Definition minted_refresh (user : User.t) (now : Timestamp) (s : State)
  : TokenValue :=
  jwt_sign (claims_of user) (JWT_REFRESH_SECRET (env s))
    (JWT_REFRESH_EXPIRES_IN (env s)) now.

(** The access token [generateTokens] mints for a row at [now]. *)
Definition minted_access (user : User.t) (now : Timestamp) (s : State)
  : TokenValue :=
  jwt_sign (claims_of user) (JWT_SECRET (env s)) (JWT_EXPIRES_IN (env s)) now.

(** The pair [generateTokens] returns for a row at [now]. *)
Definition minted (user : User.t) (now : Timestamp) (s : State) : Tokens.t :=
  Tokens.mk (UserDTO.of_user user) (minted_access user now s)
    (minted_refresh user now s).


(** What the three row-rewriting queries of the [users] repository do to a
    row. *)
Definition block_row (b : bool) (id : Id) (now : Timestamp) (u : User.t)
  : User.t :=
  if decide (User.id u = id ∧ User.deletedAt u = None)
  then User.set_isBlocked b now u else u.

Definition soft_delete_row (id : Id) (now : Timestamp) (u : User.t) : User.t :=
  if decide (User.id u = id ∧ User.deletedAt u = None)
  then User.set_deletedAt (Some now) now u else u.

Definition restore_row (id : Id) (now : Timestamp) (u : User.t) : User.t :=
  if decide (User.id u = id ∧ User.deletedAt u ≠ None)
  then User.set_deletedAt None now u else u.

(** ** The generic repository, and the lesson, roadmap and challenge tables *)

(** An entity [T extends BaseEntity]: the four columns of [BaseEntity]
    around the columns [Omit<T, keyof BaseEntity>] of the table. *)
Module BaseEntity.

Record t (D : Type) := mk {
  id : Id;
  data : D;
  createdAt : Timestamp;
  updatedAt : Timestamp;
  deletedAt : option Timestamp;
}.

Arguments mk {D} _ _ _ _ _.
Arguments id {D} _.
Arguments data {D} _.
Arguments createdAt {D} _.
Arguments updatedAt {D} _.
Arguments deletedAt {D} _.

End BaseEntity.

(** A table with the generator its ids come from. *)
Record Table (D : Type) := mkTable {
  table_generator : N;
  table_rows : list (BaseEntity.t D);
}.

Arguments mkTable {D} _ _.
Arguments table_generator {D} _.
Arguments table_rows {D} _.

(** [BaseRepository<T>], over the columns [D] of the table; [conflict]
    tells when two rows break a UNIQUE constraint of the table, and
    [references] whether the rows that the foreign keys of a new row name
    exist in the tables they refer to. *)
Module BaseRepository.

Section Repository.

Context {D : Type}.
Variable tableName : string.
Variable conflict : D -> D -> bool.
Variable references : D -> bool.

Definition create (data : D) (now : Timestamp) (t : Table D)
  : result (BaseEntity.t D) * Table D :=
  let id := "uuid-" +:+ pretty (table_generator t) in
  let t := mkTable (table_generator t + 1)%N (table_rows t) in
  let entity := BaseEntity.mk id data now now None in
  if existsb
       (fun r => bool_decide (BaseEntity.id r = id)
                 || conflict (BaseEntity.data r) data)
       (table_rows t)
     || negb (references data)
  then (Throw (FailedToCreate tableName), t)
  else (Ok entity, mkTable (table_generator t) (table_rows t ++ [entity])).

Definition findById (id : Id) (includeDeleted : bool) (t : Table D)
  : option (BaseEntity.t D) :=
  let query := filter (fun r => BaseEntity.id r = id) (table_rows t) in
  let query :=
    if includeDeleted then query
    else filter (fun r => BaseEntity.deletedAt r = None) query in
  single query.

(** [update(id, data)], [data] given as the change it makes to the
    columns: the live row with this id is rewritten; [.select().single()]
    makes the call fail, unchanged, when it is not exactly one row.  The
    updates below change no column that is a foreign key. *)
Definition update (id : Id) (patch : D -> D) (now : Timestamp) (t : Table D)
  : result (BaseEntity.t D) * Table D :=
  let hit r := BaseEntity.id r = id ∧ BaseEntity.deletedAt r = None in
  let write r :=
    BaseEntity.mk (BaseEntity.id r) (patch (BaseEntity.data r))
      (BaseEntity.createdAt r) now (BaseEntity.deletedAt r) in
  match single (filter hit (table_rows t)) with
  | Some r =>
      if existsb
           (fun o => negb (bool_decide (hit o))
                     && conflict (BaseEntity.data o) (patch (BaseEntity.data r)))
           (table_rows t)
      then (Throw (FailedToUpdate tableName), t)
      else (Ok (write r),
            mkTable (table_generator t)
              ((fun o => if decide (hit o) then write o else o)
                 <$> table_rows t))
  | None => (Throw (FailedToUpdate tableName), t)
  end.

Definition softDelete (id : Id) (now : Timestamp) (t : Table D)
  : result bool * Table D :=
  (Ok true,
   mkTable (table_generator t)
     ((fun r =>
         if decide (BaseEntity.id r = id ∧ BaseEntity.deletedAt r = None)
         then BaseEntity.mk (BaseEntity.id r) (BaseEntity.data r)
                (BaseEntity.createdAt r) now (Some now)
         else r) <$> table_rows t)).

Definition restore (id : Id) (now : Timestamp) (t : Table D)
  : result bool * Table D :=
  (Ok true,
   mkTable (table_generator t)
     ((fun r =>
         if decide (BaseEntity.id r = id ∧ BaseEntity.deletedAt r ≠ None)
         then BaseEntity.mk (BaseEntity.id r) (BaseEntity.data r)
                (BaseEntity.createdAt r) now None
         else r) <$> table_rows t)).

Definition permanentDelete (id : Id) (t : Table D) : result bool * Table D :=
  (Ok true,
   mkTable (table_generator t)
     (filter (fun r => BaseEntity.id r ≠ id) (table_rows t))).

End Repository.

End BaseRepository.

Inductive Level := Beginner | Intermediate | Advanced.

(** *** Courses *)

(** The columns of a course; prices and ratings, which no modelled
    function reads, in hundredths. *)
Module CourseData.

Record t := mk {
  title : string;
  description : string;
  thumbnailUrl : string;
  introVideoUrl : option string;
  instructorId : Id;
  totalLessons : Z;
  categoryId : Id;
  language : string;
  level : Level;
  studentIds : list Id;
  tags : list string;
  firstPublishDate : option string;
  price : option Z;
  duration : option Z;
  rating : option Z;
  enrollmentCount : option Z;
  isPublished : option bool;
}.

(** The update [{ totalLessons }]. *)
Definition set_totalLessons (n : Z) (c : t) : t :=
  mk (title c) (description c) (thumbnailUrl c) (introVideoUrl c)
    (instructorId c) n (categoryId c) (language c) (level c) (studentIds c)
    (tags c) (firstPublishDate c) (price c) (duration c) (rating c)
    (enrollmentCount c) (isPublished c).

End CourseData.

Module CourseRepository.

Definition tableName : string := "courses".

(** The table has no UNIQUE constraint beside its primary key. *)
Definition conflict (a b : CourseData.t) : bool := false.

Definition findById := @BaseRepository.findById CourseData.t.

Definition update := BaseRepository.update tableName conflict.

Definition incrementTotalLessons (courseId : Id) (now : Timestamp)
    (t : Table CourseData.t) : result unit * Table CourseData.t :=
  match findById courseId false t with
  | Some course =>
      match update courseId
              (CourseData.set_totalLessons
                 (CourseData.totalLessons (BaseEntity.data course) + 1))
              now t with
      | (Ok _, t) => (Ok tt, t)
      | (Throw e, t) => (Throw e, t)
      end
  | None => (Ok tt, t)
  end.

Definition decrementTotalLessons (courseId : Id) (now : Timestamp)
    (t : Table CourseData.t) : result unit * Table CourseData.t :=
  match findById courseId false t with
  | Some course =>
      if bool_decide (CourseData.totalLessons (BaseEntity.data course) > 0)
      then
        match update courseId
                (CourseData.set_totalLessons
                   (CourseData.totalLessons (BaseEntity.data course) - 1))
                now t with
        | (Ok _, t) => (Ok tt, t)
        | (Throw e, t) => (Throw e, t)
        end
      else (Ok tt, t)
  | None => (Ok tt, t)
  end.

End CourseRepository.

(** *** Lessons *)

Module LessonData.

Record t := mk {
  courseId : Id;
  lessonNumber : Z;
  title : string;
  description : string;
  videoUrl : string;
  thumbnailUrl : string;
  attachments : list string;
  instructorId : Id;
  durationMinutes : Z;
}.

End LessonData.

(** [Omit<Lesson, keyof BaseEntity | 'lessonNumber'>]. *)
Module NewLesson.

Record t := mk {
  courseId : Id;
  title : string;
  description : string;
  videoUrl : string;
  thumbnailUrl : string;
  attachments : list string;
  instructorId : Id;
  durationMinutes : Z;
}.

End NewLesson.

Module LessonRepository.

Definition tableName : string := "lessons".

(** [UNIQUE(course_id, lesson_number)]. *)
Definition conflict (a b : LessonData.t) : bool :=
  bool_decide (LessonData.courseId a = LessonData.courseId b
               ∧ LessonData.lessonNumber a = LessonData.lessonNumber b).

(** [course_id ... REFERENCES courses(id)] and
    [instructor_id ... REFERENCES users(id)], against the courses and the
    users the database holds. *)
Definition references (courses : Table CourseData.t) (owners : list User.t)
    (d : LessonData.t) : bool :=
  bool_decide (LessonData.courseId d ∈ BaseEntity.id <$> table_rows courses
               ∧ LessonData.instructorId d ∈ User.id <$> owners).

Definition create (courses : Table CourseData.t) (owners : list User.t) :=
  BaseRepository.create tableName conflict (references courses owners).

Definition findById := @BaseRepository.findById LessonData.t.

Definition softDelete := @BaseRepository.softDelete LessonData.t.

Definition restore := @BaseRepository.restore LessonData.t.

(** The query takes the first lesson number in descending order among the
    live lessons of the course, which is their maximum. *)
Definition createWithNumber (courses : Table CourseData.t)
    (owners : list User.t) (data : NewLesson.t) (now : Timestamp)
    (t : Table LessonData.t) : result (BaseEntity.t LessonData.t) * Table LessonData.t :=
  let lessons :=
    (fun r => LessonData.lessonNumber (BaseEntity.data r)) <$>
    filter (fun r => LessonData.courseId (BaseEntity.data r) = NewLesson.courseId data
                     ∧ BaseEntity.deletedAt r = None)
      (table_rows t) in
  let nextNumber :=
    match lessons with
    | [] => 1
    | n :: ns => foldr Z.max n ns + 1
    end in
  create courses owners
    (LessonData.mk (NewLesson.courseId data) nextNumber (NewLesson.title data)
       (NewLesson.description data) (NewLesson.videoUrl data)
       (NewLesson.thumbnailUrl data) (NewLesson.attachments data)
       (NewLesson.instructorId data) (NewLesson.durationMinutes data))
    now t.

End LessonRepository.

(** Lessons created one after the other, each at its own instant, while
    the courses and the users stay as they are; the results of the calls,
    first to last, and the table they leave. *)
Fixpoint create_lessons (courses : Table CourseData.t) (owners : list User.t)
    (calls : list (NewLesson.t * Timestamp)) (t : Table LessonData.t)
  : list (result (BaseEntity.t LessonData.t)) * Table LessonData.t :=
  match calls with
  | [] => ([], t)
  | (data, now) :: calls =>
      let (res, t) :=
        LessonRepository.createWithNumber courses owners data now t in
      let (ress, t) := create_lessons courses owners calls t in
      (res :: ress, t)
  end.

(** What holds of a lesson table nothing was deleted from: every row is
    live, every id came from the generator, and the lessons of each course
    carry the numbers 1, 2, 3, ... in the order of their rows. *)
Definition numbered (t : Table LessonData.t) : Prop :=
  (∀ r, r ∈ table_rows t -> BaseEntity.deletedAt r = None) /\
  (∀ r, r ∈ table_rows t ->
     ∃ k, (k < table_generator t)%N /\ BaseEntity.id r = "uuid-" +:+ pretty k) /\
  (∀ course,
     (fun r => LessonData.lessonNumber (BaseEntity.data r)) <$>
     filter (fun r => LessonData.courseId (BaseEntity.data r) = course)
       (table_rows t)
     = Z.of_nat <$>
       seq 1 (length (filter
                        (fun r => LessonData.courseId (BaseEntity.data r) = course)
                        (table_rows t)))).

(** The call returned a row. *)
Definition is_Ok {A} (r : result A) : Prop :=
  match r with
  | Ok _ => True
  | Throw _ => False
  end.

(** *** Roadmaps *)

Module RoadmapData.

Record t := mk {
  title : string;
  description : string;
  thumbnailUrl : string;
  introVideoUrl : string;
  estimatedHours : Z;
  difficulty : Level;
  categoryId : Id;
  courseIds : list Id;
  enrolledUserIds : list Id;
  isPublished : bool;
  tags : list string;
  instructorId : Id;
  objectives : list string;
  prerequisites : list string;
}.

(** The update [{ enrolledUserIds }]. *)
Definition set_enrolledUserIds (ids : list Id) (r : t) : t :=
  mk (title r) (description r) (thumbnailUrl r) (introVideoUrl r)
    (estimatedHours r) (difficulty r) (categoryId r) (courseIds r) ids
    (isPublished r) (tags r) (instructorId r) (objectives r)
    (prerequisites r).

End RoadmapData.

Module RoadmapRepository.

Definition tableName : string := "roadmaps".

(** The table has no UNIQUE constraint beside its primary key. *)
Definition conflict (a b : RoadmapData.t) : bool := false.

Definition findById := @BaseRepository.findById RoadmapData.t.

Definition update := BaseRepository.update tableName conflict.

Definition enrollUser (roadmapId userId : Id) (now : Timestamp)
    (t : Table RoadmapData.t) : result bool * Table RoadmapData.t :=
  match findById roadmapId false t with
  | None => (Ok false, t)
  | Some roadmap =>
      let updatedEnrolledUserIds :=
        RoadmapData.enrolledUserIds (BaseEntity.data roadmap) ++ [userId] in
      match update roadmapId
              (RoadmapData.set_enrolledUserIds updatedEnrolledUserIds) now t with
      | (Ok _, t) => (Ok true, t)
      | (Throw e, t) => (Throw e, t)
      end
  end.

Definition unenrollUser (roadmapId userId : Id) (now : Timestamp)
    (t : Table RoadmapData.t) : result bool * Table RoadmapData.t :=
  match findById roadmapId false t with
  | None => (Ok false, t)
  | Some roadmap =>
      let updatedEnrolledUserIds :=
        filter (fun id => id ≠ userId)
          (RoadmapData.enrolledUserIds (BaseEntity.data roadmap)) in
      match update roadmapId
              (RoadmapData.set_enrolledUserIds updatedEnrolledUserIds) now t with
      | (Ok _, t) => (Ok true, t)
      | (Throw e, t) => (Throw e, t)
      end
  end.

End RoadmapRepository.

(** *** Challenges *)

Inductive ChallengeType := Daily | Weekly | Monthly.

Inductive ChallengeStatus := Upcoming | Active | Ended.

Module ChallengeQuestion.

Record t := mk {
  id : string;
  question : string;
  options : list string;
  correctAnswer : Z;
  points : Z;
  explanation : option string;
}.

End ChallengeQuestion.

Module LeaderboardEntry.

Record t := mk {
  userId : Id;
  score : Z;
  timeSpent : Z;
  completedAt : string;
}.

End LeaderboardEntry.

Module ChallengeData.

Record t := mk {
  title : string;
  description : string;
  type : ChallengeType;
  status : ChallengeStatus;
  startDate : string;
  endDate : string;
  questions : list ChallengeQuestion.t;
  totalPoints : Z;
  durationMinutes : Z;
  participants : list Id;
  leaderboard : list LeaderboardEntry.t;
}.

(** The update [{ participants }]. *)
Definition set_participants (ids : list Id) (c : t) : t :=
  mk (title c) (description c) (type c) (status c) (startDate c) (endDate c)
    (questions c) (totalPoints c) (durationMinutes c) ids (leaderboard c).

(** The update [{ leaderboard }]. *)
Definition set_leaderboard (entries : list LeaderboardEntry.t) (c : t) : t :=
  mk (title c) (description c) (type c) (status c) (startDate c) (endDate c)
    (questions c) (totalPoints c) (durationMinutes c) (participants c) entries.

End ChallengeData.

(** [entries.sort((a, b) => b.score - a.score)]: [Array.prototype.sort] is
    stable, so the result is the order by descending score in which entries
    of equal score keep their places; an insertion sort computes it. *)
Fixpoint insert_by_score (e : LeaderboardEntry.t)
    (sorted : list LeaderboardEntry.t) : list LeaderboardEntry.t :=
  match sorted with
  | [] => [e]
  | x :: rest =>
      if (LeaderboardEntry.score x <=? LeaderboardEntry.score e)%Z
      then e :: x :: rest
      else x :: insert_by_score e rest
  end.

Definition sort_by_score (entries : list LeaderboardEntry.t)
  : list LeaderboardEntry.t :=
  foldr insert_by_score [] entries.

Module ChallengeRepository.

Definition tableName : string := "challenges".

(** The table has no UNIQUE constraint beside its primary key. *)
Definition conflict (a b : ChallengeData.t) : bool := false.

Definition findById := @BaseRepository.findById ChallengeData.t.

Definition update := BaseRepository.update tableName conflict.

Definition addParticipant (challengeId userId : Id) (now : Timestamp)
    (t : Table ChallengeData.t) : result bool * Table ChallengeData.t :=
  match findById challengeId false t with
  | None => (Ok false, t)
  | Some challenge =>
      let updatedParticipants :=
        ChallengeData.participants (BaseEntity.data challenge) ++ [userId] in
      match update challengeId
              (ChallengeData.set_participants updatedParticipants) now t with
      | (Ok _, t) => (Ok true, t)
      | (Throw e, t) => (Throw e, t)
      end
  end.

Definition updateLeaderboard (challengeId : Id) (entry : LeaderboardEntry.t)
    (now : Timestamp) (t : Table ChallengeData.t)
  : result bool * Table ChallengeData.t :=
  match findById challengeId false t with
  | None => (Ok false, t)
  | Some challenge =>
      let updatedLeaderboard :=
        take 100
          (sort_by_score
             (ChallengeData.leaderboard (BaseEntity.data challenge) ++ [entry])) in
      match update challengeId
              (ChallengeData.set_leaderboard updatedLeaderboard) now t with
      | (Ok _, t) => (Ok true, t)
      | (Throw e, t) => (Throw e, t)
      end
  end.

End ChallengeRepository.

(** The place of a new entry among sorted ones: after every entry that
    scores at least as much. *)
Fixpoint insert_last (e : LeaderboardEntry.t)
    (sorted : list LeaderboardEntry.t) : list LeaderboardEntry.t :=
  match sorted with
  | [] => [e]
  | x :: rest =>
      if (LeaderboardEntry.score e <=? LeaderboardEntry.score x)%Z
      then x :: insert_last e rest
      else e :: x :: rest
  end.

(** The scores never go up along the list. *)
Fixpoint descending (entries : list LeaderboardEntry.t) : Prop :=
  match entries with
  | [] => True
  | x :: rest =>
      Forall (fun y => LeaderboardEntry.score y <= LeaderboardEntry.score x) rest
      /\ descending rest
  end.

(** *** The lesson service *)

(** What the lesson service works on: the lesson and course tables, and
    the cache and activity log it shares with the session services. *)
Record LessonWorld := mkLessonWorld {
  lesson_table : Table LessonData.t;
  course_table : Table CourseData.t;
  shared : State;
}.

(** The errors of the lesson service: its own, and those of the
    repositories it calls. *)
Inductive LessonError :=
| LessonNotFound
| RepositoryError (e : Error).

Inductive lesson_result (A : Type) :=
| Done (a : A)
| Failed (e : LessonError).

Arguments Done {A} a.
Arguments Failed {A} e.

Module LessonService.

Definition softDeleteLesson (id : Id) (now : Timestamp) (w : LessonWorld)
  : lesson_result bool * LessonWorld :=
  match LessonRepository.findById id false (lesson_table w) with
  | None => (Failed LessonNotFound, w)
  | Some lesson =>
      match LessonRepository.softDelete id now (lesson_table w) with
      | (Throw e, lessons) =>
          (Failed (RepositoryError e),
           mkLessonWorld lessons (course_table w) (shared w))
      | (Ok false, lessons) =>
          (Done false, mkLessonWorld lessons (course_table w) (shared w))
      | (Ok true, lessons) =>
          match CourseRepository.decrementTotalLessons
                  (LessonData.courseId (BaseEntity.data lesson)) now
                  (course_table w) with
          | (Throw e, courses) =>
              (Failed (RepositoryError e),
               mkLessonWorld lessons courses (shared w))
          | (Ok _, courses) =>
              match (CacheService.del ("lesson:" +:+ id) ;;
                     ActivityLogRepository.log
                       (LessonData.instructorId (BaseEntity.data lesson))
                       "soft_delete_lesson" "lesson" (Some id) [] now)
                      (shared w) with
              | (Throw e, s) =>
                  (Failed (RepositoryError e), mkLessonWorld lessons courses s)
              | (Ok _, s) => (Done true, mkLessonWorld lessons courses s)
              end
          end
      end
  end.

Definition restoreLesson (id : Id) (now : Timestamp) (w : LessonWorld)
  : lesson_result bool * LessonWorld :=
  match LessonRepository.findById id true (lesson_table w) with
  | None => (Failed LessonNotFound, w)
  | Some lesson =>
      match LessonRepository.restore id now (lesson_table w) with
      | (Throw e, lessons) =>
          (Failed (RepositoryError e),
           mkLessonWorld lessons (course_table w) (shared w))
      | (Ok false, lessons) =>
          (Done false, mkLessonWorld lessons (course_table w) (shared w))
      | (Ok true, lessons) =>
          match CourseRepository.incrementTotalLessons
                  (LessonData.courseId (BaseEntity.data lesson)) now
                  (course_table w) with
          | (Throw e, courses) =>
              (Failed (RepositoryError e),
               mkLessonWorld lessons courses (shared w))
          | (Ok _, courses) =>
              match ActivityLogRepository.log
                      (LessonData.instructorId (BaseEntity.data lesson))
                      "restore_lesson" "lesson" (Some id) [] now (shared w) with
              | (Throw e, s) =>
                  (Failed (RepositoryError e), mkLessonWorld lessons courses s)
              | (Ok _, s) => (Done true, mkLessonWorld lessons courses s)
              end
          end
      end
  end.

End LessonService.

(** The lesson count a course shows, when the course is found. *)
Definition shown_total (courseId : Id) (w : LessonWorld) : option Z :=
  (fun c => CourseData.totalLessons (BaseEntity.data c)) <$>
  CourseRepository.findById courseId false (course_table w).

(** Hana, of the HR staff, registers after Alice, and [getUserById] then
    caches the row of Alice at 4 s. *)
Definition hana_registered : State :=
  snd (AuthService.register "Hana" "hana@x.com" "Str0ng!Pass" "0123456780"
         HR 1500 alice_registered).

Definition alice_cached : State :=
  snd (UserService.getUserById "uuid-1" 4000 hana_registered).

(** A world for the examples: a registered teacher, and one live lesson
    in a course whose lesson count is zero. *)
Definition teacher_registered : State :=
  snd (AuthService.register "Tess" "tess@x.com" "Str0ng!Pass" "0123456789"
         INSTRUCTOR 1000 (initial_state default_config)).


Definition first_lesson : BaseEntity.t LessonData.t :=
  BaseEntity.mk "lesson-1"
    (LessonData.mk "course-1" 1 "First" "text" "" "" [] "uuid-1" 10)
    2000 2000 None.

Definition first_course : BaseEntity.t CourseData.t :=
  BaseEntity.mk "course-1"
    (CourseData.mk "Course" "text" "" None "uuid-1" 0 "category-1"
       "English" Beginner [] [] None None None None None None)
    1500 1500 None.

Definition lesson_world : LessonWorld :=
  mkLessonWorld (mkTable 0%N [first_lesson]) (mkTable 0%N [first_course])
    teacher_registered.

(** The failures of one identifier recorded with the throttle, in order. *)
Definition record_failures (identifier : string) (times : list Timestamp)
    (attemptCounts : gmap string (Z * Timestamp)) : gmap string (Z * Timestamp) :=
  foldl (fun m t => SecurityConfig.recordFailedAttempt identifier t m)
    attemptCounts times.

(** Each instant lies no more than the lockout duration after the one
    before it. *)
Fixpoint chained (previous : Timestamp) (times : list Timestamp) : Prop :=
  match times with
  | [] => True
  | t :: rest => t - previous <= SecurityConfig.LOCKOUT_DURATION /\ chained t rest
  end.

(** The string does not start with white space. *)
Definition starts_clean (s : string) : Prop :=
  match s with
  | EmptyString => True
  | String c _ => SecurityConfig.is_white_space c = false
  end.

(** Unfolding the monad. *)
Ltac run_monad :=
  unfold bind, gets, modify, ret, throw in *; simpl in *.

(** * Properties *)

(** ** Tools *)

Lemma single_Some {A} (rows : list A) (row : A) :
  single rows = Some row <-> rows = [row].
Proof.
  destruct rows as [|a [|b rest]]; simpl; split; intros H;
    try discriminate; congruence.
Qed.

Lemma filter_idemp {A} (P : A -> Prop) `{!forall x, Decision (P x)} (l : list A) :
  filter P (filter P l) = filter P l.
Proof.
  induction l as [|a l IH]; [reflexivity|].
  rewrite filter_cons. destruct (decide (P a)) as [Ha|Ha].
  - rewrite filter_cons. destruct (decide (P a)); [|contradiction].
    now rewrite IH.
  - exact IH.
Qed.

(** ** The role guard *)

(** C5.  [checkRole] is a function of the resolved role and the required
    roles alone; it lets the request through exactly when the role is one
    of the required roles and answers 403 otherwise; a student is denied
    and an admin is allowed on a route for admin and hr. *)
Theorem checkRole_allows_iff_member :
  (forall (roles : list string) (id email role : string),
      RBACMiddleware.checkRole roles (Some (ReqUser.mk id email role))
      = if bool_decide (role ∈ roles) then Next
        else Respond 403 "Insufficient permissions") /\
  (forall id email,
      RBACMiddleware.checkRole ["admin"; "hr"] (Some (ReqUser.mk id email "student"))
      = Respond 403 "Insufficient permissions") /\
  (forall id email,
      RBACMiddleware.checkRole ["admin"; "hr"] (Some (ReqUser.mk id email "admin"))
      = Next).
Proof.
  split; [|split].
  - intros roles id email role. unfold RBACMiddleware.checkRole. simpl.
    destruct (bool_decide (role ∈ roles)); reflexivity.
  - intros id email. reflexivity.
  - intros id email. reflexivity.
Qed.

(** ** Logout *)

Lemma invalidateToken_spec (v : TokenValue) (s : State) :
  RefreshTokenRepository.invalidateToken v s =
  (Ok true,
   with_refresh_tokens
     (filter (fun r => RefreshToken.token r ≠ v) (refresh_tokens s)) s).
Proof. reflexivity. Qed.

(** C7.  Whatever the token store holds for the value (a record, or none
    because it was revoked or never issued), [logout] returns [true]; it
    leaves no record with that value; and a second [logout] of the same
    value returns [true] again and changes nothing. *)
Theorem logout_always_succeeds_and_is_idempotent (v : TokenValue) (s : State) :
  fst (AuthService.logout v s) = Ok true /\
  fst (RefreshTokenRepository.findByToken v (snd (AuthService.logout v s)))
    = Ok None /\
  AuthService.logout v (snd (AuthService.logout v s))
    = (Ok true, snd (AuthService.logout v s)).
Proof.
  unfold AuthService.logout. rewrite !invalidateToken_spec. simpl.
  split; [reflexivity|]. split.
  - unfold RefreshTokenRepository.findByToken, gets. simpl. f_equal.
    rewrite list_filter_filter.
    replace (filter _ (refresh_tokens s)) with (@nil RefreshToken.t);
      [reflexivity|].
    symmetry. induction (refresh_tokens s) as [|r l IH]; [reflexivity|].
    rewrite filter_cons. destruct (decide _) as [[H1 H2]|_]; [congruence|].
    exact IH.
  - unfold with_refresh_tokens. simpl. rewrite filter_idemp. reflexivity.
Qed.

(** ** Identity resolution *)

Lemma filter_sublist_singleton {A} (P : A -> Prop) `{!forall x, Decision (P x)}
    (l : list A) (a : A) :
  l = [a] -> filter P l = if decide (P a) then [a] else [].
Proof. intros ->. rewrite filter_cons. simpl. destruct (decide (P a)); reflexivity. Qed.

(** Whatever the strategy hands on as [req.user] is a stored identity that
    is neither soft-deleted nor blocked. *)
Lemma verify_Some_live (s : State) (payload : Claims) (ru : ReqUser.t) :
  fst (JwtStrategy.verify payload s) = Ok (Some ru) ->
  exists u, u ∈ users s /\ User.id u = claim_id payload /\
            User.deletedAt u = None /\ User.isBlocked u = false /\
            ru = ReqUser.mk (User.id u) (User.email u) (Role_value (User.role u)).
Proof.
  unfold JwtStrategy.verify, UserRepository.findById. run_monad.
  destruct (single _) as [u|] eqn:Hs; simpl; [|discriminate].
  apply single_Some in Hs.
  assert (Hin : u ∈ filter (fun u => User.deletedAt u = None)
                      (filter (fun u => User.id u = claim_id payload) (users s))).
  { rewrite Hs. apply list_elem_of_singleton. reflexivity. }
  apply list_elem_of_filter in Hin as [Hdel Hin].
  apply list_elem_of_filter in Hin as [Hid Hin].
  destruct (User.isBlocked u) eqn:Hb; simpl; intros H; [discriminate|].
  exists u. repeat split; try assumption. congruence.
Qed.

(** C8.  When the identity a valid access token names (looked up with the
    soft-deleted rows included) is blocked or soft-deleted, authentication
    yields no [req.user] and the guarded route answers 401, so the role
    check is not reached. *)
Theorem blocked_or_deleted_identity_is_rejected
    (s : State) (token : TokenValue) (now : Timestamp) (payload : Claims)
    (u : User.t) (roles : list string) :
  jwt_verify token (JWT_SECRET (env s)) now = Some payload ->
  fst (UserRepository.findById (claim_id payload) true s) = Ok (Some u) ->
  User.isBlocked u = true \/ User.deletedAt u <> None ->
  AuthMiddleware.authenticate (Some token) now s = (Ok None, s) /\
  guarded_route roles (Some token) now s = (Ok (Respond 401 "Unauthorized"), s).
Proof.
  intros Hjwt Hfind Hbad.
  assert (Hv : JwtStrategy.verify payload s = (Ok None, s)).
  { unfold JwtStrategy.verify, UserRepository.findById in *. run_monad.
    injection Hfind as Hfind. apply single_Some in Hfind.
    rewrite (filter_sublist_singleton _ _ u Hfind).
    destruct (decide (User.deletedAt u = None)) as [Hd|Hd]; simpl.
    - destruct Hbad as [Hb|Hb]; [rewrite Hb; reflexivity | contradiction].
    - reflexivity. }
  assert (Ha : AuthMiddleware.authenticate (Some token) now s = (Ok None, s)).
  { unfold AuthMiddleware.authenticate. run_monad. rewrite Hjwt. exact Hv. }
  split; [exact Ha|].
  unfold guarded_route, bind. rewrite Ha. reflexivity.
Qed.

Lemma blocked_or_deleted_identity_is_rejected_witness :
  AuthMiddleware.authenticate (Some alice_access) 5000 alice_blocked
    = (Ok None, alice_blocked) /\
  guarded_route ["admin"; "hr"] (Some alice_access) 5000 alice_blocked
    = (Ok (Respond 401 "Unauthorized"), alice_blocked).
Proof.
  eapply (blocked_or_deleted_identity_is_rejected alice_blocked alice_access
            5000 alice_claims).
  - vm_compute. reflexivity.
  - vm_compute. reflexivity.
  - left. reflexivity.
Defined.

(** ** Issuing refresh tokens *)

Lemma create_token_inv (userId : Id) (tok : TokenValue) (exp now : Timestamp)
    (s s' : State) (r : RefreshToken.t) :
  RefreshTokenRepository.create userId tok exp now s = (Ok r, s') ->
  r = RefreshToken.mk ("uuid-" +:+ pretty (entropy s)) userId tok exp now now None /\
  s' = with_refresh_tokens (refresh_tokens s ++ [r])
         (with_entropy (entropy s + 1)%N s) /\
  (tok ∉ RefreshToken.token <$> refresh_tokens s) /\
  RefreshToken.id r ∉ (RefreshToken.id <$> refresh_tokens s).
Proof.
  unfold RefreshTokenRepository.create, uuidv4. run_monad.
  destruct (decide _) as [Hdup|Hfresh]; simpl; [discriminate|].
  intros [= <- <-]. simpl. repeat split; tauto.
Qed.

Lemma log_frame (userId : Id) (action resourceType : string)
    (resourceId : option Id) (details : list (string * string))
    (now : Timestamp) (s : State) :
  let s' := snd (ActivityLogRepository.log userId action resourceType
                   resourceId details now s) in
  users s' = users s /\ refresh_tokens s' = refresh_tokens s /\
  cache s' = cache s /\ env s' = env s.
Proof.
  unfold ActivityLogRepository.log, uuidv4. run_monad.
  destruct (decide _); simpl; repeat split; reflexivity.
Qed.

Lemma generateTokens_inv (user : User.t) (now : Timestamp) (s s' : State)
    (t : Tokens.t) :
  AuthService.generateTokens user now s = (Ok t, s') ->
  exists r,
    refresh_tokens s' = refresh_tokens s ++ [r] /\
    users s' = users s /\ cache s' = cache s /\
    Tokens.user t = UserDTO.of_user user /\
    RefreshToken.token r = Tokens.refreshToken t /\
    RefreshToken.userId r = User.id user /\
    RefreshToken.expiresAt r = now + 604800000 /\
    RefreshToken.createdAt r = now /\
    (RefreshToken.token r ∉ RefreshToken.token <$> refresh_tokens s) /\
    RefreshToken.id r ∉ (RefreshToken.id <$> refresh_tokens s).
Proof.
  unfold AuthService.generateTokens. unfold bind at 1, gets at 1. simpl.
  unfold bind at 1.
  destruct (RefreshTokenRepository.create _ _ _ _ s) as [[r|e] s1] eqn:Hc;
    [|discriminate].
  apply create_token_inv in Hc as (Hr & Hs1 & Hnew & Hid).
  unfold ret. intros [= <- <-]. exists r. subst s1. simpl.
  rewrite Hr in Hid |- *. simpl in *.
  repeat split; try reflexivity; assumption.
Qed.

Lemma bcrypt_hash_frame (password : string) (rounds : N) (s : State) :
  exists h, bcrypt_hash password rounds s = (Ok h, with_entropy (entropy s + 1)%N s).
Proof. eexists. reflexivity. Qed.

Lemma create_user_inv (data : NewUser.t) (now : Timestamp) (s s' : State)
    (u : User.t) :
  UserRepository.create data now s = (Ok u, s') ->
  users s' = users s ++ [u] /\
  refresh_tokens s' = refresh_tokens s /\ cache s' = cache s /\
  User.email u = NewUser.email data /\
  User.deletedAt u = None /\
  (User.id u ∉ User.id <$> users s) /\
  (User.email u ∉ User.email <$> users s).
Proof.
  unfold UserRepository.create, uuidv4. run_monad.
  destruct (decide _) as [Hdup|Hfresh]; simpl; [discriminate|].
  intros [= <- <-]. simpl. repeat split; tauto.
Qed.

Lemma create_user_fail (data : NewUser.t) (now : Timestamp) (s s' : State)
    (e : Error) :
  UserRepository.create data now s = (Throw e, s') ->
  users s' = users s /\ refresh_tokens s' = refresh_tokens s /\
  cache s' = cache s.
Proof.
  unfold UserRepository.create, uuidv4. run_monad.
  destruct (decide _) as [Hdup|Hfresh]; simpl; [|discriminate].
  intros [= <- <-]. simpl. repeat split.
Qed.

Lemma generateTokens_fail (user : User.t) (now : Timestamp) (s s' : State)
    (e : Error) :
  AuthService.generateTokens user now s = (Throw e, s') ->
  users s' = users s /\ refresh_tokens s' = refresh_tokens s /\
  cache s' = cache s.
Proof.
  unfold AuthService.generateTokens, RefreshTokenRepository.create, uuidv4.
  run_monad.
  destruct (decide _) as [Hdup|Hfresh]; simpl; [|discriminate].
  intros [= <- <-]. simpl. repeat split.
Qed.

(** What a successful [register] did to the tables. *)
Lemma register_inv (name email password phoneNumber : string) (role : Role)
    (now : Timestamp) (s s' : State) (t : Tokens.t) :
  AuthService.register name email password phoneNumber role now s = (Ok t, s') ->
  exists u r,
    users s' = users s ++ [u] /\
    User.email u = email /\ User.deletedAt u = None /\
    Tokens.user t = UserDTO.of_user u /\
    (User.id u ∉ User.id <$> users s) /\
    (User.email u ∉ User.email <$> users s) /\
    refresh_tokens s' = refresh_tokens s ++ [r] /\
    RefreshToken.token r = Tokens.refreshToken t /\
    RefreshToken.userId r = User.id u /\
    RefreshToken.expiresAt r = now + 604800000 /\
    RefreshToken.createdAt r = now /\
    (RefreshToken.token r ∉ RefreshToken.token <$> refresh_tokens s) /\
    (RefreshToken.id r ∉ RefreshToken.id <$> refresh_tokens s).
Proof.
  unfold AuthService.register.
  unfold bind at 1. unfold UserRepository.findByEmail at 1, gets at 1.
  destruct (single _) as [existing|]; [discriminate|].
  destruct (negb _); [discriminate|].
  unfold bind at 1, gets at 1. unfold bind at 1.
  destruct (bcrypt_hash_frame password (BCRYPT_ROUNDS (env s)) s) as [h ->].
  unfold bind at 1.
  destruct (UserRepository.create _ now _) as [[u|e] s1] eqn:Hc; [|discriminate].
  apply create_user_inv in Hc as (Hu & Hrt & Hca & Hem & Hdel & Hid & Hemail).
  simpl in *.
  unfold bind at 1.
  destruct (AuthService.generateTokens u now s1) as [[t1|e] s2] eqn:Hg;
    [|discriminate].
  apply generateTokens_inv in Hg
    as (r & Hr & Hus & Hc2 & Htu & Htok & Huid & Hexp & Hcr & Hnew & Hnid).
  unfold bind at 1.
  pose proof (log_frame (User.id u) "register" "user" (Some (User.id u))
                [("role", Role_value role)] now s2) as (Hl1 & Hl2 & Hl3 & Hl4).
  destruct (ActivityLogRepository.log _ _ _ _ _ now s2) as [[[]|e] s3];
    [|discriminate].
  simpl in *. unfold ret. intros [= <- <-].
  exists u, r. rewrite Hl1, Hl2, Hus, Hr, Hrt, Hu. rewrite Hrt in Hnew, Hnid.
  repeat split; assumption.
Qed.

(** What a successful [login] did to the tables. *)
Lemma login_inv (email password : string) (now : Timestamp) (s s' : State)
    (t : Tokens.t) :
  AuthService.login email password now s = (Ok t, s') ->
  exists u r,
    fst (UserRepository.findByEmail email s) = Ok (Some u) /\
    User.isBlocked u = false /\
    bcrypt_compare password (User.passwordHash u) = true /\
    users s' = users s /\ cache s' = cache s /\
    Tokens.user t = UserDTO.of_user u /\
    refresh_tokens s' = refresh_tokens s ++ [r] /\
    RefreshToken.token r = Tokens.refreshToken t /\
    RefreshToken.userId r = User.id u /\
    RefreshToken.expiresAt r = now + 604800000 /\
    RefreshToken.createdAt r = now /\
    (RefreshToken.token r ∉ RefreshToken.token <$> refresh_tokens s) /\
    (RefreshToken.id r ∉ RefreshToken.id <$> refresh_tokens s).
Proof.
  unfold AuthService.login.
  unfold bind at 1. unfold UserRepository.findByEmail, gets. simpl.
  destruct (single _) as [u|]; [|discriminate].
  destruct (User.isBlocked u) eqn:Hb; [discriminate|].
  destruct (bcrypt_compare _ _) eqn:Hpw; simpl; [|discriminate].
  unfold bind at 1.
  destruct (AuthService.generateTokens u now s) as [[t1|e] s2] eqn:Hg;
    [|discriminate].
  apply generateTokens_inv in Hg
    as (r & Hr & Hus & Hc2 & Htu & Htok & Huid & Hexp & Hcr & Hnew & Hnid).
  unfold bind at 1.
  pose proof (log_frame (User.id u) "login" "user" (Some (User.id u))
                [] now s2) as (Hl1 & Hl2 & Hl3 & Hl4).
  destruct (ActivityLogRepository.log _ _ _ _ _ now s2) as [[[]|e] s3];
    [|discriminate].
  simpl in *. unfold ret. intros [= <- <-].
  exists u, r. rewrite Hl1, Hl2, Hl3, Hus, Hr, Hc2.
  repeat split; assumption.
Qed.

(** What a successful [refreshToken] did to the tables: the presented value
    had exactly one record, not yet expired, of a live identity; that
    record is gone and one record was appended. *)
Lemma refreshToken_inv (v : TokenValue) (now : Timestamp) (s s' : State)
    (t : Tokens.t) :
  AuthService.refreshToken v now s = (Ok t, s') ->
  exists old u r,
    filter (fun r => RefreshToken.token r = v) (refresh_tokens s) = [old] /\
    ¬ RefreshToken.expiresAt old < now /\
    fst (UserRepository.findById (RefreshToken.userId old) false s) = Ok (Some u) /\
    users s' = users s /\ cache s' = cache s /\
    Tokens.user t = UserDTO.of_user u /\
    refresh_tokens s' =
      filter (fun r => RefreshToken.token r ≠ v) (refresh_tokens s) ++ [r] /\
    RefreshToken.token r = Tokens.refreshToken t /\
    RefreshToken.userId r = User.id u /\
    RefreshToken.expiresAt r = now + 604800000 /\
    RefreshToken.createdAt r = now /\
    (RefreshToken.token r ∉ RefreshToken.token <$>
       filter (fun r => RefreshToken.token r ≠ v) (refresh_tokens s)).
Proof.
  unfold AuthService.refreshToken.
  unfold bind at 1. unfold RefreshTokenRepository.findByToken, gets. simpl.
  destruct (single _) as [old|] eqn:Hold; [|discriminate].
  apply single_Some in Hold.
  destruct (decide _) as [Hexp|Hlive].
  { unfold bind at 1. rewrite invalidateToken_spec. discriminate. }
  unfold bind at 1. unfold UserRepository.findById, gets. simpl.
  destruct (single _) as [u|] eqn:Hu; [|discriminate].
  unfold bind at 1. rewrite invalidateToken_spec.
  intros Hg.
  apply generateTokens_inv in Hg
    as (r & Hr & Hus & Hc2 & Htu & Htok & Huid & Hexp & Hcr & Hnew & Hnid).
  simpl in *.
  exists old, u, r. repeat split; try assumption.
  f_equal. exact Hu.
Qed.

(** C10.  A [register], [login] or [refreshToken] call that returns appends
    exactly one record to the refresh-token table: it carries the returned
    refresh token, belongs to the returned identity, expires seven days
    after the call, and its value was held by none of the records that
    stay.  Every other record stays as it was, except that [refreshToken]
    removes the one record of the value it was given.  A login therefore
    revokes nothing, and an identity can hold several usable refresh tokens
    at once, as Alice does after registering and logging in. *)
Theorem issuance_adds_one_record_and_keeps_the_others
    (i : Issuance) (now : Timestamp) (s s' : State) (t : Tokens.t) :
  issue i now s = (Ok t, s') ->
  (exists r,
      refresh_tokens s' = survivors i (refresh_tokens s) ++ [r] /\
      RefreshToken.token r = Tokens.refreshToken t /\
      RefreshToken.userId r = UserDTO.id (Tokens.user t) /\
      RefreshToken.expiresAt r = now + 7 * 24 * 60 * 60 * 1000 /\
      (RefreshToken.token r ∉
         RefreshToken.token <$> survivors i (refresh_tokens s))) /\
  (forall v, i = ViaRefresh v ->
     exists old,
       filter (fun r => RefreshToken.token r = v) (refresh_tokens s) = [old]) /\
  length (active_tokens "uuid-1" 3000
            (snd (AuthService.login "alice@x.com" "Str0ng!Pass" 2200
                    alice_registered))) = 2%nat.
Proof.
  intros H. split; [|split].
  - destruct i as [name email password phoneNumber role|email password|v];
      simpl in H |- *.
    + apply register_inv in H
        as (u & r & _ & _ & _ & Htu & _ & _ & Hr & Htok & Huid & Hexp & _ & Hnew & _).
      exists r. rewrite Htu. repeat split; assumption.
    + apply login_inv in H
        as (u & r & _ & _ & _ & _ & _ & Htu & Hr & Htok & Huid & Hexp & _ & Hnew & _).
      exists r. rewrite Htu. repeat split; assumption.
    + apply refreshToken_inv in H
        as (old & u & r & _ & _ & _ & _ & _ & Htu & Hr & Htok & Huid & Hexp & _ & Hnew).
      exists r. rewrite Htu. repeat split; assumption.
  - intros v ->. simpl in H.
    apply refreshToken_inv in H as (old & u & r & Hold & _).
    exists old. exact Hold.
  - vm_compute. reflexivity.
Qed.

Lemma issuance_adds_one_record_and_keeps_the_others_witness :
  (exists r,
      refresh_tokens
        (snd (AuthService.refreshToken alice_refresh 2500 alice_registered))
      = survivors (ViaRefresh alice_refresh) (refresh_tokens alice_registered)
          ++ [r] /\
      RefreshToken.token r
      = Jwt "refresh-secret" alice_claims 2 604802 /\
      RefreshToken.expiresAt r = 2500 + 7 * 24 * 60 * 60 * 1000).
Proof.
  destruct (AuthService.refreshToken alice_refresh 2500 alice_registered)
    as [res s'] eqn:Hcall.
  assert (Hres : res = Ok (Tokens.mk
            (UserDTO.mk "uuid-1" "Alice" "alice@x.com" "0123456789" "" ""
               OTHER STUDENT None false 1000 1000 None)
            (Jwt "access-secret" alice_claims 2 3602)
            (Jwt "refresh-secret" alice_claims 2 604802))).
  { change res with (fst (res, s')). rewrite <- Hcall. vm_compute. reflexivity. }
  subst res.
  destruct (issuance_adds_one_record_and_keeps_the_others
              (ViaRefresh alice_refresh) 2500 alice_registered s' _ Hcall)
    as ((r & Hr & Htok & _ & Hexp & _) & _ & _).
  exists r. simpl in *. repeat split; assumption.
Defined.

(** ** How each call changes the [users] table and the cache *)

Lemma generateTokens_frame (user : User.t) (now : Timestamp) (s : State) :
  users (snd (AuthService.generateTokens user now s)) = users s /\
  cache (snd (AuthService.generateTokens user now s)) = cache s.
Proof.
  destruct (AuthService.generateTokens user now s) as [[t|e] s'] eqn:Hg; simpl.
  - apply generateTokens_inv in Hg as (r & _ & Hu & Hc & _). tauto.
  - apply generateTokens_fail in Hg. tauto.
Qed.

Lemma register_frame (name email password phoneNumber : string) (role : Role)
    (now : Timestamp) (s s' : State) (res : result Tokens.t) :
  AuthService.register name email password phoneNumber role now s = (res, s') ->
  cache s' = cache s /\
  (users s' = users s \/
   exists u, users s' = users s ++ [u] /\
             (User.id u ∉ User.id <$> users s) /\
             (User.email u ∉ User.email <$> users s)).
Proof.
  unfold AuthService.register.
  unfold bind at 1. unfold UserRepository.findByEmail at 1, gets at 1.
  destruct (single _) as [existing|]; [intros [= <- <-]; auto|].
  destruct (negb _); [intros [= <- <-]; auto|].
  unfold bind at 1, gets at 1. unfold bind at 1.
  destruct (bcrypt_hash_frame password (BCRYPT_ROUNDS (env s)) s) as [h ->].
  unfold bind at 1.
  destruct (UserRepository.create _ now _) as [[u|e] s1] eqn:Hc.
  2:{ apply create_user_fail in Hc as (Hu & _ & Hca).
      intros [= <- <-]. split; [exact Hca | left; exact Hu]. }
  apply create_user_inv in Hc as (Hu & Hrt & Hca & Hem & Hdel & Hid & Hemail).
  simpl in Hu, Hca, Hid, Hemail.
  unfold bind at 1.
  pose proof (generateTokens_frame u now s1) as [Hg1 Hg2].
  destruct (AuthService.generateTokens u now s1) as [[t1|e] s2]; simpl in Hg1, Hg2.
  2:{ intros [= <- <-]. rewrite Hg1, Hg2, Hu, Hca.
      split; [reflexivity|]. right. eauto. }
  unfold bind at 1.
  pose proof (log_frame (User.id u) "register" "user" (Some (User.id u))
                [("role", Role_value role)] now s2) as (Hl1 & Hl2 & Hl3 & Hl4).
  destruct (ActivityLogRepository.log _ _ _ _ _ now s2) as [[[]|e] s3];
    simpl in *; intros [= <- <-]; rewrite Hl1, Hl3, Hg1, Hg2, Hu, Hca;
    (split; [reflexivity|]); right; eauto.
Qed.

Lemma login_frame (email password : string) (now : Timestamp) (s s' : State)
    (res : result Tokens.t) :
  AuthService.login email password now s = (res, s') ->
  users s' = users s /\ cache s' = cache s.
Proof.
  unfold AuthService.login.
  unfold bind at 1. unfold UserRepository.findByEmail, gets. simpl.
  destruct (single _) as [u|]; [|intros [= <- <-]; auto].
  destruct (User.isBlocked u); [intros [= <- <-]; auto|].
  destruct (negb _); [intros [= <- <-]; auto|].
  unfold bind at 1.
  pose proof (generateTokens_frame u now s) as [Hg1 Hg2].
  destruct (AuthService.generateTokens u now s) as [[t1|e] s2]; simpl in Hg1, Hg2;
    [|intros [= <- <-]; auto].
  unfold bind at 1.
  pose proof (log_frame (User.id u) "login" "user" (Some (User.id u))
                [] now s2) as (Hl1 & Hl2 & Hl3 & Hl4).
  destruct (ActivityLogRepository.log _ _ _ _ _ now s2) as [[[]|e] s3];
    simpl in *; intros [= <- <-]; rewrite Hl1, Hl3, Hg1, Hg2; auto.
Qed.

Lemma refreshToken_frame (v : TokenValue) (now : Timestamp) (s s' : State)
    (res : result Tokens.t) :
  AuthService.refreshToken v now s = (res, s') ->
  users s' = users s /\ cache s' = cache s.
Proof.
  unfold AuthService.refreshToken.
  unfold bind at 1. unfold RefreshTokenRepository.findByToken, gets. simpl.
  destruct (single _) as [old|]; [|intros [= <- <-]; auto].
  destruct (decide _) as [Hexp|Hlive].
  { unfold bind at 1. rewrite invalidateToken_spec. intros [= <- <-]. auto. }
  unfold bind at 1. unfold UserRepository.findById, gets. simpl.
  destruct (single _) as [u|]; [|intros [= <- <-]; auto].
  unfold bind at 1. rewrite invalidateToken_spec.
  intros Hg.
  pose proof (generateTokens_frame u now
           (with_refresh_tokens
              (filter (fun r => RefreshToken.token r ≠ v) (refresh_tokens s)) s))
    as Hf.
  rewrite Hg in Hf. exact Hf.
Qed.

Lemma after_mutation_frame (id : Id) (action : string) (now : Timestamp)
    (s s' : State) (res : result bool) :
  UserService.after_mutation true id action now s = (res, s') ->
  users s' = users s /\ cache s' = delete ("user:" +:+ id) (cache s).
Proof.
  unfold UserService.after_mutation, CacheService.del.
  unfold bind at 1. unfold bind at 1. unfold bind at 1. unfold modify at 1.
  unfold ret at 1.
  pose proof (log_frame id action "user" (Some id) [] now
                (with_cache (delete ("user:" +:+ id) (cache s)) s))
    as (Hl1 & Hl2 & Hl3 & Hl4).
  destruct (ActivityLogRepository.log _ _ _ _ _ now _) as [[[]|e] s3];
    simpl in *; intros [= <- <-]; rewrite Hl1, Hl3; auto.
Qed.

Lemma update_cases (id : Id) (b : bool) (now : Timestamp) (s : State) :
  UserRepository.update id b now s
    = (Throw (FailedToUpdate UserRepository.tableName), s) \/
  exists u,
    UserRepository.update id b now s
    = (Ok u,
       with_users
         ((fun u => if decide (User.id u = id ∧ User.deletedAt u = None)
                    then User.set_isBlocked b now u else u) <$> users s) s).
Proof.
  unfold UserRepository.update. run_monad.
  destruct (single _) as [u|]; [right; eauto | left; reflexivity].
Qed.

(** A call of the user service that rewrites rows touches only the rows of
    the id it was given, keeps their id and email, and drops the cache entry
    of that id; a call that fails before writing changes nothing. *)
Lemma mutator_shape (call : Call) (id : Id) (now : Timestamp) (s : State) :
  call = BlockUser id \/ call = UnblockUser id \/
  call = SoftDeleteUser id \/ call = RestoreUser id ->
  let s' := step s (call, now) in
  (users s' = users s /\ cache s' = cache s) \/
  exists f : User.t -> User.t,
    users s' = f <$> users s /\
    (forall u, User.id (f u) = User.id u /\ User.email (f u) = User.email u) /\
    (forall u, User.id u ≠ id -> f u = u) /\
    cache s' = delete ("user:" +:+ id) (cache s).
Proof.
  intros [-> | [-> | [-> | ->]]]; cbv zeta; unfold step.
  - destruct (UserService.blockUser id now s) as [res s'] eqn:Hcall. simpl.
    unfold UserService.blockUser, UserRepository.blockUser in Hcall.
    unfold bind at 1 in Hcall. unfold bind at 1 in Hcall.
    destruct (update_cases id true now s) as [H|[u H]]; rewrite H in Hcall.
    { injection Hcall as _ <-. left. split; reflexivity. }
    unfold ret at 1 in Hcall. right.
    apply after_mutation_frame in Hcall as [Hu Hc]. simpl in *.
    eexists. split; [exact Hu|]. split; [|split; [|exact Hc]].
    + intros u0. destruct (decide _); split; reflexivity.
    + intros u0 Hne. destruct (decide _) as [[Heq _]|_]; [contradiction|reflexivity].
  - destruct (UserService.unblockUser id now s) as [res s'] eqn:Hcall. simpl.
    unfold UserService.unblockUser, UserRepository.unblockUser in Hcall.
    unfold bind at 1 in Hcall. unfold bind at 1 in Hcall.
    destruct (update_cases id false now s) as [H|[u H]]; rewrite H in Hcall.
    { injection Hcall as _ <-. left. split; reflexivity. }
    unfold ret at 1 in Hcall. right.
    apply after_mutation_frame in Hcall as [Hu Hc]. simpl in *.
    eexists. split; [exact Hu|]. split; [|split; [|exact Hc]].
    + intros u0. destruct (decide _); split; reflexivity.
    + intros u0 Hne. destruct (decide _) as [[Heq _]|_]; [contradiction|reflexivity].
  - destruct (UserService.softDeleteUser id now s) as [res s'] eqn:Hcall. simpl.
    unfold UserService.softDeleteUser, UserRepository.softDelete in Hcall.
    unfold bind at 1 in Hcall. unfold bind at 1 in Hcall.
    unfold gets at 1 in Hcall. unfold bind at 1 in Hcall.
    unfold modify at 1 in Hcall. unfold ret at 1 in Hcall. right.
    apply after_mutation_frame in Hcall as [Hu Hc]. simpl in *.
    eexists. split; [exact Hu|]. split; [|split; [|exact Hc]].
    + intros u0. destruct (decide _); split; reflexivity.
    + intros u0 Hne. destruct (decide _) as [[Heq _]|_]; [contradiction|reflexivity].
  - destruct (UserService.restoreUser id now s) as [res s'] eqn:Hcall. simpl.
    unfold UserService.restoreUser, UserRepository.restore in Hcall.
    unfold bind at 1 in Hcall. unfold bind at 1 in Hcall.
    unfold gets at 1 in Hcall. unfold bind at 1 in Hcall.
    unfold modify at 1 in Hcall. unfold ret at 1 in Hcall. right.
    apply after_mutation_frame in Hcall as [Hu Hc]. simpl in *.
    eexists. split; [exact Hu|]. split; [|split; [|exact Hc]].
    + intros u0. destruct (decide _); split; reflexivity.
    + intros u0 Hne. destruct (decide _) as [[Heq _]|_]; [contradiction|reflexivity].
Qed.

(** [getUserById] writes the cache only on a miss, and then writes the live
    row of that id, whole. *)
Lemma getUserById_shape (id : Id) (now : Timestamp) (s : State) :
  let s' := snd (UserService.getUserById id now s) in
  users s' = users s /\
  (cache s' = cache s \/
   exists u,
     fst (UserRepository.findById id false s) = Ok (Some u) /\
     cache s' = <["user:" +:+ id := (u, now + 3600 * 1000)]> (cache s)).
Proof.
  unfold UserService.getUserById, CacheService.get, CacheService.set,
    UserRepository.findById.
  run_monad.
  destruct (cache s !! ("user:" +:+ id)) as [[value expiry]|].
  - destruct (decide (now < expiry)); simpl.
    + auto.
    + destruct (single _) as [u|]; simpl; [|auto].
      split; [reflexivity|]. right. exists u. auto.
  - destruct (single _) as [u|]; simpl; [|auto].
    split; [reflexivity|]. right. exists u. auto.
Qed.

(** Every call does one of four things to the [users] table and the cache:
    nothing; append a row with a new id and a new email; rewrite rows of
    one id in place while dropping the cache entry of that id; or copy the
    live row of an id into the cache. *)
Lemma step_shape (s : State) (c : Call * Timestamp) :
  (users (step s c) = users s /\ cache (step s c) = cache s) \/
  (exists u,
      users (step s c) = users s ++ [u] /\
      (User.id u ∉ User.id <$> users s) /\
      (User.email u ∉ User.email <$> users s) /\
      cache (step s c) = cache s) \/
  (exists (id : Id) (f : User.t -> User.t),
      users (step s c) = f <$> users s /\
      (forall u, User.id (f u) = User.id u /\ User.email (f u) = User.email u) /\
      (forall u, User.id u ≠ id -> f u = u) /\
      cache (step s c) = delete ("user:" +:+ id) (cache s)) \/
  (exists (id : Id) (u : User.t) (expiry : Timestamp),
      users (step s c) = users s /\
      fst (UserRepository.findById id false s) = Ok (Some u) /\
      cache (step s c) = <["user:" +:+ id := (u, expiry)]> (cache s)).
Proof.
  destruct c as [call now].
  destruct call as [name email password phoneNumber role | email password
                   | v | v | id | id | id | id | id].
  - simpl.
    destruct (AuthService.register name email password phoneNumber role now s)
      as [res s'] eqn:H.
    apply register_frame in H as [Hc [Hu|(u & Hu & Hid & Hem)]]; simpl.
    + left. auto.
    + right. left. exists u. auto.
  - simpl. destruct (AuthService.login email password now s) as [res s'] eqn:H.
    apply login_frame in H. left. exact H.
  - simpl. destruct (AuthService.refreshToken v now s) as [res s'] eqn:H.
    apply refreshToken_frame in H. left. exact H.
  - left. split; reflexivity.
  - pose proof (getUserById_shape id now s) as [Hu [Hc|(u & Hf & Hc)]].
    + left. auto.
    + right. right. right. exists id, u, (now + 3600 * 1000). auto.
  - destruct (mutator_shape (BlockUser id) id now s ltac:(tauto)) as [H|(f & H)];
      [left; exact H | right; right; left; exists id, f; exact H].
  - destruct (mutator_shape (UnblockUser id) id now s ltac:(tauto)) as [H|(f & H)];
      [left; exact H | right; right; left; exists id, f; exact H].
  - destruct (mutator_shape (SoftDeleteUser id) id now s ltac:(tauto)) as [H|(f & H)];
      [left; exact H | right; right; left; exists id, f; exact H].
  - destruct (mutator_shape (RestoreUser id) id now s ltac:(tauto)) as [H|(f & H)];
      [left; exact H | right; right; left; exists id, f; exact H].
Qed.

(** ** Registration *)

Lemma filter_snoc {A} (P : A -> Prop) `{!forall x, Decision (P x)}
    (l : list A) (a : A) :
  filter P (l ++ [a]) = filter P l ++ (if decide (P a) then [a] else []).
Proof.
  rewrite filter_app, filter_cons.
  destruct (decide (P a)); reflexivity.
Qed.

Lemma filter_fmap_stable {A} (P : A -> Prop) `{!forall x, Decision (P x)}
    (f : A -> A) (l : list A) :
  (forall a, P (f a) <-> P a) ->
  filter P (f <$> l) = f <$> filter P l.
Proof.
  intros Hf. induction l as [|a l IH]; [reflexivity|].
  rewrite fmap_cons, !filter_cons.
  destruct (decide (P (f a))) as [H1|H1], (decide (P a)) as [H2|H2].
  - rewrite fmap_cons, IH. reflexivity.
  - apply (proj1 (Hf a)) in H1. contradiction.
  - apply (proj2 (Hf a)) in H2. contradiction.
  - exact IH.
Qed.

Lemma filter_nil_not_elem {A B} `{EqDecision B} (g : A -> B) (b : B) (l : list A) :
  b ∉ g <$> l -> filter (fun a => g a = b) l = [].
Proof.
  intros Hn. induction l as [|a l IH]; [reflexivity|].
  rewrite fmap_cons in Hn. apply not_elem_of_cons in Hn as [Hne Hn].
  rewrite filter_cons. destruct (decide (g a = b)); [congruence|].
  apply IH, Hn.
Qed.

Lemma filter_singleton_elem {A B} `{EqDecision B} (g : A -> B) (b : B)
    (l : list A) (a : A) :
  filter (fun a => g a = b) l = [a] -> b ∈ g <$> l.
Proof.
  intros H.
  assert (Hin : a ∈ filter (fun a => g a = b) l)
    by (rewrite H; apply list_elem_of_singleton; reflexivity).
  apply list_elem_of_filter in Hin as [Hg Hin].
  rewrite <- Hg. apply list_elem_of_fmap. eauto.
Qed.

(** None of the calls of [Call] takes the email of an identity away from it
    or gives it to a second row. *)
Lemma email_owner_step (email : string) (uid : Id) (s : State)
    (c : Call * Timestamp) :
  (exists u, filter (fun u => User.email u = email) (users s) = [u] /\
             User.id u = uid) ->
  exists u, filter (fun u => User.email u = email) (users (step s c)) = [u] /\
            User.id u = uid.
Proof.
  intros (u & Hu & Hid).
  destruct (step_shape s c)
    as [[-> _] | [(n & -> & _ & Hem & _) | [(id & f & -> & Hf & _) | (id & u' & e & -> & _)]]].
  - eauto.
  - exists u. split; [|exact Hid]. rewrite filter_snoc, Hu.
    destruct (decide (User.email n = email)) as [Heq|_]; [|reflexivity].
    exfalso. apply Hem. rewrite Heq.
    eapply filter_singleton_elem. exact Hu.
  - exists (f u). split.
    + rewrite filter_fmap_stable, Hu; [reflexivity|].
      intros a. destruct (Hf a) as [_ ->]. tauto.
    + destruct (Hf u) as [-> _]. exact Hid.
  - eauto.
Qed.

Lemma email_owner_run (email : string) (uid : Id) (calls : list (Call * Timestamp))
    (s : State) :
  (exists u, filter (fun u => User.email u = email) (users s) = [u] /\
             User.id u = uid) ->
  exists u, filter (fun u => User.email u = email) (users (run s calls)) = [u] /\
            User.id u = uid.
Proof.
  revert s. induction calls as [|c calls IH]; intros s H; [exact H|].
  simpl. apply IH, email_owner_step, H.
Qed.

Lemma register_existing (name email password phoneNumber : string) (role : Role)
    (now : Timestamp) (s : State) (u : User.t) :
  fst (UserRepository.findByEmail email s) = Ok (Some u) ->
  AuthService.register name email password phoneNumber role now s
  = (Throw UserAlreadyExists, s).
Proof.
  unfold AuthService.register, UserRepository.findByEmail. run_monad.
  intros [= ->]. reflexivity.
Qed.

Lemma NoDup_emails_filter (l : list User.t) (u : User.t) :
  NoDup (User.email <$> l) -> u ∈ l ->
  filter (fun x => User.email x = User.email u) l = [u].
Proof.
  induction l as [|a l IH]; intros Hnd Hin.
  - apply elem_of_nil in Hin. contradiction.
  - rewrite fmap_cons in Hnd. apply NoDup_cons in Hnd as [Ha Hnd].
    rewrite filter_cons. apply elem_of_cons in Hin as [->|Hin].
    + destruct (decide (User.email a = User.email a)); [|contradiction].
      rewrite (filter_nil_not_elem User.email (User.email a) l Ha). reflexivity.
    + destruct (decide (User.email a = User.email u)) as [Heq|_];
        [|apply IH; assumption].
      exfalso. apply Ha. rewrite Heq. apply list_elem_of_fmap. eauto.
Qed.

(** C4, as the code has it.  [findByEmail] compares the email as it was
    typed.  When a [register] call has returned, a second [register] with
    the very same email string throws "User already exists with this
    email" (a [DuplicateCredential]) and leaves the whole state, so also the
    [users] table, as it was: directly after the first call, and in every
    later state of the database, however it was reached, in which the
    identity the first call created is still stored under that email and
    is not soft-deleted ([email ... UNIQUE] holding of the table, as it
    does of every state of the database). *)
Theorem second_register_with_same_email_is_refused
    (s s1 : State) (name1 email password1 phoneNumber1 : string) (role1 : Role)
    (now1 : Timestamp) (t1 : Tokens.t)
    (name2 password2 phoneNumber2 : string) (role2 : Role) (now2 : Timestamp) :
  AuthService.register name1 email password1 phoneNumber1 role1 now1 s
    = (Ok t1, s1) ->
  AuthService.register name2 email password2 phoneNumber2 role2 now2 s1
    = (Throw UserAlreadyExists, s1) /\
  (forall s2 : State,
     NoDup (User.email <$> users s2) ->
     (exists u, u ∈ users s2 /\ User.id u = UserDTO.id (Tokens.user t1) /\
                User.email u = email /\ User.deletedAt u = None) ->
     AuthService.register name2 email password2 phoneNumber2 role2 now2 s2
     = (Throw UserAlreadyExists, s2)) /\
  kind UserAlreadyExists = Some DuplicateCredential.
Proof.
  intros Hreg. split; [|split; [|reflexivity]].
  - apply register_inv in Hreg
      as (u & r & Hu & Hem & Hlive & Htu & _ & Hfresh & _).
    apply (register_existing _ _ _ _ _ _ _ u).
    unfold UserRepository.findByEmail, gets. cbn [fst]. rewrite Hu, filter_snoc.
    rewrite (filter_nil_not_elem User.email email)
      by (rewrite <- Hem; exact Hfresh).
    destruct (decide (User.email u = email)); [|contradiction].
    cbn [app]. rewrite filter_cons, filter_nil.
    destruct (decide (User.deletedAt u = None)); [reflexivity | contradiction].
  - intros s2 Hunique (u & Hin & _ & Hem & Hlive).
    apply (register_existing _ _ _ _ _ _ _ u).
    unfold UserRepository.findByEmail, gets. cbn [fst]. rewrite <- Hem.
    rewrite (NoDup_emails_filter _ u Hunique Hin), filter_cons, filter_nil.
    destruct (decide (User.deletedAt u = None)); [reflexivity | contradiction].
Qed.

Lemma second_register_with_same_email_is_refused_witness :
  AuthService.register "Eve" "alice@x.com" "An0ther!Pass" "0987654321" ADMIN 9000
    alice_registered
  = (Throw UserAlreadyExists, alice_registered) /\
  AuthService.register "Eve" "alice@x.com" "An0ther!Pass" "0987654321" ADMIN 9000
    (run alice_registered
       [(Login "alice@x.com" "Str0ng!Pass", 2200); (BlockUser "uuid-1", 4500)])
  = (Throw UserAlreadyExists,
     run alice_registered
       [(Login "alice@x.com" "Str0ng!Pass", 2200); (BlockUser "uuid-1", 4500)]).
Proof.
  edestruct (second_register_with_same_email_is_refused
               (initial_state default_config) alice_registered
               "Alice" "alice@x.com" "Str0ng!Pass" "0123456789" STUDENT 1000)
    as (Hnext & Hlater & _).
  - vm_compute. reflexivity.
  - split; [apply Hnext|]. apply Hlater.
    + apply (bool_decide_unpack (NoDup _)). vm_compute. exact I.
    + eexists. split; [|split; [|split]].
      * vm_compute. apply list_elem_of_here.
      * reflexivity.
      * reflexivity.
      * reflexivity.
Defined.

(** C4, as stated, fails: two emails that differ only in case are two
    identities.  After Alice registered as alice@x.com, a registration as
    Alice@x.com returns tokens and the table has two rows. *)
Lemma register_compares_emails_case_sensitively :
  normalize_email "Alice@x.com" = normalize_email "alice@x.com" /\
  (exists t, fst (AuthService.register "Alice" "alice@x.com" "Str0ng!Pass"
                    "0123456789" STUDENT 1000 (initial_state default_config))
             = Ok t) /\
  (forall u, u ∈ users alice_registered -> User.deletedAt u = None) /\
  (exists t, fst (AuthService.register "Alice" "Alice@x.com" "Str0ng!Pass"
                    "0123456789" STUDENT 3000 alice_registered) = Ok t) /\
  User.email <$> users (snd (AuthService.register "Alice" "Alice@x.com"
                               "Str0ng!Pass" "0123456789" STUDENT 3000
                               alice_registered))
  = ["alice@x.com"; "Alice@x.com"].
Proof.
  split; [reflexivity|]. split; [eexists; vm_compute; reflexivity|].
  split.
  - intros u Hin. vm_compute in Hin.
    apply list_elem_of_singleton in Hin. subst u. reflexivity.
  - split; [eexists; vm_compute; reflexivity | vm_compute; reflexivity].
Qed.

(** C6, as the code has it.  [register] looks the email up first and checks
    the password second, and its password rule is the length alone.  For
    a password of fewer than 8 characters it throws and leaves the state as
    it was: "User already exists with this email" ([DuplicateCredential])
    when a live identity has the email, "Password must be at least 8
    characters long" ([WeakCredential]) when none has. *)
Theorem register_rejects_short_password
    (s : State) (name email password phoneNumber : string) (role : Role)
    (now : Timestamp) :
  (String.length password < 8)%nat ->
  exists e,
    AuthService.register name email password phoneNumber role now s
      = (Throw e, s) /\
    kind e = Some (match fst (UserRepository.findByEmail email s) with
                   | Ok (Some _) => DuplicateCredential
                   | _ => WeakCredential
                   end).
Proof.
  intros Hshort.
  assert (Hv : AuthService.validatePassword password = false).
  { unfold AuthService.validatePassword. apply Nat.leb_gt. exact Hshort. }
  unfold AuthService.register, UserRepository.findByEmail. run_monad.
  destruct (single _) as [existing|].
  - exists UserAlreadyExists. split; reflexivity.
  - rewrite Hv. simpl. exists PasswordTooShort. split; reflexivity.
Qed.

Lemma register_rejects_short_password_witness :
  exists e,
    AuthService.register "Eve" "eve@x.com" "short" "0987654321" STUDENT 9000
      alice_registered = (Throw e, alice_registered) /\
    kind e = Some (match fst (UserRepository.findByEmail "eve@x.com"
                                alice_registered) with
                   | Ok (Some _) => DuplicateCredential
                   | _ => WeakCredential
                   end).
Proof.
  apply (register_rejects_short_password alice_registered "Eve" "eve@x.com"
           "short" "0987654321" STUDENT 9000).
  simpl. lia.
Defined.

(** C6, as stated, fails: with a password that is too short and an email
    that is taken, the error is the duplicate, not the weak password. *)
Lemma register_reports_duplicate_before_weak_password :
  AuthService.validatePassword "short" = false /\
  SecurityConfig.validatePassword "short" = false /\
  AuthService.register "Eve" "alice@x.com" "short" "0987654321" STUDENT 9000
    alice_registered = (Throw UserAlreadyExists, alice_registered) /\
  kind UserAlreadyExists = Some DuplicateCredential /\
  kind UserAlreadyExists <> Some WeakCredential.
Proof.
  split; [reflexivity|]. split; [vm_compute; reflexivity|].
  split; [|split; [reflexivity | discriminate]].
  apply (register_existing _ _ _ _ _ _ _
           (User.mk "uuid-1" "Alice" "alice@x.com" (Bcrypt 12 0 "Str0ng!Pass")
              "0123456789" "" "" OTHER STUDENT None [] false None 1000 1000 None)).
  vm_compute. reflexivity.
Qed.

(** The password rule of the security configuration is stricter than the
    one [register] applies: a password can pass the latter and fail the
    former. *)
Lemma register_applies_the_length_rule_only :
  AuthService.validatePassword "password123" = true /\
  SecurityConfig.validatePassword "password123" = false /\
  SecurityConfig.validatePassword "Str0ng!Pass" = true.
Proof. vm_compute. repeat split; reflexivity. Qed.

(** ** The identity cache *)

Lemma findById_users (id : Id) (s : State) :
  fst (UserRepository.findById id false s)
  = Ok (single (filter (fun u => User.deletedAt u = None)
                  (filter (fun u => User.id u = id) (users s)))).
Proof. reflexivity. Qed.

Lemma fmap_fixed {A} (f : A -> A) (l : list A) :
  (forall a, a ∈ l -> f a = a) -> f <$> l = l.
Proof.
  induction l as [|a l IH]; intros H; [reflexivity|].
  rewrite fmap_cons, H, IH; [reflexivity| |apply list_elem_of_here].
  intros b Hb. apply H. apply list_elem_of_further, Hb.
Qed.

Lemma user_key_inj (id1 id2 : Id) :
  "user:" +:+ id1 = "user:" +:+ id2 -> id1 = id2.
Proof. simpl. intros H. injection H. auto. Qed.

Lemma cache_coherent_step (s : State) (c : Call * Timestamp) :
  cache_coherent s -> cache_coherent (step s c).
Proof.
  intros Hco key entry expiry Hlook.
  rewrite findById_users.
  destruct (step_shape s c)
    as [[Hu Hc] | [(n & Hu & Hid & _ & Hc)
       | [(id & f & Hu & Hf & Hfix & Hc) | (id & u & e & Hu & Hfind & Hc)]]];
    rewrite Hu; rewrite Hc in Hlook.
  - destruct (Hco key entry expiry Hlook) as [Hk Hrow].
    rewrite findById_users in Hrow. auto.
  - destruct (Hco key entry expiry Hlook) as [Hk Hrow].
    rewrite findById_users in Hrow. split; [exact Hk|].
    rewrite filter_snoc.
    destruct (decide (User.id n = User.id entry)) as [Heq|_].
    + exfalso. apply Hid. rewrite Heq.
      injection Hrow as Hrow. apply single_Some in Hrow.
      assert (Hin : entry ∈ filter (fun u => User.deletedAt u = None)
                      (filter (fun u => User.id u = User.id entry) (users s)))
        by (rewrite Hrow; apply list_elem_of_singleton; reflexivity).
      apply list_elem_of_filter in Hin as [_ Hin].
      apply list_elem_of_filter in Hin as [_ Hin].
      apply list_elem_of_fmap. eauto.
    + rewrite app_nil_r. exact Hrow.
  - destruct (decide (key = "user:" +:+ id)) as [->|Hne].
    { rewrite lookup_delete_eq in Hlook. discriminate. }
    rewrite lookup_delete_ne in Hlook by congruence.
    destruct (Hco key entry expiry Hlook) as [Hk Hrow].
    rewrite findById_users in Hrow. split; [exact Hk|].
    assert (Hid : User.id entry ≠ id) by (intros <-; contradiction).
    rewrite filter_fmap_stable
      by (intros a; destruct (Hf a) as [-> _]; tauto).
    rewrite fmap_fixed; [exact Hrow|].
    intros a Ha. apply list_elem_of_filter in Ha as [Ha _].
    apply Hfix. congruence.
  - assert (Huid : User.id u = id).
    { rewrite findById_users in Hfind. injection Hfind as Hfind.
      apply single_Some in Hfind.
      assert (Hin : u ∈ filter (fun u => User.deletedAt u = None)
                      (filter (fun u => User.id u = id) (users s)))
        by (rewrite Hfind; apply list_elem_of_singleton; reflexivity).
      apply list_elem_of_filter in Hin as [_ Hin].
      apply list_elem_of_filter in Hin as [Hin _]. exact Hin. }
    destruct (decide (key = "user:" +:+ id)) as [->|Hne].
    + rewrite lookup_insert_eq in Hlook. injection Hlook as <- <-.
      rewrite Huid. rewrite findById_users in Hfind. auto.
    + rewrite lookup_insert_ne in Hlook by congruence.
      destruct (Hco key entry expiry Hlook) as [Hk Hrow].
      rewrite findById_users in Hrow. auto.
Qed.




(** ** Rotation of refresh tokens *)

(** A rotation that mints a value other than the one it consumed leaves no
    record of the consumed value: presenting it again is refused. *)
Lemma consumed_value_is_refused (v : TokenValue) (now now' : Timestamp)
    (s s' : State) (t : Tokens.t) :
  AuthService.refreshToken v now s = (Ok t, s') ->
  Tokens.refreshToken t ≠ v ->
  AuthService.refreshToken v now' s' = (Throw InvalidRefreshToken, s').
Proof.
  intros H Hne.
  apply refreshToken_inv in H
    as (old & u & r & _ & _ & _ & _ & _ & _ & Hr & Htok & _).
  unfold AuthService.refreshToken, RefreshTokenRepository.findByToken.
  run_monad. rewrite Hr, filter_snoc, list_filter_filter.
  destruct (decide (RefreshToken.token r = v)) as [Heq|_]; [congruence|].
  replace (filter _ (refresh_tokens s)) with (@nil RefreshToken.t);
    [reflexivity|].
  symmetry. clear Hr. induction (refresh_tokens s) as [|a l IH]; [reflexivity|].
  rewrite filter_cons. destruct (decide _) as [[H1 H2]|_]; [congruence|].
  exact IH.
Qed.

(** The value a rotation mints is the signature of the identity's claims
    in the second of the call. *)
Lemma rotation_mints_by_the_second (v : TokenValue) (now : Timestamp)
    (s s' : State) (t : Tokens.t) :
  AuthService.refreshToken v now s = (Ok t, s') ->
  exists payload,
    Tokens.refreshToken t
    = Jwt (JWT_REFRESH_SECRET (env s)) payload (now / 1000)
        (now / 1000 + JWT_REFRESH_EXPIRES_IN (env s)).
Proof.
  unfold AuthService.refreshToken.
  unfold bind at 1. unfold RefreshTokenRepository.findByToken, gets. simpl.
  destruct (single _) as [old|]; [|discriminate].
  destruct (decide _) as [Hexp|Hlive].
  { unfold bind at 1. rewrite invalidateToken_spec. discriminate. }
  unfold bind at 1. unfold UserRepository.findById, gets. simpl.
  destruct (single _) as [u|]; [|discriminate].
  unfold bind at 1. rewrite invalidateToken_spec.
  unfold AuthService.generateTokens. unfold bind at 1, gets at 1. simpl.
  unfold bind at 1.
  destruct (RefreshTokenRepository.create _ _ _ _ _) as [[r|e] s1]; [|discriminate].
  unfold ret. intros [= <- <-]. simpl. unfold jwt_sign. eauto.
Qed.

(** C1 at the failing input.  Alice registers at 1.000 s and is given the
    refresh token [alice_refresh].  She rotates it at 1.500 s, in the second
    it was issued: the call succeeds and the token it returns is
    [alice_refresh] again, stored anew.  Presenting [alice_refresh] once
    more at 5 s succeeds too, where the claim wants "Invalid refresh
    token". *)
Theorem rotation_in_the_second_of_issue_keeps_the_value_valid :
  (exists t0,
      fst (AuthService.register "Alice" "alice@x.com" "Str0ng!Pass" "0123456789"
             STUDENT 1000 (initial_state default_config)) = Ok t0 /\
      Tokens.refreshToken t0 = alice_refresh) /\
  (exists t1,
      fst (AuthService.refreshToken alice_refresh 1500 alice_registered) = Ok t1 /\
      Tokens.refreshToken t1 = alice_refresh) /\
  (exists t2,
      fst (AuthService.refreshToken alice_refresh 5000
             (snd (AuthService.refreshToken alice_refresh 1500 alice_registered)))
      = Ok t2) /\
  fst (AuthService.refreshToken alice_refresh 5000
         (snd (AuthService.refreshToken alice_refresh 2500 alice_registered)))
  = Throw InvalidRefreshToken.
Proof.
  split; [eexists; split; [vm_compute; reflexivity | reflexivity]|].
  split; [eexists; split; [vm_compute; reflexivity | reflexivity]|].
  split; [eexists; vm_compute; reflexivity | vm_compute; reflexivity].
Qed.

(** ** Failed logins *)

(** A login that is turned away for its credentials or for a block leaves
    the state as it was: nothing counts the attempt. *)
Lemma refused_login_leaves_no_trace (email password : string) (now : Timestamp)
    (s s' : State) (e : Error) :
  AuthService.login email password now s = (Throw e, s') ->
  e = InvalidCredentials \/ e = AccountIsBlocked ->
  s' = s.
Proof.
  unfold AuthService.login.
  unfold bind at 1. unfold UserRepository.findByEmail, gets. simpl.
  destruct (single _) as [u|]; [|intros [= _ <-]; reflexivity].
  destruct (User.isBlocked u); [intros [= _ <-]; reflexivity|].
  destruct (negb _); [intros [= _ <-]; reflexivity|].
  unfold bind at 1.
  destruct (AuthService.generateTokens u now s) as [[t1|e1] s2] eqn:Hg.
  - unfold bind at 1.
    unfold ActivityLogRepository.log, uuidv4. run_monad.
    destruct (decide _); simpl; [|discriminate].
    intros [= <- _] [H|H]; discriminate.
  - unfold AuthService.generateTokens, RefreshTokenRepository.create, uuidv4 in Hg.
    run_monad. destruct (decide _); simpl in Hg; [|discriminate].
    injection Hg as <- _. intros [= <- _] [H|H]; discriminate.
Qed.

(** No error of the code stands for a lockout. *)
Lemma no_error_is_a_lockout (e : Error) : kind e ≠ Some AccountLockedOut.
Proof. destruct e; discriminate. Qed.

(** C2 at the failing input.  After five logins for alice@x.com with a
    wrong password, one a second, the state is what it was before them, and
    the login with the right password in the next second returns tokens.
    The throttle of the security configuration, fed the same five failures,
    reports the identifier as locked at that instant; [login] never asks
    it. *)
Theorem login_is_not_locked_out_after_failures :
  Z.of_nat 5 = SecurityConfig.MAX_LOGIN_ATTEMPTS /\
  fst (AuthService.login "alice@x.com" "wrong-password" 2000 alice_registered)
    = Throw InvalidCredentials /\
  failed_logins 5 2000 alice_registered = alice_registered /\
  (exists t,
      fst (AuthService.login "alice@x.com" "Str0ng!Pass" 7000
             (failed_logins 5 2000 alice_registered)) = Ok t) /\
  fst (SecurityConfig.checkBruteForceAttempts "alice@x.com"
         SecurityConfig.MAX_LOGIN_ATTEMPTS 7000
         (recorded_failures 5 2000 ∅)) = true.
Proof.
  split; [reflexivity|]. split; [vm_compute; reflexivity|].
  assert (Hfail : forall now,
             AuthService.login "alice@x.com" "wrong-password" now alice_registered
             = (Throw InvalidCredentials, alice_registered)).
  { intros now.
    destruct (AuthService.login "alice@x.com" "wrong-password" now alice_registered)
      as [res s'] eqn:H.
    assert (Hres : res = Throw InvalidCredentials).
    { change res with (fst (res, s')). rewrite <- H. vm_compute. reflexivity. }
    subst res. f_equal.
    eapply refused_login_leaves_no_trace; [exact H | left; reflexivity]. }
  assert (Hsame : failed_logins 5 2000 alice_registered = alice_registered).
  { cbn [failed_logins]. repeat (rewrite Hfail; cbn [snd]). reflexivity. }
  split; [exact Hsame|]. split.
  - rewrite Hsame. eexists. vm_compute. reflexivity.
  - vm_compute. reflexivity.
Qed.

(** ** Refresh by a blocked identity *)

(** [refreshToken] has no error for a blocked account. *)
Lemma refreshToken_never_reports_a_block (v : TokenValue) (now : Timestamp)
    (s : State) (e : Error) :
  fst (AuthService.refreshToken v now s) = Throw e ->
  kind e ≠ Some AccountBlocked.
Proof.
  unfold AuthService.refreshToken.
  unfold bind at 1. unfold RefreshTokenRepository.findByToken, gets. simpl.
  destruct (single _) as [old|]; [|intros [= <-]; discriminate].
  destruct (decide _) as [Hexp|Hlive].
  { unfold bind at 1. rewrite invalidateToken_spec. intros [= <-]. discriminate. }
  unfold bind at 1. unfold UserRepository.findById, gets. simpl.
  destruct (single _) as [u|]; [|intros [= <-]; discriminate].
  unfold bind at 1. rewrite invalidateToken_spec.
  unfold AuthService.generateTokens, RefreshTokenRepository.create, uuidv4.
  run_monad. destruct (decide _); simpl; intros [= <-]. discriminate.
Qed.

(** C3 at the failing input.  Alice is blocked at 4.500 s, after her refresh
    token was issued.  At 5 s a login is refused with "Account is blocked"
    and her access token no longer authenticates, but [refreshToken] with
    her refresh token returns a new pair and stores the new refresh
    token. *)
Theorem blocked_identity_can_still_refresh :
  (exists u, fst (UserRepository.findById "uuid-1" false alice_blocked) = Ok (Some u)
             /\ User.isBlocked u = true) /\
  fst (AuthService.login "alice@x.com" "Str0ng!Pass" 5000 alice_blocked)
    = Throw AccountIsBlocked /\
  fst (AuthMiddleware.authenticate (Some alice_access) 5000 alice_blocked)
    = Ok None /\
  (exists t,
      fst (AuthService.refreshToken alice_refresh 5000 alice_blocked) = Ok t /\
      Tokens.refreshToken t = Jwt "refresh-secret" alice_claims 5 604805 /\
      RefreshToken.token <$>
        refresh_tokens (snd (AuthService.refreshToken alice_refresh 5000 alice_blocked))
      = [Tokens.refreshToken t]).
Proof.
  split; [eexists; split; [vm_compute; reflexivity | reflexivity]|].
  split; [vm_compute; reflexivity|]. split; [vm_compute; reflexivity|].
  eexists. split; [vm_compute; reflexivity|].
  split; [reflexivity | vm_compute; reflexivity].
Qed.

(** A rotation in a second other than the one the presented value was
    signed in consumes the value for good. *)
Lemma rotation_in_another_second_consumes_the_value
    (key : string) (payload : Claims) (iat exp : Z) (now now' : Timestamp)
    (s s' : State) (t : Tokens.t) :
  AuthService.refreshToken (Jwt key payload iat exp) now s = (Ok t, s') ->
  iat ≠ now / 1000 ->
  AuthService.refreshToken (Jwt key payload iat exp) now' s'
  = (Throw InvalidRefreshToken, s').
Proof.
  intros H Hiat. eapply consumed_value_is_refused; [exact H|].
  apply rotation_mints_by_the_second in H as [p ->]. congruence.
Qed.

(** Whatever a guarded route hands to the role check is a stored identity
    that is neither soft-deleted nor blocked. *)
Lemma authenticated_user_is_live (bearer : option TokenValue) (now : Timestamp)
    (s : State) (ru : ReqUser.t) :
  fst (AuthMiddleware.authenticate bearer now s) = Ok (Some ru) ->
  exists u, u ∈ users s /\ User.id u = ReqUser.id ru /\
            User.deletedAt u = None /\ User.isBlocked u = false /\
            ReqUser.role ru = Role_value (User.role u).
Proof.
  unfold AuthMiddleware.authenticate. unfold bind at 1, gets at 1. simpl.
  destruct bearer as [token|]; [|discriminate].
  destruct (jwt_verify _ _ _) as [payload|]; [|discriminate].
  intros H. apply verify_Some_live in H as (u & Hin & Hid & Hdel & Hb & ->).
  exists u. simpl. auto.
Qed.

(** * Further properties of the session code *)

(** ** Well-formed states *)

Lemma issued_mono (n m : N) (id : Id) : (n <= m)%N -> issued n id -> issued m id.
Proof. intros Hle (k & Hk & ->). exists k. split; [lia | reflexivity]. Qed.

Lemma token_issued_mono (n m : N) (token : TokenValue) :
  (n <= m)%N -> token_issued n token -> token_issued m token.
Proof. destruct token; simpl; [apply issued_mono | tauto]. Qed.

Lemma issued_not_next (n : N) (id : Id) :
  issued n id -> id ≠ "uuid-" +:+ pretty n.
Proof.
  intros (k & Hk & ->) Heq. simpl in Heq. injection Heq as Heq.
  change (pretty k = pretty n) in Heq. apply pretty_N_inj in Heq. lia.
Qed.

Lemma well_formed_initial (cfg : Config) : well_formed (initial_state cfg).
Proof.
  unfold well_formed. simpl. split; [|split; [|split]].
  - intros u Hin. apply elem_of_nil in Hin. contradiction.
  - apply NoDup_nil_2.
  - intros r Hin. apply elem_of_nil in Hin. contradiction.
  - intros a Hin. apply elem_of_nil in Hin. contradiction.
Qed.

Lemma well_formed_tick (s : State) :
  well_formed s -> well_formed (with_entropy (entropy s + 1)%N s).
Proof.
  intros (Hu & Hnd & Hr & Ha). unfold well_formed. simpl.
  split; [|split; [|split]].
  - intros u Hin. eapply issued_mono; [|apply Hu, Hin]. lia.
  - exact Hnd.
  - intros r Hin. destruct (Hr r Hin) as [H1 H2]. split.
    + eapply issued_mono; [|exact H1]. lia.
    + eapply token_issued_mono; [|exact H2]. lia.
  - intros a Hin. eapply issued_mono; [|apply Ha, Hin]. lia.
Qed.

Lemma well_formed_cache (c : gmap string (User.t * Timestamp)) (s : State) :
  well_formed s -> well_formed (with_cache c s).
Proof. intros H. exact H. Qed.

Lemma well_formed_filter_tokens (P : RefreshToken.t -> Prop)
    `{!forall r, Decision (P r)} (s : State) :
  well_formed s ->
  well_formed (with_refresh_tokens (filter P (refresh_tokens s)) s).
Proof.
  intros (Hu & Hnd & Hr & Ha). unfold well_formed. simpl.
  split; [exact Hu|]. split; [exact Hnd|]. split; [|exact Ha].
  intros r Hin. apply list_elem_of_filter in Hin as [_ Hin]. apply Hr, Hin.
Qed.

Lemma well_formed_map_users (f : User.t -> User.t) (s : State) :
  (forall u, User.id (f u) = User.id u) ->
  well_formed s -> well_formed (with_users (f <$> users s) s).
Proof.
  intros Hf (Hu & Hnd & Hr & Ha). unfold well_formed. simpl.
  split; [|split; [|split; [exact Hr | exact Ha]]].
  - intros u Hin. apply list_elem_of_fmap in Hin as (u0 & -> & Hin).
    rewrite Hf. apply Hu, Hin.
  - rewrite <- list_fmap_compose.
    erewrite list_fmap_ext; [exact Hnd|]. intros i u _. simpl. apply Hf.
Qed.

Lemma well_formed_add_user (u : User.t) (s : State) :
  well_formed s -> issued (entropy s) (User.id u) ->
  (User.id u ∉ User.id <$> users s) ->
  well_formed (with_users (users s ++ [u]) s).
Proof.
  intros (Hu & Hnd & Hr & Ha) Hi Hfresh. unfold well_formed. simpl.
  split; [|split; [|split; [exact Hr | exact Ha]]].
  - intros x Hin. apply elem_of_app in Hin as [Hin|Hin]; [apply Hu, Hin|].
    apply list_elem_of_singleton in Hin. subst x. exact Hi.
  - rewrite fmap_app. apply NoDup_app. split; [exact Hnd|]. split.
    + intros x Hx Hx'. simpl in Hx'. apply list_elem_of_singleton in Hx'.
      subst x. contradiction.
    + simpl. apply NoDup_singleton.
Qed.

Lemma well_formed_add_token (r : RefreshToken.t) (s : State) :
  well_formed s -> issued (entropy s) (RefreshToken.id r) ->
  token_issued (entropy s) (RefreshToken.token r) ->
  well_formed (with_refresh_tokens (refresh_tokens s ++ [r]) s).
Proof.
  intros (Hu & Hnd & Hr & Ha) Hi Ht. unfold well_formed. simpl.
  split; [exact Hu|]. split; [exact Hnd|]. split; [|exact Ha].
  intros x Hin. apply elem_of_app in Hin as [Hin|Hin]; [apply Hr, Hin|].
  apply list_elem_of_singleton in Hin. subst x. auto.
Qed.

Lemma well_formed_add_log (a : ActivityLog.t) (s : State) :
  well_formed s -> issued (entropy s) (ActivityLog.id a) ->
  well_formed (with_activity_logs (activity_logs s ++ [a]) s).
Proof.
  intros (Hu & Hnd & Hr & Ha) Hi. unfold well_formed. simpl.
  split; [exact Hu|]. split; [exact Hnd|]. split; [exact Hr|].
  intros x Hin. apply elem_of_app in Hin as [Hin|Hin]; [apply Ha, Hin|].
  apply list_elem_of_singleton in Hin. subst x. exact Hi.
Qed.

Lemma issued_next (n : N) : issued (n + 1) ("uuid-" +:+ pretty n).
Proof. exists n. split; [lia | reflexivity]. Qed.

Lemma keeps_ret {A} (P : State -> Prop) (a : A) (Q : A -> State -> Prop) :
  (forall s, P s -> Q a s) -> keeps P (ret a) Q.
Proof. intros H s Hwf HP. split; [exact Hwf|]. intros a' [= <-]. apply H, HP. Qed.

Lemma keeps_throw {A} (P : State -> Prop) (e : Error) (Q : A -> State -> Prop) :
  keeps P (throw e) Q.
Proof. intros s Hwf HP. split; [exact Hwf|]. intros a' H. discriminate. Qed.

Lemma keeps_gets {A} (P : State -> Prop) (f : State -> A)
    (Q : A -> State -> Prop) :
  (forall s, well_formed s -> P s -> Q (f s) s) -> keeps P (gets f) Q.
Proof.
  intros H s Hwf HP. split; [exact Hwf|]. intros a' [= <-]. apply H; assumption.
Qed.

Lemma keeps_bind {A B} (P : State -> Prop) (m : M A) (Q : A -> State -> Prop)
    (k : A -> M B) (R : B -> State -> Prop) :
  keeps P m Q -> (forall a, keeps (Q a) (k a) R) -> keeps P (bind m k) R.
Proof.
  intros Hm Hk s Hwf HP. destruct (Hm s Hwf HP) as [Hwf1 HQ].
  unfold bind. destruct (m s) as [[a|e] s1]; simpl in *.
  - apply Hk; [exact Hwf1 | apply HQ; reflexivity].
  - split; [exact Hwf1 | intros b H; discriminate].
Qed.

Lemma keeps_weaken {A} (P P' : State -> Prop) (m : M A)
    (Q Q' : A -> State -> Prop) :
  keeps P' m Q' -> (forall s, P s -> P' s) ->
  (forall a s, Q' a s -> Q a s) -> keeps P m Q.
Proof.
  intros H HP HQ s Hwf Hp. destruct (H s Hwf (HP s Hp)) as [H1 H2].
  split; [exact H1 | intros a Ha; apply HQ, H2, Ha].
Qed.

Lemma create_user_keeps (data : NewUser.t) (now : Timestamp) :
  keeps (fun _ => True) (UserRepository.create data now)
    (fun u s => issued (entropy s) (User.id u)).
Proof.
  intros s Hwf _. unfold UserRepository.create, uuidv4. run_monad.
  destruct (decide _) as [Hdup|Hfresh]; simpl.
  - split; [apply well_formed_tick, Hwf | intros a H; discriminate].
  - split.
    + apply (well_formed_add_user _ (with_entropy (entropy s + 1)%N s)).
      * apply well_formed_tick, Hwf.
      * apply issued_next.
      * simpl. tauto.
    + intros a [= <-]. simpl. apply issued_next.
Qed.

Lemma create_token_keeps (userId : Id) (token : TokenValue)
    (expiresAt now : Timestamp) :
  keeps (fun s => token_issued (entropy s) token)
    (RefreshTokenRepository.create userId token expiresAt now)
    (fun _ _ => True).
Proof.
  intros s Hwf Htok. unfold RefreshTokenRepository.create, uuidv4. run_monad.
  destruct (decide _) as [Hdup|Hfresh]; simpl.
  - split; [apply well_formed_tick, Hwf | intros a H; discriminate].
  - split; [|auto].
    apply (well_formed_add_token _ (with_entropy (entropy s + 1)%N s)).
    + apply well_formed_tick, Hwf.
    + apply issued_next.
    + simpl. eapply token_issued_mono; [|exact Htok]. lia.
Qed.

Lemma log_keeps (userId : Id) (action resourceType : string)
    (resourceId : option Id) (details : list (string * string))
    (now : Timestamp) :
  keeps (fun _ => True)
    (ActivityLogRepository.log userId action resourceType resourceId details now)
    (fun _ _ => True).
Proof.
  intros s Hwf _. unfold ActivityLogRepository.log, uuidv4. run_monad.
  destruct (decide _) as [Hdup|Hfresh]; simpl.
  - split; [apply well_formed_tick, Hwf | intros a H; discriminate].
  - split; [|auto].
    apply (well_formed_add_log _ (with_entropy (entropy s + 1)%N s)).
    + apply well_formed_tick, Hwf.
    + apply issued_next.
Qed.

Lemma invalidateToken_keeps (id : Id) (v : TokenValue) :
  keeps (fun s => issued (entropy s) id)
    (RefreshTokenRepository.invalidateToken v)
    (fun _ s => issued (entropy s) id).
Proof.
  intros s Hwf Hid. rewrite invalidateToken_spec. simpl.
  split; [apply well_formed_filter_tokens, Hwf | auto].
Qed.

Lemma single_elem {A} (rows : list A) (row : A) :
  single rows = Some row -> row ∈ rows.
Proof. intros H. apply single_Some in H. subst. apply list_elem_of_here. Qed.

Lemma findByEmail_keeps (email : string) :
  keeps (fun _ => True) (UserRepository.findByEmail email)
    (fun o s => forall u, o = Some u -> issued (entropy s) (User.id u)).
Proof.
  apply keeps_gets. intros s (Hu & _) _ u Hs.
  apply single_elem, list_elem_of_filter in Hs as [_ Hs].
  apply list_elem_of_filter in Hs as [_ Hs]. apply Hu, Hs.
Qed.

Lemma findById_keeps (id : Id) :
  keeps (fun _ => True) (UserRepository.findById id false)
    (fun o s => forall u, o = Some u -> issued (entropy s) (User.id u)).
Proof.
  apply keeps_gets. intros s (Hu & _) _ u Hs.
  apply single_elem, list_elem_of_filter in Hs as [_ Hs].
  apply list_elem_of_filter in Hs as [_ Hs]. apply Hu, Hs.
Qed.

Lemma generateTokens_keeps (user : User.t) (now : Timestamp) :
  keeps (fun s => issued (entropy s) (User.id user))
    (AuthService.generateTokens user now) (fun _ _ => True).
Proof.
  unfold AuthService.generateTokens.
  eapply keeps_bind.
  - apply (keeps_gets _ _ (fun cfg s => cfg = env s /\ issued (entropy s) (User.id user))).
    auto.
  - intros cfg. eapply keeps_bind.
    + eapply keeps_weaken; [apply create_token_keeps| |intros a s H; exact H].
      intros s [_ H]. exact H.
    + intros r. apply keeps_ret. auto.
Qed.

Lemma register_keeps (name email password phoneNumber : string) (role : Role)
    (now : Timestamp) :
  keeps (fun _ => True)
    (AuthService.register name email password phoneNumber role now)
    (fun _ _ => True).
Proof.
  unfold AuthService.register.
  eapply keeps_bind; [apply findByEmail_keeps|].
  intros [existing|]; [apply keeps_throw|].
  destruct (negb _); [apply keeps_throw|].
  eapply keeps_bind; [apply (keeps_gets _ _ (fun _ _ => True)); auto|].
  intros cfg. eapply (keeps_bind _ _ (fun _ _ => True)).
  { intros s Hwf _. simpl. split; [apply well_formed_tick, Hwf|].
    intros a _. exact I. }
  intros passwordHash. eapply keeps_bind.
  { eapply keeps_weaken; [apply create_user_keeps | auto | intros a s H; exact H]. }
  intros user. eapply keeps_bind; [apply generateTokens_keeps|].
  intros tokens. eapply keeps_bind; [apply log_keeps|].
  intros ?. apply keeps_ret. auto.
Qed.

Lemma login_keeps (email password : string) (now : Timestamp) :
  keeps (fun _ => True) (AuthService.login email password now) (fun _ _ => True).
Proof.
  unfold AuthService.login.
  eapply keeps_bind; [apply findByEmail_keeps|].
  intros [user|]; [|apply keeps_throw].
  destruct (User.isBlocked user); [apply keeps_throw|].
  destruct (negb _); [apply keeps_throw|].
  eapply keeps_bind.
  { eapply keeps_weaken; [apply generateTokens_keeps| |intros a s H; exact H].
    intros s H. apply H. reflexivity. }
  intros tokens. eapply keeps_bind; [apply log_keeps|].
  intros ?. apply keeps_ret. auto.
Qed.

Lemma refreshToken_keeps (v : TokenValue) (now : Timestamp) :
  keeps (fun _ => True) (AuthService.refreshToken v now) (fun _ _ => True).
Proof.
  unfold AuthService.refreshToken.
  eapply keeps_bind; [apply (keeps_gets _ _ (fun _ _ => True)); auto|].
  intros [tokenRecord|]; [|apply keeps_throw].
  destruct (decide _).
  { eapply (keeps_bind _ _ (fun _ _ => True)); [|intros ?; apply keeps_throw].
    intros s Hwf _. rewrite invalidateToken_spec. simpl.
    split; [apply well_formed_filter_tokens, Hwf | intros a _; exact I]. }
  eapply keeps_bind; [apply findById_keeps|].
  intros [user|]; [|apply keeps_throw].
  eapply keeps_bind.
  { eapply keeps_weaken; [apply (invalidateToken_keeps (User.id user))| |].
    - intros s H. apply H. reflexivity.
    - intros a s H. exact H. }
  intros ?. apply generateTokens_keeps.
Qed.

Lemma after_mutation_keeps (result : bool) (id : Id) (action : string)
    (now : Timestamp) :
  keeps (fun _ => True) (UserService.after_mutation result id action now)
    (fun _ _ => True).
Proof.
  unfold UserService.after_mutation.
  eapply (keeps_bind _ _ (fun _ _ => True));
    [|intros ?; apply keeps_ret; auto].
  destruct result; [|apply keeps_ret; auto].
  eapply (keeps_bind _ _ (fun _ _ => True)); [|intros ?; apply log_keeps].
  intros s Hwf _. split; [exact Hwf | intros a _; exact I].
Qed.

Lemma update_keeps (id : Id) (b : bool) (now : Timestamp) :
  keeps (fun _ => True) (UserRepository.update id b now) (fun _ _ => True).
Proof.
  intros s Hwf _.
  destruct (update_cases id b now s) as [H|[u H]]; rewrite H; simpl.
  - split; [exact Hwf | intros a Ha; discriminate].
  - split; [|auto]. apply well_formed_map_users; [|exact Hwf].
    intros u0. destruct (decide _); reflexivity.
Qed.

Lemma well_formed_step (s : State) (c : Call * Timestamp) :
  well_formed s -> well_formed (step s c).
Proof.
  intros Hwf. destruct c as [call now].
  destruct call as [name email password phoneNumber role | email password
                   | v | v | id | id | id | id | id]; simpl.
  - apply (register_keeps name email password phoneNumber role now s Hwf I).
  - apply (login_keeps email password now s Hwf I).
  - apply (refreshToken_keeps v now s Hwf I).
  - apply well_formed_filter_tokens, Hwf.
  - pose proof (getUserById_shape id now s) as [Hu Hc].
    destruct Hwf as (H1 & H2 & H3 & H4).
    assert (He : entropy (snd (UserService.getUserById id now s)) = entropy s
                 /\ refresh_tokens (snd (UserService.getUserById id now s))
                    = refresh_tokens s
                 /\ activity_logs (snd (UserService.getUserById id now s))
                    = activity_logs s).
    { unfold UserService.getUserById, CacheService.get, CacheService.set,
        UserRepository.findById. run_monad.
      destruct (cache s !! ("user:" +:+ id)) as [[value expiry]|];
        [destruct (decide (now < expiry))|]; simpl; auto;
        destruct (single _); simpl; auto. }
    destruct He as (He & Hr & Ha).
    unfold well_formed. rewrite He, Hu, Hr, Ha. auto.
  - assert (Hk : keeps (fun _ => True) (UserService.blockUser id now) (fun _ _ => True)).
    { unfold UserService.blockUser, UserRepository.blockUser.
      eapply keeps_bind; [|intros r; apply after_mutation_keeps].
      eapply keeps_bind; [apply update_keeps | intros ?; apply keeps_ret; auto]. }
    apply (Hk s Hwf I).
  - assert (Hk : keeps (fun _ => True) (UserService.unblockUser id now) (fun _ _ => True)).
    { unfold UserService.unblockUser, UserRepository.unblockUser.
      eapply keeps_bind; [|intros r; apply after_mutation_keeps].
      eapply keeps_bind; [apply update_keeps | intros ?; apply keeps_ret; auto]. }
    apply (Hk s Hwf I).
  - assert (Hk : keeps (fun _ => True) (UserService.softDeleteUser id now) (fun _ _ => True)).
    { unfold UserService.softDeleteUser, UserRepository.softDelete.
      eapply keeps_bind; [|intros r; apply after_mutation_keeps].
      eapply keeps_bind; [apply (keeps_gets _ _ (fun rows s => rows = users s)); auto|].
      intros rows.
      eapply (keeps_bind _ _ (fun _ _ => True)); [|intros ?; apply keeps_ret; auto].
      intros s0 Hwf0 ->. simpl. split; [|intros a _; exact I].
      apply well_formed_map_users; [|exact Hwf0].
      intros u0. destruct (decide _); reflexivity. }
    apply (Hk s Hwf I).
  - assert (Hk : keeps (fun _ => True) (UserService.restoreUser id now) (fun _ _ => True)).
    { unfold UserService.restoreUser, UserRepository.restore.
      eapply keeps_bind; [|intros r; apply after_mutation_keeps].
      eapply keeps_bind; [apply (keeps_gets _ _ (fun rows s => rows = users s)); auto|].
      intros rows.
      eapply (keeps_bind _ _ (fun _ _ => True)); [|intros ?; apply keeps_ret; auto].
      intros s0 Hwf0 ->. simpl. split; [|intros a _; exact I].
      apply well_formed_map_users; [|exact Hwf0].
      intros u0. destruct (decide _); reflexivity. }
    apply (Hk s Hwf I).
Qed.

Lemma well_formed_run (calls : list (Call * Timestamp)) (s : State) :
  well_formed s -> well_formed (run s calls).
Proof.
  revert s. induction calls as [|c calls IH]; intros s H; [exact H|].
  simpl. apply IH, well_formed_step, H.
Qed.

Lemma initial_cache_coherent (cfg : Config) : cache_coherent (initial_state cfg).
Proof.
  intros key entry expiry H. simpl in H. rewrite lookup_empty in H.
  discriminate.
Qed.

Lemma cache_coherent_run (calls : list (Call * Timestamp)) (s : State) :
  cache_coherent s -> cache_coherent (run s calls).
Proof.
  revert s. induction calls as [|c calls IH]; intros s H; [exact H|].
  simpl. apply IH, cache_coherent_step, H.
Qed.

(** ** What the calls return in a well-formed state *)

Lemma fresh_in {A} (ids : A -> Id) (rows : list A) (n : N) :
  (forall a, a ∈ rows -> issued n (ids a)) ->
  "uuid-" +:+ pretty n ∉ ids <$> rows.
Proof.
  intros H Hin. apply list_elem_of_fmap in Hin as (a & Heq & Ha).
  apply (issued_not_next n (ids a)); [apply H, Ha | congruence].
Qed.

Lemma create_token_outcome (userId : Id) (token : TokenValue)
    (expiresAt now : Timestamp) (s : State) :
  well_formed s ->
  RefreshTokenRepository.create userId token expiresAt now s =
  if decide (token ∈ RefreshToken.token <$> refresh_tokens s)
  then (Throw (FailedToCreate RefreshTokenRepository.tableName),
        with_entropy (entropy s + 1)%N s)
  else
    (Ok (RefreshToken.mk ("uuid-" +:+ pretty (entropy s)) userId token
           expiresAt now now None),
     with_refresh_tokens
       (refresh_tokens s ++
          [RefreshToken.mk ("uuid-" +:+ pretty (entropy s)) userId token
             expiresAt now now None])
       (with_entropy (entropy s + 1)%N s)).
Proof.
  intros (_ & _ & Hr & _).
  unfold RefreshTokenRepository.create, uuidv4. run_monad.
  assert (Hfresh : "uuid-" +:+ pretty (entropy s)
                   ∉ RefreshToken.id <$> refresh_tokens s).
  { apply fresh_in. intros r Hin. apply Hr, Hin. }
  destruct (decide (_ ∨ _)) as [[H|H]|H],
           (decide (token ∈ _)) as [H'|H']; simpl;
    try reflexivity; try contradiction.
  exfalso. apply H. right. exact H'.
Qed.

Lemma log_outcome (userId : Id) (action resourceType : string)
    (resourceId : option Id) (details : list (string * string))
    (now : Timestamp) (s : State) :
  well_formed s ->
  userId ∈ User.id <$> users s ->
  fst (ActivityLogRepository.log userId action resourceType resourceId
         details now s) = Ok tt.
Proof.
  intros (_ & _ & _ & Ha) Howner.
  unfold ActivityLogRepository.log, uuidv4. run_monad.
  destruct (decide _) as [[H|H]|H]; simpl; [| |reflexivity].
  - exfalso. revert H. apply fresh_in. exact Ha.
  - contradiction.
Qed.

Lemma generateTokens_outcome (user : User.t) (now : Timestamp) (s : State) :
  well_formed s ->
  fst (AuthService.generateTokens user now s) =
  if decide (minted_refresh user now s ∈ RefreshToken.token <$> refresh_tokens s)
  then Throw (FailedToCreate RefreshTokenRepository.tableName)
  else Ok (minted user now s).
Proof.
  intros Hwf. unfold AuthService.generateTokens.
  unfold bind at 1, gets at 1. cbn [fst snd]. unfold bind at 1.
  rewrite create_token_outcome by exact Hwf.
  fold (claims_of user). fold (minted_refresh user now s).
  fold (minted_access user now s).
  destruct (decide _); reflexivity.
Qed.




Lemma findByEmail_spec (email : string) (s : State) :
  UserRepository.findByEmail email s
  = (Ok (single (filter (fun u => User.deletedAt u = None)
                   (filter (fun u => User.email u = email) (users s)))), s).
Proof. reflexivity. Qed.


(** In a well-formed state the outcome of [refreshToken] is decided by the
    record of the value, its expiry, the row of its owner, and whether the
    token of this second is stored under another record. *)
Lemma refreshToken_outcome_wf (v : TokenValue) (now : Timestamp) (s : State) :
  well_formed s ->
  fst (AuthService.refreshToken v now s) =
  match fst (RefreshTokenRepository.findByToken v s) with
  | Ok (Some r) =>
      if decide (RefreshToken.expiresAt r < now) then Throw RefreshTokenIsExpired
      else
        match fst (UserRepository.findById (RefreshToken.userId r) false s) with
        | Ok (Some u) =>
            if decide (minted_refresh u now s ∈ RefreshToken.token <$>
                         filter (fun r => RefreshToken.token r ≠ v)
                           (refresh_tokens s))
            then Throw (FailedToCreate "refresh_tokens")
            else Ok (minted u now s)
        | _ => Throw UserNotFound
        end
  | _ => Throw InvalidRefreshToken
  end.
Proof.
  intros Hwf. unfold AuthService.refreshToken.
  unfold bind at 1. unfold RefreshTokenRepository.findByToken, gets.
  cbn [fst snd].
  destruct (single _) as [r|]; [|reflexivity].
  destruct (decide _) as [Hexp|Hlive].
  { unfold bind at 1. rewrite invalidateToken_spec. reflexivity. }
  unfold bind at 1. rewrite findById_users.
  unfold UserRepository.findById, gets. cbn [fst snd].
  destruct (single _) as [u|]; [|reflexivity].
  unfold bind at 1. rewrite invalidateToken_spec.
  apply (generateTokens_outcome u now
           (with_refresh_tokens
              (filter (fun r => RefreshToken.token r ≠ v) (refresh_tokens s)) s)).
  apply well_formed_filter_tokens, Hwf.
Qed.



(** X3.  In any state reached from an empty database, [refreshToken]
    returns: "Invalid refresh token" when the value has no single record;
    "Refresh token expired" when the record's expiry lies before now;
    "User not found" when the owner has no live row; a storage failure
    when the token of this identity and second is stored under another
    record; and otherwise the token pair signed for the owner's row. *)
Theorem refreshToken_outcome (cfg : Config) (calls : list (Call * Timestamp))
    (v : TokenValue) (now : Timestamp) :
  fst (AuthService.refreshToken v now (run (initial_state cfg) calls)) =
  match fst (RefreshTokenRepository.findByToken v
               (run (initial_state cfg) calls)) with
  | Ok (Some r) =>
      if decide (RefreshToken.expiresAt r < now) then Throw RefreshTokenIsExpired
      else
        match fst (UserRepository.findById (RefreshToken.userId r) false
                     (run (initial_state cfg) calls)) with
        | Ok (Some u) =>
            if decide (minted_refresh u now (run (initial_state cfg) calls)
                       ∈ RefreshToken.token <$>
                         filter (fun r => RefreshToken.token r ≠ v)
                           (refresh_tokens (run (initial_state cfg) calls)))
            then Throw (FailedToCreate "refresh_tokens")
            else Ok (minted u now (run (initial_state cfg) calls))
        | _ => Throw UserNotFound
        end
  | _ => Throw InvalidRefreshToken
  end.
Proof. apply refreshToken_outcome_wf, well_formed_run, well_formed_initial. Qed.

(** ** Expired, orphaned and half-rotated refresh tokens *)

Lemma no_record_after_invalidate (v : TokenValue) (rows : list RefreshToken.t) :
  filter (fun r => RefreshToken.token r = v)
    (filter (fun r => RefreshToken.token r ≠ v) rows) = [].
Proof.
  induction rows as [|a l IH]; [reflexivity|].
  rewrite (filter_cons (fun r => RefreshToken.token r ≠ v)).
  destruct (decide (RefreshToken.token a ≠ v)) as [Hne|_]; [|exact IH].
  rewrite filter_cons. destruct (decide (RefreshToken.token a = v)); [contradiction|].
  exact IH.
Qed.

Lemma findByToken_after_invalidate (v : TokenValue) (s : State) :
  RefreshTokenRepository.findByToken v
    (with_refresh_tokens
       (filter (fun r => RefreshToken.token r ≠ v) (refresh_tokens s)) s)
  = (Ok None,
     with_refresh_tokens
       (filter (fun r => RefreshToken.token r ≠ v) (refresh_tokens s)) s).
Proof.
  unfold RefreshTokenRepository.findByToken, gets. simpl.
  rewrite no_record_after_invalidate. reflexivity.
Qed.

(** X4.  Presenting a refresh token whose record has expired throws
    "Refresh token expired" and deletes the record, so that every later
    presentation of the value throws "Invalid refresh token" and changes
    nothing. *)
Theorem expired_refresh_token_is_deleted
    (v : TokenValue) (now now' : Timestamp) (s : State) (r : RefreshToken.t) :
  fst (RefreshTokenRepository.findByToken v s) = Ok (Some r) ->
  RefreshToken.expiresAt r < now ->
  AuthService.refreshToken v now s
    = (Throw RefreshTokenIsExpired,
       with_refresh_tokens
         (filter (fun r => RefreshToken.token r ≠ v) (refresh_tokens s)) s) /\
  AuthService.refreshToken v now' (snd (AuthService.refreshToken v now s))
    = (Throw InvalidRefreshToken, snd (AuthService.refreshToken v now s)).
Proof.
  intros Hfind Hexp.
  assert (H1 : AuthService.refreshToken v now s
               = (Throw RefreshTokenIsExpired,
                  with_refresh_tokens
                    (filter (fun r => RefreshToken.token r ≠ v)
                       (refresh_tokens s)) s)).
  { unfold AuthService.refreshToken. unfold bind at 1.
    unfold RefreshTokenRepository.findByToken, gets in *. cbn [fst snd] in *.
    injection Hfind as ->.
    destruct (decide _); [|contradiction].
    unfold bind at 1. rewrite invalidateToken_spec. reflexivity. }
  split; [exact H1|]. rewrite H1. cbn [snd].
  unfold AuthService.refreshToken. unfold bind at 1.
  rewrite findByToken_after_invalidate. reflexivity.
Qed.

Lemma expired_refresh_token_is_deleted_witness :
  AuthService.refreshToken alice_refresh 700000000 alice_registered
    = (Throw RefreshTokenIsExpired,
       with_refresh_tokens
         (filter (fun r => RefreshToken.token r ≠ alice_refresh)
            (refresh_tokens alice_registered)) alice_registered) /\
  AuthService.refreshToken alice_refresh 700000001
    (snd (AuthService.refreshToken alice_refresh 700000000 alice_registered))
    = (Throw InvalidRefreshToken,
       snd (AuthService.refreshToken alice_refresh 700000000 alice_registered)).
Proof.
  eapply (expired_refresh_token_is_deleted alice_refresh 700000000 700000001
            alice_registered).
  - vm_compute. reflexivity.
  - vm_compute. reflexivity.
Defined.

(** X5.  When the owner of a live refresh-token record has no live row
    (soft-deleted or gone), [refreshToken] throws "User not found" before
    it touches the record: the state is unchanged and the token is still
    stored. *)
Theorem refresh_for_missing_owner_keeps_the_token
    (v : TokenValue) (now : Timestamp) (s : State) (r : RefreshToken.t) :
  fst (RefreshTokenRepository.findByToken v s) = Ok (Some r) ->
  ¬ RefreshToken.expiresAt r < now ->
  fst (UserRepository.findById (RefreshToken.userId r) false s) = Ok None ->
  AuthService.refreshToken v now s = (Throw UserNotFound, s).
Proof.
  intros Hfind Hlive Hown.
  unfold AuthService.refreshToken. unfold bind at 1.
  unfold RefreshTokenRepository.findByToken, gets in *. cbn [fst snd] in *.
  injection Hfind as ->.
  destruct (decide _); [contradiction|].
  unfold bind at 1. unfold UserRepository.findById, gets in *.
  cbn [fst snd] in *. injection Hown as ->. reflexivity.
Qed.

Lemma refresh_for_missing_owner_keeps_the_token_witness :
  AuthService.refreshToken alice_refresh 5000
    (snd (UserService.softDeleteUser "uuid-1" 4500 alice_registered))
  = (Throw UserNotFound,
     snd (UserService.softDeleteUser "uuid-1" 4500 alice_registered)).
Proof.
  eapply (refresh_for_missing_owner_keeps_the_token alice_refresh 5000).
  - vm_compute. reflexivity.
  - vm_compute. discriminate.
  - vm_compute. reflexivity.
Defined.

(** X6.  When [refreshToken] fails while storing the new record, the
    record of the presented value is already deleted: the caller gets an
    error and holds no usable refresh token. *)
Theorem failed_rotation_has_consumed_the_token
    (v : TokenValue) (now : Timestamp) (s s' : State) (tableName : string) :
  AuthService.refreshToken v now s = (Throw (FailedToCreate tableName), s') ->
  refresh_tokens s'
    = filter (fun r => RefreshToken.token r ≠ v) (refresh_tokens s) /\
  fst (RefreshTokenRepository.findByToken v s') = Ok None.
Proof.
  unfold AuthService.refreshToken.
  unfold bind at 1. unfold RefreshTokenRepository.findByToken at 1, gets at 1.
  cbn [fst snd].
  destruct (single _) as [old|]; [|discriminate].
  destruct (decide _) as [Hexp|Hlive].
  { unfold bind at 1. rewrite invalidateToken_spec. discriminate. }
  unfold bind at 1. unfold UserRepository.findById, gets at 1. cbn [fst snd].
  destruct (single _) as [u|]; [|discriminate].
  unfold bind at 1. rewrite invalidateToken_spec.
  intros Hg. apply generateTokens_fail in Hg as (_ & Hr & _).
  simpl in Hr.
  assert (Heq : refresh_tokens s'
                = filter (fun r => RefreshToken.token r ≠ v) (refresh_tokens s))
    by exact Hr.
  split; [exact Heq|].
  unfold RefreshTokenRepository.findByToken, gets. cbn [fst].
  rewrite Heq, no_record_after_invalidate. reflexivity.
Qed.

Lemma failed_rotation_has_consumed_the_token_witness :
  refresh_tokens
    (snd (AuthService.refreshToken alice_refresh 2500
            (snd (AuthService.login "alice@x.com" "Str0ng!Pass" 2200
                    alice_registered))))
  = filter (fun r => RefreshToken.token r ≠ alice_refresh)
      (refresh_tokens
         (snd (AuthService.login "alice@x.com" "Str0ng!Pass" 2200
                 alice_registered))) /\
  fst (RefreshTokenRepository.findByToken alice_refresh
         (snd (AuthService.refreshToken alice_refresh 2500
                 (snd (AuthService.login "alice@x.com" "Str0ng!Pass" 2200
                         alice_registered)))))
  = Ok None.
Proof.
  eapply (failed_rotation_has_consumed_the_token alice_refresh 2500
            (snd (AuthService.login "alice@x.com" "Str0ng!Pass" 2200
                    alice_registered))
            _ "refresh_tokens").
  destruct (AuthService.refreshToken alice_refresh 2500
              (snd (AuthService.login "alice@x.com" "Str0ng!Pass" 2200
                      alice_registered))) as [res s'] eqn:H.
  assert (Hres : res = Throw (FailedToCreate "refresh_tokens")).
  { change res with (fst (res, s')). rewrite <- H. vm_compute. reflexivity. }
  subst res. reflexivity.
Defined.

Lemma generateTokens_Ok_minted (user : User.t) (now : Timestamp) (s s' : State)
    (t : Tokens.t) :
  AuthService.generateTokens user now s = (Ok t, s') ->
  t = minted user now s /\ env s' = env s.
Proof.
  unfold AuthService.generateTokens, RefreshTokenRepository.create, uuidv4.
  run_monad. destruct (decide _); simpl; [discriminate|].
  intros [= <- <-]. split; reflexivity.
Qed.

(** What a successful [login] returned, in full. *)
Lemma login_Ok_minted (email password : string) (now : Timestamp)
    (s s' : State) (t : Tokens.t) :
  AuthService.login email password now s = (Ok t, s') ->
  exists u,
    fst (UserRepository.findByEmail email s) = Ok (Some u) /\
    User.isBlocked u = false /\
    bcrypt_compare password (User.passwordHash u) = true /\
    t = minted u now s /\ env s' = env s /\ users s' = users s /\
    minted_refresh u now s ∈ RefreshToken.token <$> refresh_tokens s'.
Proof.
  intros H. pose proof H as H0.
  apply login_inv in H0
    as (u & r & Hf & Hb & Hpw & Hus & _ & _ & Hr & Htok & _).
  exists u. split; [exact Hf|]. split; [exact Hb|]. split; [exact Hpw|].
  revert H. unfold AuthService.login. unfold bind at 1.
  rewrite findByEmail_spec in *. cbn [fst snd] in *. injection Hf as ->.
  rewrite Hb, Hpw. cbn [negb]. unfold bind at 1.
  destruct (AuthService.generateTokens u now s) as [[t1|e] s2] eqn:Hg;
    [|discriminate].
  apply generateTokens_Ok_minted in Hg as [-> Henv].
  unfold bind at 1.
  pose proof (log_frame (User.id u) "login" "user" (Some (User.id u)) [] now s2)
    as (_ & _ & _ & Hl).
  destruct (ActivityLogRepository.log _ _ _ _ _ _ s2) as [[[]|e] s3];
    [|discriminate].
  unfold ret. intros [= <- <-]. cbn [snd] in Hl.
  split; [reflexivity|]. split; [congruence|]. split; [exact Hus|].
  rewrite Hr, fmap_app. apply elem_of_app. right. simpl.
  rewrite Htok. apply list_elem_of_here.
Qed.

(** X7.  Two logins of one identity in the same clock second cannot both
    succeed: after a login that returned, a second login with the same
    credentials in that second throws the storage failure of the
    [refresh_tokens] table, because it signs the very same refresh token
    and the table holds each value once. *)
Theorem second_login_in_the_same_second_fails
    (email password : string) (now now' : Timestamp) (s s' : State)
    (t : Tokens.t) :
  AuthService.login email password now s = (Ok t, s') ->
  now' / 1000 = now / 1000 ->
  fst (AuthService.login email password now' s')
  = Throw (FailedToCreate "refresh_tokens").
Proof.
  intros H Hsec.
  apply login_Ok_minted in H as (u & Hf & Hb & Hpw & _ & Henv & Hus & Hin).
  unfold AuthService.login. unfold bind at 1.
  rewrite findByEmail_spec in *. cbn [fst snd] in *. rewrite Hus.
  injection Hf as ->. rewrite Hb, Hpw. cbn [negb].
  unfold bind at 1.
  unfold AuthService.generateTokens, RefreshTokenRepository.create, uuidv4.
  run_monad. rewrite Henv.
  assert (Hsame : jwt_sign
                    {| claim_id := User.id u; claim_email := User.email u;
                       claim_role := User.role u |}
                    (JWT_REFRESH_SECRET (env s)) (JWT_REFRESH_EXPIRES_IN (env s))
                    now' = minted_refresh u now s).
  { unfold minted_refresh, claims_of, jwt_sign. rewrite Hsec. reflexivity. }
  rewrite Hsame.
  destruct (decide _) as [_|Hn]; [reflexivity|].
  exfalso. apply Hn. right. exact Hin.
Qed.

Lemma second_login_in_the_same_second_fails_witness :
  fst (AuthService.login "alice@x.com" "Str0ng!Pass" 2900
         (snd (AuthService.login "alice@x.com" "Str0ng!Pass" 2200
                 alice_registered)))
  = Throw (FailedToCreate "refresh_tokens").
Proof.
  destruct (AuthService.login "alice@x.com" "Str0ng!Pass" 2200 alice_registered)
    as [res s'] eqn:H.
  assert (Hres : exists t, res = Ok t).
  { change res with (fst (res, s')). rewrite <- H. eexists. vm_compute.
    reflexivity. }
  destruct Hres as [t ->].
  apply (second_login_in_the_same_second_fails "alice@x.com" "Str0ng!Pass"
           2200 2900 alice_registered s' t H).
  reflexivity.
Defined.

(** ** Blocking, soft deletion and restoring *)

Lemma findById_live_spec (id : Id) (s : State) :
  UserRepository.findById id false s
  = (Ok (single (filter (fun u => User.deletedAt u = None)
                   (filter (fun u => User.id u = id) (users s)))), s).
Proof. reflexivity. Qed.

Lemma findById_any_spec (id : Id) (s : State) :
  UserRepository.findById id true s
  = (Ok (single (filter (fun u => User.id u = id) (users s))), s).
Proof. reflexivity. Qed.

Lemma blockUser_Ok_users (id : Id) (now : Timestamp) (s s' : State) (b : bool) :
  UserService.blockUser id now s = (Ok b, s') ->
  users s' = block_row true id now <$> users s.
Proof.
  unfold UserService.blockUser, UserRepository.blockUser.
  unfold bind at 1. unfold bind at 1.
  destruct (update_cases id true now s) as [H|[u H]]; rewrite H;
    [discriminate|].
  unfold ret at 1. intros Ha. apply after_mutation_frame in Ha as [Hu _].
  exact Hu.
Qed.

Lemma softDeleteUser_users (id : Id) (now : Timestamp) (s : State) :
  users (snd (UserService.softDeleteUser id now s))
  = soft_delete_row id now <$> users s.
Proof.
  destruct (UserService.softDeleteUser id now s) as [res s'] eqn:Hcall.
  unfold UserService.softDeleteUser, UserRepository.softDelete in Hcall.
  unfold bind at 1 in Hcall. unfold bind at 1 in Hcall.
  unfold gets at 1 in Hcall. unfold bind at 1 in Hcall.
  unfold modify at 1 in Hcall. unfold ret at 1 in Hcall.
  apply after_mutation_frame in Hcall as [Hu _]. exact Hu.
Qed.

Lemma restoreUser_users (id : Id) (now : Timestamp) (s : State) :
  users (snd (UserService.restoreUser id now s))
  = restore_row id now <$> users s.
Proof.
  destruct (UserService.restoreUser id now s) as [res s'] eqn:Hcall.
  unfold UserService.restoreUser, UserRepository.restore in Hcall.
  unfold bind at 1 in Hcall. unfold bind at 1 in Hcall.
  unfold gets at 1 in Hcall. unfold bind at 1 in Hcall.
  unfold modify at 1 in Hcall. unfold ret at 1 in Hcall.
  apply after_mutation_frame in Hcall as [Hu _]. exact Hu.
Qed.

(** X8.  [blockUser] on an id that has no single live row (unknown, or
    soft-deleted) throws the update failure of the [users] table and
    changes nothing: no row, no cache entry, no activity log. *)
Theorem block_of_a_missing_identity_fails
    (id : Id) (now : Timestamp) (s : State) :
  fst (UserRepository.findById id false s) = Ok None ->
  UserService.blockUser id now s = (Throw (FailedToUpdate "users"), s).
Proof.
  rewrite findById_live_spec. cbn [fst]. intros [= Hnone].
  unfold UserService.blockUser, UserRepository.blockUser,
    UserRepository.update.
  run_monad. rewrite <- list_filter_filter.
  replace (filter (fun u => User.id u = id)
             (filter (fun u => User.deletedAt u = None) (users s)))
    with (filter (fun u => User.deletedAt u = None)
            (filter (fun u => User.id u = id) (users s))).
  - rewrite Hnone. reflexivity.
  - rewrite !list_filter_filter. apply list_filter_iff. intros u. tauto.
Qed.

Lemma block_of_a_missing_identity_fails_witness :
  UserService.blockUser "uuid-9" 4500 alice_registered
  = (Throw (FailedToUpdate "users"), alice_registered).
Proof.
  apply (block_of_a_missing_identity_fails "uuid-9" 4500 alice_registered).
  vm_compute. reflexivity.
Defined.

(** X9.  Once [blockUser] has returned for an id, no access token of that
    id authenticates any more, whatever its expiry: the strategy finds
    the row blocked and the guarded route answers 401. *)
Theorem block_takes_effect_on_access_tokens
    (id : Id) (now now' : Timestamp) (s s' : State) (b : bool)
    (token : TokenValue) (payload : Claims) (roles : list string) :
  UserService.blockUser id now s = (Ok b, s') ->
  jwt_verify token (JWT_SECRET (env s')) now' = Some payload ->
  claim_id payload = id ->
  guarded_route roles (Some token) now' s'
  = (Ok (Respond 401 "Unauthorized"), s').
Proof.
  intros Hb Hjwt Hid. apply blockUser_Ok_users in Hb.
  assert (Hv : JwtStrategy.verify payload s' = (Ok None, s')).
  { unfold JwtStrategy.verify. unfold bind. rewrite findById_live_spec.
    destruct (single _) as [u|] eqn:Hs; [|reflexivity].
    apply single_elem, list_elem_of_filter in Hs as [Hlive Hs].
    apply list_elem_of_filter in Hs as [Hu Hs].
    rewrite Hb in Hs. apply list_elem_of_fmap in Hs as (u0 & -> & _).
    unfold block_row in *.
    destruct (decide (User.id u0 = id ∧ User.deletedAt u0 = None)) as [_|Hn].
    - reflexivity.
    - exfalso. apply Hn. split; congruence. }
  unfold guarded_route, AuthMiddleware.authenticate.
  unfold bind at 1. unfold bind at 1. unfold gets at 1. rewrite Hjwt, Hv.
  reflexivity.
Qed.

Lemma block_takes_effect_on_access_tokens_witness :
  guarded_route ["student"] (Some alice_access) 5000 alice_blocked
  = (Ok (Respond 401 "Unauthorized"), alice_blocked).
Proof.
  destruct (UserService.blockUser "uuid-1" 4500 alice_registered)
    as [res s'] eqn:H.
  assert (Hres : res = Ok true).
  { change res with (fst (res, s')). rewrite <- H. vm_compute. reflexivity. }
  assert (Hs : s' = alice_blocked).
  { change s' with (snd (res, s')). rewrite <- H. reflexivity. }
  subst res s'.
  eapply (block_takes_effect_on_access_tokens "uuid-1" 4500 5000
            alice_registered alice_blocked true alice_access alice_claims).
  - exact H.
  - vm_compute. reflexivity.
  - reflexivity.
Defined.

Lemma NoDup_ids_filter (l : list User.t) (u : User.t) :
  NoDup (User.id <$> l) -> u ∈ l ->
  filter (fun x => User.id x = User.id u) l = [u].
Proof.
  induction l as [|a l IH]; intros Hnd Hin.
  - apply elem_of_nil in Hin. contradiction.
  - rewrite fmap_cons in Hnd. apply NoDup_cons in Hnd as [Ha Hnd].
    rewrite filter_cons. apply elem_of_cons in Hin as [->|Hin].
    + destruct (decide (User.id a = User.id a)); [|contradiction].
      rewrite (filter_nil_not_elem User.id (User.id a) l Ha). reflexivity.
    + destruct (decide (User.id a = User.id u)) as [Heq|_]; [|apply IH; assumption].
      exfalso. apply Ha. rewrite Heq. apply list_elem_of_fmap. eauto.
Qed.

Lemma findById_live_row (id : Id) (s : State) (u : User.t) :
  well_formed s ->
  fst (UserRepository.findById id false s) = Ok (Some u) ->
  User.id u = id /\ User.deletedAt u = None /\
  filter (fun x => User.id x = id) (users s) = [u].
Proof.
  intros (_ & Hnd & _) H. rewrite findById_live_spec in H. cbn [fst] in H.
  injection H as H. apply single_elem, list_elem_of_filter in H as [Hlive H].
  apply list_elem_of_filter in H as [Hid H].
  split; [exact Hid|]. split; [exact Hlive|].
  rewrite <- Hid. apply NoDup_ids_filter; assumption.
Qed.

(** X10.  In any state reached from an empty database, soft-deleting a live
    identity hides its row from every default lookup while the lookup that
    includes deleted rows still finds it, stamped; restoring it brings back
    the same row - name, email, password hash, role and blocked flag
    untouched - with only [updatedAt] moved to the instant of the
    restore. *)
Theorem soft_delete_then_restore_gives_the_row_back
    (cfg : Config) (calls : list (Call * Timestamp)) (id : Id)
    (t1 t2 : Timestamp) (u : User.t) :
  fst (UserRepository.findById id false (run (initial_state cfg) calls))
    = Ok (Some u) ->
  fst (UserRepository.findById id false
         (step (run (initial_state cfg) calls) (SoftDeleteUser id, t1)))
    = Ok None /\
  fst (UserRepository.findById id true
         (step (run (initial_state cfg) calls) (SoftDeleteUser id, t1)))
    = Ok (Some (User.set_deletedAt (Some t1) t1 u)) /\
  fst (UserRepository.findById id false
         (step (step (run (initial_state cfg) calls) (SoftDeleteUser id, t1))
            (RestoreUser id, t2)))
    = Ok (Some (User.set_deletedAt None t2 u)).
Proof.
  set (s := run (initial_state cfg) calls). intros Hfind.
  assert (Hwf : well_formed s) by apply well_formed_run, well_formed_initial.
  destruct (findById_live_row id s u Hwf Hfind) as (Hid & Hlive & Hrows).
  assert (H1 : filter (fun x => User.id x = id)
                 (users (step s (SoftDeleteUser id, t1)))
               = [User.set_deletedAt (Some t1) t1 u]).
  { cbn [step]. rewrite softDeleteUser_users.
    rewrite filter_fmap_stable, Hrows.
    - simpl. unfold soft_delete_row.
      destruct (decide _) as [_|Hn]; [reflexivity | exfalso; apply Hn; auto].
    - intros a. unfold soft_delete_row. destruct (decide _); simpl; tauto. }
  assert (H2 : filter (fun x => User.id x = id)
                 (users (step (step s (SoftDeleteUser id, t1)) (RestoreUser id, t2)))
               = [User.set_deletedAt None t2 u]).
  { cbn [step] in *. rewrite restoreUser_users.
    rewrite filter_fmap_stable, H1.
    - simpl. unfold restore_row.
      destruct (decide _) as [_|Hn]; [reflexivity|].
      exfalso. apply Hn. simpl. split; [exact Hid | discriminate].
    - intros a. unfold restore_row. destruct (decide _); simpl; tauto. }
  rewrite !findById_live_spec, findById_any_spec. cbn [fst].
  rewrite H1, H2. split; [reflexivity|]. split; reflexivity.
Qed.

Lemma soft_delete_then_restore_gives_the_row_back_witness :
  fst (UserRepository.findById "uuid-1" false
         (step (step (run (initial_state default_config)
                        [(Register "Alice" "alice@x.com" "Str0ng!Pass"
                            "0123456789" STUDENT, 1000)])
                  (SoftDeleteUser "uuid-1", 4500))
            (RestoreUser "uuid-1", 6000)))
  = Ok (Some (User.mk "uuid-1" "Alice" "alice@x.com"
                (Bcrypt 12 0 "Str0ng!Pass") "0123456789" "" "" OTHER STUDENT
                None [] false None 1000 6000 None)).
Proof.
  apply (soft_delete_then_restore_gives_the_row_back default_config
           [(Register "Alice" "alice@x.com" "Str0ng!Pass" "0123456789"
               STUDENT, 1000)]
           "uuid-1" 4500 6000
           (User.mk "uuid-1" "Alice" "alice@x.com" (Bcrypt 12 0 "Str0ng!Pass")
              "0123456789" "" "" OTHER STUDENT None [] false None 1000 1000
              None)).
  vm_compute. reflexivity.
Defined.

Lemma log_refused (userId : Id) (action resourceType : string)
    (resourceId : option Id) (details : list (string * string))
    (now : Timestamp) (s : State) :
  userId ∉ User.id <$> users s ->
  fst (ActivityLogRepository.log userId action resourceType resourceId
         details now s) = Throw (FailedToCreate "activity_logs").
Proof.
  intros Hnone. unfold ActivityLogRepository.log, uuidv4. run_monad.
  destruct (decide _) as [_|H]; simpl; [reflexivity|].
  exfalso. apply H. right. exact Hnone.
Qed.

(** X11.  In any state reached from an empty database, [softDeleteUser] and
    [restoreUser] return [true] for every id that names a row of the
    [users] table, also a row already in the wanted state, and in that case
    leave the table as it was.  For an id that names no row they change no
    row either, but throw the storage failure of [activity_logs]: the log
    entry they write refers to a user that does not exist. *)
Theorem soft_delete_and_restore_succeed_on_stored_ids
    (cfg : Config) (calls : list (Call * Timestamp)) (id : Id)
    (now : Timestamp) :
  fst (UserService.softDeleteUser id now (run (initial_state cfg) calls))
    = (if decide (id ∈ User.id <$> users (run (initial_state cfg) calls))
       then Ok true else Throw (FailedToCreate "activity_logs")) /\
  fst (UserService.restoreUser id now (run (initial_state cfg) calls))
    = (if decide (id ∈ User.id <$> users (run (initial_state cfg) calls))
       then Ok true else Throw (FailedToCreate "activity_logs")) /\
  ((forall u, u ∈ users (run (initial_state cfg) calls) ->
              User.id u = id -> User.deletedAt u ≠ None) ->
   users (snd (UserService.softDeleteUser id now (run (initial_state cfg) calls)))
   = users (run (initial_state cfg) calls)) /\
  ((forall u, u ∈ users (run (initial_state cfg) calls) ->
              User.id u = id -> User.deletedAt u = None) ->
   users (snd (UserService.restoreUser id now (run (initial_state cfg) calls)))
   = users (run (initial_state cfg) calls)).
Proof.
  set (s := run (initial_state cfg) calls).
  assert (Hwf : well_formed s) by apply well_formed_run, well_formed_initial.
  assert (Hafter : forall action (s0 : State), well_formed s0 ->
            User.id <$> users s0 = User.id <$> users s ->
            fst (UserService.after_mutation true id action now s0)
            = if decide (id ∈ User.id <$> users s)
              then Ok true else Throw (FailedToCreate "activity_logs")).
  { intros action s0 Hwf0 Hids.
    unfold UserService.after_mutation, CacheService.del.
    unfold bind at 1. unfold bind at 1. unfold bind at 1. unfold modify at 1.
    unfold ret at 1.
    destruct (decide (id ∈ User.id <$> users s)) as [Hin|Hout].
    - pose proof (log_outcome id action "user" (Some id) [] now
                    (with_cache (delete ("user:" +:+ id) (cache s0)) s0) Hwf0
                    ltac:(cbn [users with_cache]; rewrite Hids; exact Hin)) as Hl.
      destruct (ActivityLogRepository.log _ _ _ _ _ _ _) as [[[]|e] s3];
        cbn [fst] in *; [reflexivity | discriminate].
    - pose proof (log_refused id action "user" (Some id) [] now
                    (with_cache (delete ("user:" +:+ id) (cache s0)) s0)
                    ltac:(cbn [users with_cache]; rewrite Hids; exact Hout)) as Hl.
      destruct (ActivityLogRepository.log _ _ _ _ _ _ _) as [[[]|e] s3];
        cbn [fst] in *; [discriminate|]. injection Hl as ->. reflexivity. }
  split; [|split; [|split]].
  - unfold UserService.softDeleteUser, UserRepository.softDelete.
    unfold bind at 1. unfold bind at 1. unfold gets at 1. unfold bind at 1.
    unfold modify at 1. unfold ret at 1. apply Hafter.
    + apply well_formed_map_users; [|exact Hwf].
      intros u0. destruct (decide (User.id u0 = id ∧ _)); reflexivity.
    + cbn [users with_users]. rewrite <- list_fmap_compose.
      apply list_fmap_ext. intros ? u0 _. cbn.
      destruct (decide (User.id u0 = id ∧ _)); reflexivity.
  - unfold UserService.restoreUser, UserRepository.restore.
    unfold bind at 1. unfold bind at 1. unfold gets at 1. unfold bind at 1.
    unfold modify at 1. unfold ret at 1. apply Hafter.
    + apply well_formed_map_users; [|exact Hwf].
      intros u0. destruct (decide (User.id u0 = id ∧ _)); reflexivity.
    + cbn [users with_users]. rewrite <- list_fmap_compose.
      apply list_fmap_ext. intros ? u0 _. cbn.
      destruct (decide (User.id u0 = id ∧ _)); reflexivity.
  - intros Hnone. rewrite softDeleteUser_users. apply fmap_fixed.
    intros a Ha. unfold soft_delete_row.
    destruct (decide (User.id a = id ∧ _)) as [[Hid Hl]|_]; [|reflexivity].
    exfalso. exact (Hnone a Ha Hid Hl).
  - intros Hnone. rewrite restoreUser_users. apply fmap_fixed.
    intros a Ha. unfold restore_row.
    destruct (decide (User.id a = id ∧ _)) as [[Hid Hl]|_]; [|reflexivity].
    exfalso. apply Hl. exact (Hnone a Ha Hid).
Qed.

Lemma soft_delete_and_restore_succeed_on_stored_ids_witness :
  fst (UserService.restoreUser "uuid-1" 4500
         (run (initial_state default_config)
            [(Register "Alice" "alice@x.com" "Str0ng!Pass" "0123456789"
                STUDENT, 1000)])) = Ok true /\
  fst (UserService.softDeleteUser "uuid-9" 4500
         (run (initial_state default_config)
            [(Register "Alice" "alice@x.com" "Str0ng!Pass" "0123456789"
                STUDENT, 1000)])) = Throw (FailedToCreate "activity_logs") /\
  users (snd (UserService.softDeleteUser "uuid-9" 4500
                (run (initial_state default_config)
                   [(Register "Alice" "alice@x.com" "Str0ng!Pass" "0123456789"
                       STUDENT, 1000)])))
  = users (run (initial_state default_config)
             [(Register "Alice" "alice@x.com" "Str0ng!Pass" "0123456789"
                 STUDENT, 1000)]).
Proof.
  destruct (soft_delete_and_restore_succeed_on_stored_ids default_config
              [(Register "Alice" "alice@x.com" "Str0ng!Pass" "0123456789"
                  STUDENT, 1000)] "uuid-1" 4500) as (_ & H2 & _).
  destruct (soft_delete_and_restore_succeed_on_stored_ids default_config
              [(Register "Alice" "alice@x.com" "Str0ng!Pass" "0123456789"
                  STUDENT, 1000)] "uuid-9" 4500) as (H1 & _ & H3 & _).
  split; [exact H2|]. split; [exact H1|]. apply H3.
  intros u Hin Hid. vm_compute in Hin.
  apply list_elem_of_singleton in Hin. subst u. discriminate.
Defined.

(** ** The cache in front of the [users] table *)

(** X12.  While the cache is coherent with the [users] table it is
    invisible: [getUserById] returns the DTO of the live row the table
    holds for the id at that moment, and "User not found" when there is
    none, whether or not an entry is cached.  Each of the nine calls of
    [Call] leaves a coherent cache coherent. *)
Theorem getUserById_agrees_with_the_table_under_a_coherent_cache
    (s : State) (id : Id) (now : Timestamp) :
  cache_coherent s ->
  fst (UserService.getUserById id now s) =
  match fst (UserRepository.findById id false s) with
  | Ok (Some u) => Ok (UserDTO.of_user u)
  | _ => Throw UserNotFound
  end /\
  forall c : Call * Timestamp, cache_coherent (step s c).
Proof.
  intros Hco. split; [|intros c; apply cache_coherent_step, Hco].
  rewrite findById_live_spec. cbn [fst].
  unfold UserService.getUserById, CacheService.get, CacheService.set.
  unfold bind at 1. unfold gets at 1. cbn [fst snd].
  destruct (cache s !! ("user:" +:+ id)) as [[value expiry]|] eqn:Hlook.
  - destruct (decide (now < expiry)).
    + destruct (Hco _ _ _ Hlook) as [Hkey Hrow].
      apply user_key_inj in Hkey. subst id.
      rewrite findById_live_spec in Hrow. cbn [fst] in Hrow.
      injection Hrow as ->. reflexivity.
    + unfold bind at 1. unfold bind at 1. rewrite findById_live_spec.
      destruct (single _); reflexivity.
  - unfold bind at 1. unfold bind at 1. rewrite findById_live_spec.
    destruct (single _); reflexivity.
Qed.

Lemma getUserById_agrees_with_the_table_under_a_coherent_cache_witness :
  fst (UserService.getUserById "uuid-1" 5000
         (run (initial_state default_config)
            [(Register "Alice" "alice@x.com" "Str0ng!Pass" "0123456789"
                STUDENT, 1000);
             (GetUserById "uuid-1", 4000)])) =
  match fst (UserRepository.findById "uuid-1" false
               (run (initial_state default_config)
                  [(Register "Alice" "alice@x.com" "Str0ng!Pass" "0123456789"
                      STUDENT, 1000);
                   (GetUserById "uuid-1", 4000)])) with
  | Ok (Some u) => Ok (UserDTO.of_user u)
  | _ => Throw UserNotFound
  end.
Proof.
  apply (getUserById_agrees_with_the_table_under_a_coherent_cache
           (run (initial_state default_config)
              [(Register "Alice" "alice@x.com" "Str0ng!Pass" "0123456789"
                  STUDENT, 1000);
               (GetUserById "uuid-1", 4000)]) "uuid-1" 5000).
  apply cache_coherent_run, initial_cache_coherent.
Defined.

Lemma assignHr_Ok (instructorId hrId : Id) (now : Timestamp) (s s' : State)
    (b : bool) :
  UserRepository.assignHr instructorId hrId now s = (Ok b, s') ->
  cache s' = cache s /\
  exists u,
    filter (fun u => User.id u = instructorId ∧ User.deletedAt u = None)
      (users s) = [u] /\
    users s'
    = (fun u => if decide (User.id u = instructorId ∧ User.deletedAt u = None)
                then User.set_assignedHrId (Some hrId) now u else u)
      <$> users s.
Proof.
  unfold UserRepository.assignHr.
  unfold bind at 1. unfold gets at 1. cbn [fst snd].
  destruct (single _) as [u|] eqn:Hs; [|discriminate].
  destruct (decide (hrId ∈ _)); [|discriminate].
  unfold bind at 1. unfold modify at 1. unfold ret at 1.
  intros [= <- <-]. split; [reflexivity|].
  exists u. split; [apply single_Some, Hs | reflexivity].
Qed.

(** X26.  [assignHr] rewrites the row of the instructor and leaves the
    cache as it is: while the entry cached for that id has not expired,
    [getUserById] goes on returning the DTO of the cached row, although the
    row the table now holds carries the assigned HR and the instant of the
    assignment. *)
Theorem assignHr_leaves_the_cached_row
    (instructorId hrId : Id) (now now' : Timestamp) (s s' : State) (b : bool)
    (entry : User.t) (expiry : Timestamp) :
  UserRepository.assignHr instructorId hrId now s = (Ok b, s') ->
  cache s !! ("user:" +:+ instructorId) = Some (entry, expiry) ->
  now' < expiry ->
  fst (UserService.getUserById instructorId now' s')
    = Ok (UserDTO.of_user entry) /\
  exists row,
    fst (UserRepository.findById instructorId false s') = Ok (Some row) /\
    User.assignedHrId row = Some hrId /\ User.updatedAt row = now.
Proof.
  intros Hassign Hlook Hfresh.
  apply assignHr_Ok in Hassign as (Hcache & u & Hu & Husers).
  split.
  - unfold UserService.getUserById, CacheService.get.
    unfold bind at 1. unfold gets at 1. cbn [fst snd].
    rewrite Hcache. unfold Timestamp in *. rewrite Hlook.
    destruct (decide (now' < expiry)); [reflexivity | contradiction].
  - exists (User.set_assignedHrId (Some hrId) now u).
    split; [|split; reflexivity].
    rewrite findById_live_spec. cbn [fst]. f_equal.
    rewrite list_filter_filter.
    rewrite (list_filter_iff _
               (fun u => User.id u = instructorId ∧ User.deletedAt u = None))
      by (intros x; tauto).
    rewrite Husers, filter_fmap_stable.
    + rewrite Hu. cbn [fmap list_fmap].
      assert (Hhit : User.id u = instructorId ∧ User.deletedAt u = None).
      { assert (Hin : u ∈ filter (fun u => User.id u = instructorId
                                           ∧ User.deletedAt u = None) (users s))
          by (rewrite Hu; apply list_elem_of_here).
        apply list_elem_of_filter in Hin. apply Hin. }
      destruct (decide _); [reflexivity | contradiction].
    + intros a. destruct (decide _); cbn; tauto.
Qed.

Lemma assignHr_leaves_the_cached_row_witness :
  fst (UserService.getUserById "uuid-1" 6000
         (snd (UserRepository.assignHr "uuid-1" "uuid-5" 5000 alice_cached)))
  = Ok (UserDTO.of_user
          (User.mk "uuid-1" "Alice" "alice@x.com" (Bcrypt 12 0 "Str0ng!Pass")
             "0123456789" "" "" OTHER STUDENT None [] false None 1000 1000
             None)) /\
  exists row,
    fst (UserRepository.findById "uuid-1" false
           (snd (UserRepository.assignHr "uuid-1" "uuid-5" 5000 alice_cached)))
    = Ok (Some row) /\
    User.assignedHrId row = Some "uuid-5" /\ User.updatedAt row = 5000.
Proof.
  destruct (UserRepository.assignHr "uuid-1" "uuid-5" 5000 alice_cached)
    as [res s'] eqn:Hcall.
  assert (Hres : res = Ok true).
  { change res with (fst (res, s')). rewrite <- Hcall. vm_compute. reflexivity. }
  subst res. cbn [snd].
  apply (assignHr_leaves_the_cached_row "uuid-1" "uuid-5" 5000 6000
           alice_cached s' true _ 3604000 Hcall).
  - vm_compute. reflexivity.
  - vm_compute. reflexivity.
Defined.

(** ** Tokens as credentials *)

(** X13.  In any state reached from an empty database, the access token a
    login returns authenticates as the logged-in identity, with the role of
    its row, at every instant before the token's expiry second, for as long
    as the state stays as the login left it. *)
Theorem access_token_of_a_login_authenticates
    (cfg : Config) (calls : list (Call * Timestamp)) (email password : string)
    (now now' : Timestamp) (s' : State) (t : Tokens.t) :
  AuthService.login email password now (run (initial_state cfg) calls)
    = (Ok t, s') ->
  now' / 1000
    < now / 1000 + JWT_EXPIRES_IN (env (run (initial_state cfg) calls)) ->
  AuthMiddleware.authenticate (Some (Tokens.accessToken t)) now' s'
  = (Ok (Some (ReqUser.mk (UserDTO.id (Tokens.user t))
                 (UserDTO.email (Tokens.user t))
                 (Role_value (UserDTO.role (Tokens.user t))))), s').
Proof.
  set (s := run (initial_state cfg) calls). intros H Hexp.
  assert (Hwf : well_formed s) by apply well_formed_run, well_formed_initial.
  apply login_Ok_minted in H as (u & Hf & Hb & _ & -> & Henv & Hus & _).
  rewrite findByEmail_spec in Hf. cbn [fst] in Hf. injection Hf as Hf.
  apply single_elem, list_elem_of_filter in Hf as [Hlive Hf].
  apply list_elem_of_filter in Hf as [_ Hin].
  destruct Hwf as (_ & Hnd & _).
  unfold AuthMiddleware.authenticate. unfold bind at 1, gets at 1.
  cbn [fst snd]. rewrite Henv.
  unfold minted, minted_access, jwt_sign. cbn [Tokens.accessToken jwt_verify].
  destruct (decide (JWT_SECRET (env s) = JWT_SECRET (env s))); [|contradiction].
  destruct (decide _); [|contradiction].
  unfold JwtStrategy.verify. unfold bind. rewrite findById_live_spec.
  rewrite Hus. cbn [claims_of claim_id].
  rewrite (NoDup_ids_filter _ u Hnd Hin).
  rewrite filter_cons. destruct (decide (User.deletedAt u = None)); [|contradiction].
  rewrite filter_nil. cbn [single]. rewrite Hb. reflexivity.
Qed.

Lemma access_token_of_a_login_authenticates_witness :
  fst (AuthMiddleware.authenticate (Some (Jwt "access-secret" alice_claims 2 3602))
         3000000
         (snd (AuthService.login "alice@x.com" "Str0ng!Pass" 2200
                 (run (initial_state default_config)
                    [(Register "Alice" "alice@x.com" "Str0ng!Pass"
                        "0123456789" STUDENT, 1000)]))))
  = Ok (Some (ReqUser.mk "uuid-1" "alice@x.com" "student")).
Proof.
  destruct (AuthService.login "alice@x.com" "Str0ng!Pass" 2200
              (run (initial_state default_config)
                 [(Register "Alice" "alice@x.com" "Str0ng!Pass"
                     "0123456789" STUDENT, 1000)])) as [res s'] eqn:H.
  assert (Hres : res = Ok (Tokens.mk
            (UserDTO.mk "uuid-1" "Alice" "alice@x.com" "0123456789" "" ""
               OTHER STUDENT None false 1000 1000 None)
            (Jwt "access-secret" alice_claims 2 3602)
            (Jwt "refresh-secret" alice_claims 2 604802))).
  { change res with (fst (res, s')). rewrite <- H. vm_compute. reflexivity. }
  subst res. cbn [snd].
  assert (Hw := access_token_of_a_login_authenticates default_config
             [(Register "Alice" "alice@x.com" "Str0ng!Pass" "0123456789"
                 STUDENT, 1000)]
             "alice@x.com" "Str0ng!Pass" 2200 3000000 s' _ H
             ltac:(vm_compute; reflexivity)).
  cbn [Tokens.accessToken Tokens.user UserDTO.id UserDTO.email UserDTO.role
       Role_value] in Hw.
  rewrite Hw. reflexivity.
Defined.

(** X14.  When the access and refresh secrets differ, the refresh token a
    login returns is no access token: presented as a bearer token it does
    not authenticate. *)
Theorem refresh_token_is_no_access_token
    (email password : string) (now now' : Timestamp) (s s' : State)
    (t : Tokens.t) :
  AuthService.login email password now s = (Ok t, s') ->
  JWT_SECRET (env s) ≠ JWT_REFRESH_SECRET (env s) ->
  AuthMiddleware.authenticate (Some (Tokens.refreshToken t)) now' s'
  = (Ok None, s').
Proof.
  intros H Hne.
  apply login_Ok_minted in H as (u & _ & _ & _ & -> & Henv & _).
  unfold AuthMiddleware.authenticate. unfold bind at 1, gets at 1.
  cbn [fst snd]. rewrite Henv.
  unfold minted, minted_refresh, jwt_sign. cbn [Tokens.refreshToken jwt_verify].
  destruct (decide _) as [Heq|_]; [|reflexivity].
  exfalso. apply Hne. symmetry. exact Heq.
Qed.

Lemma refresh_token_is_no_access_token_witness :
  fst (AuthMiddleware.authenticate
         (Some (Jwt "refresh-secret" alice_claims 2 604802)) 3000
         (snd (AuthService.login "alice@x.com" "Str0ng!Pass" 2200
                 alice_registered)))
  = Ok None.
Proof.
  destruct (AuthService.login "alice@x.com" "Str0ng!Pass" 2200 alice_registered)
    as [res s'] eqn:H.
  assert (Hres : res = Ok (Tokens.mk
            (UserDTO.mk "uuid-1" "Alice" "alice@x.com" "0123456789" "" ""
               OTHER STUDENT None false 1000 1000 None)
            (Jwt "access-secret" alice_claims 2 3602)
            (Jwt "refresh-secret" alice_claims 2 604802))).
  { change res with (fst (res, s')). rewrite <- H. vm_compute. reflexivity. }
  subst res. cbn [snd].
  assert (Hw := refresh_token_is_no_access_token "alice@x.com" "Str0ng!Pass"
             2200 3000 alice_registered s' _ H
             ltac:(vm_compute; discriminate)).
  cbn [Tokens.refreshToken] in Hw.
  rewrite Hw. reflexivity.
Defined.

(** * Properties of the security configuration *)

(** ** The login throttle *)

Lemma getAttemptCount_within (identifier : string) (now : Timestamp)
    (m : gmap string (Z * Timestamp)) (count : Z) (timestamp : Timestamp) :
  m !! identifier = Some (count, timestamp) ->
  now - timestamp <= SecurityConfig.LOCKOUT_DURATION ->
  SecurityConfig.getAttemptCount identifier now m = (count, m).
Proof.
  intros Hm Hin. unfold SecurityConfig.getAttemptCount, Timestamp in *.
  rewrite Hm.
  destruct (decide _); [lia | reflexivity].
Qed.

Lemma last_cons_default {A} (rest : list A) (x d : A) :
  List.last (x :: rest) d = List.last rest x.
Proof.
  revert x d. induction rest as [|y rest IH]; intros x d; [reflexivity|].
  change (List.last (x :: y :: rest) d) with (List.last (y :: rest) d).
  rewrite (IH y d), (IH y x). reflexivity.
Qed.

Lemma record_failures_chained (identifier : string) (times : list Timestamp)
    (m : gmap string (Z * Timestamp)) (count : Z) (previous : Timestamp) :
  m !! identifier = Some (count, previous) ->
  chained previous times ->
  record_failures identifier times m !! identifier
  = Some (count + Z.of_nat (length times), List.last times previous).
Proof.
  revert m count previous.
  induction times as [|t rest IH]; intros m count previous Hm Hch.
  - simpl. rewrite Z.add_0_r. exact Hm.
  - destruct Hch as [Hgap Hch]. unfold record_failures in *.
    cbn [foldl].
    assert (Hrec : SecurityConfig.recordFailedAttempt identifier t m !! identifier
                   = Some (count + 1, t)).
    { unfold SecurityConfig.recordFailedAttempt,
        SecurityConfig.incrementAttemptCount.
      rewrite (getAttemptCount_within identifier t m count previous Hm Hgap).
      apply lookup_insert_eq. }
    rewrite (IH _ _ _ Hrec Hch).
    f_equal. f_equal.
    + rewrite length_cons. lia.
    + symmetry. apply last_cons_default.
Qed.

(** X15.  The throttle counts failures in a sliding chain, not in a fixed
    window: when an identifier with no record fails at instants each at
    most LOCKOUT_DURATION after the previous one, however long the chain
    lasts in total, it is reported as locked, up to LOCKOUT_DURATION after
    the last failure, exactly when the number of failures has reached the
    maximum. *)
Theorem throttle_counts_a_chain_of_failures
    (identifier : string) (first : Timestamp) (rest : list Timestamp)
    (m : gmap string (Z * Timestamp)) (maxAttempts : Z) (now : Timestamp) :
  m !! identifier = None ->
  chained first rest ->
  now - List.last rest first <= SecurityConfig.LOCKOUT_DURATION ->
  fst (SecurityConfig.checkBruteForceAttempts identifier maxAttempts now
         (record_failures identifier (first :: rest) m))
  = bool_decide (Z.of_nat (length (first :: rest)) >= maxAttempts).
Proof.
  intros Hm Hch Hnow. unfold Timestamp in *.
  assert (H1 : SecurityConfig.recordFailedAttempt identifier first m !! identifier
               = Some (1, first)).
  { unfold SecurityConfig.recordFailedAttempt,
      SecurityConfig.incrementAttemptCount, SecurityConfig.getAttemptCount,
      Timestamp in *.
    rewrite Hm. apply lookup_insert_eq. }
  assert (H2 := record_failures_chained identifier rest _ 1 first H1 Hch).
  unfold SecurityConfig.checkBruteForceAttempts.
  change (record_failures identifier (first :: rest) m)
    with (record_failures identifier rest
            (SecurityConfig.recordFailedAttempt identifier first m)).
  rewrite (getAttemptCount_within _ _ _ _ _ H2 Hnow). cbn [fst].
  rewrite length_cons. apply bool_decide_ext. unfold Timestamp in *. lia.
Qed.

Lemma throttle_counts_a_chain_of_failures_witness :
  fst (SecurityConfig.checkBruteForceAttempts "alice@x.com" 5 3600000
         (record_failures "alice@x.com"
            [0; 800000; 1600000; 2400000; 3200000] ∅))
  = bool_decide (Z.of_nat 5 >= 5).
Proof.
  apply (throttle_counts_a_chain_of_failures "alice@x.com" 0
           [800000; 1600000; 2400000; 3200000] ∅ 5 3600000).
  - apply lookup_empty.
  - vm_compute. repeat split; discriminate.
  - vm_compute. discriminate.
Defined.

(** X16.  A record older than LOCKOUT_DURATION is dropped: once more than
    LOCKOUT_DURATION has passed since the last failure the count reads as
    zero and the record is deleted, and the next failure starts a new count
    at one; at exactly LOCKOUT_DURATION the old count still stands. *)
Theorem throttle_record_expires
    (identifier : string) (m : gmap string (Z * Timestamp)) (count : Z)
    (timestamp now : Timestamp) :
  m !! identifier = Some (count, timestamp) ->
  now - timestamp > SecurityConfig.LOCKOUT_DURATION ->
  SecurityConfig.getAttemptCount identifier now m = (0, delete identifier m) /\
  SecurityConfig.recordFailedAttempt identifier now m !! identifier
    = Some (1, now) /\
  SecurityConfig.getAttemptCount identifier
    (timestamp + SecurityConfig.LOCKOUT_DURATION) m = (count, m).
Proof.
  intros Hm Hold. unfold Timestamp in *. split; [|split].
  - unfold SecurityConfig.getAttemptCount, Timestamp in *. rewrite Hm.
    destruct (decide _); [reflexivity | lia].
  - unfold SecurityConfig.recordFailedAttempt,
      SecurityConfig.incrementAttemptCount, SecurityConfig.getAttemptCount,
      Timestamp in *.
    rewrite Hm. destruct (decide _); [|lia]. apply lookup_insert_eq.
  - apply (getAttemptCount_within _ _ _ _ _ Hm). lia.
Qed.

Lemma throttle_record_expires_witness :
  SecurityConfig.getAttemptCount "alice@x.com" 900001 {["alice@x.com" := (7, 0)]}
    = (0, delete "alice@x.com" {["alice@x.com" := (7, 0)]}) /\
  SecurityConfig.recordFailedAttempt "alice@x.com" 900001
    {["alice@x.com" := (7, 0)]} !! "alice@x.com" = Some (1, 900001) /\
  SecurityConfig.getAttemptCount "alice@x.com"
    (0 + SecurityConfig.LOCKOUT_DURATION) {["alice@x.com" := (7, 0)]}
    = (7, {["alice@x.com" := (7, 0)]}).
Proof.
  apply (throttle_record_expires "alice@x.com" {["alice@x.com" := (7, 0)]} 7 0
           900001).
  - apply lookup_singleton_eq.
  - vm_compute. reflexivity.
Defined.

(** X17.  The throttle keeps identifiers apart: recording or clearing the
    failures of one identifier never changes what is reported for another;
    and clearing an identifier makes its count read as zero. *)
Theorem throttle_identifiers_are_independent
    (identifier other : string) (m : gmap string (Z * Timestamp))
    (maxAttempts : Z) (now now' : Timestamp) :
  identifier ≠ other ->
  fst (SecurityConfig.checkBruteForceAttempts other maxAttempts now'
         (SecurityConfig.recordFailedAttempt identifier now m))
    = fst (SecurityConfig.checkBruteForceAttempts other maxAttempts now' m) /\
  fst (SecurityConfig.checkBruteForceAttempts other maxAttempts now'
         (SecurityConfig.clearFailedAttempts identifier m))
    = fst (SecurityConfig.checkBruteForceAttempts other maxAttempts now' m) /\
  fst (SecurityConfig.getAttemptCount identifier now'
         (SecurityConfig.clearFailedAttempts identifier m)) = 0.
Proof.
  intros Hne. unfold Timestamp in *.
  assert (Hrec : SecurityConfig.recordFailedAttempt identifier now m !! other
                 = m !! other).
  { unfold SecurityConfig.recordFailedAttempt,
      SecurityConfig.incrementAttemptCount, SecurityConfig.getAttemptCount,
      Timestamp in *.
    destruct (m !! identifier) as [[c ts]|]; [destruct (decide _)|];
      rewrite lookup_insert_ne by exact Hne;
      try rewrite lookup_delete_ne by exact Hne; reflexivity. }
  assert (Hclr : SecurityConfig.clearFailedAttempts identifier m !! other
                 = m !! other).
  { unfold SecurityConfig.clearFailedAttempts, SecurityConfig.resetAttemptCount,
      Timestamp in *.
    apply lookup_delete_ne, Hne. }
  unfold SecurityConfig.checkBruteForceAttempts, SecurityConfig.getAttemptCount,
    Timestamp in *.
  rewrite Hrec, Hclr. split; [|split].
  - destruct (m !! other) as [[c ts]|]; [destruct (decide _)|]; reflexivity.
  - destruct (m !! other) as [[c ts]|]; [destruct (decide _)|]; reflexivity.
  - unfold SecurityConfig.clearFailedAttempts, SecurityConfig.resetAttemptCount,
      Timestamp in *.
    rewrite lookup_delete_eq. reflexivity.
Qed.

Lemma throttle_identifiers_are_independent_witness :
  fst (SecurityConfig.checkBruteForceAttempts "bob@x.com" 5 1000
         (SecurityConfig.recordFailedAttempt "alice@x.com" 500 ∅))
  = fst (SecurityConfig.checkBruteForceAttempts "bob@x.com" 5 1000 ∅).
Proof.
  apply (throttle_identifiers_are_independent "alice@x.com" "bob@x.com" ∅ 5
           500 1000).
  discriminate.
Defined.

(** ** The password policy *)

Lemma is_special_lower_char (c : ascii) :
  SecurityConfig.is_special (SecurityConfig.lower_char c)
  = SecurityConfig.is_special c.
Proof.
  destruct c as [[] [] [] [] [] [] [] []]; vm_compute; reflexivity.
Qed.

Lemma some_special_toLowerCase (s : string) :
  SecurityConfig.some_char SecurityConfig.is_special (SecurityConfig.toLowerCase s)
  = SecurityConfig.some_char SecurityConfig.is_special s.
Proof.
  induction s as [|c s IH]; [reflexivity|].
  cbn [SecurityConfig.toLowerCase SecurityConfig.some_char].
  rewrite is_special_lower_char, IH. reflexivity.
Qed.

Lemma common_password_has_no_special (s : string) :
  s ∈ SecurityConfig.commonPasswords ->
  SecurityConfig.some_char SecurityConfig.is_special s = false.
Proof.
  unfold SecurityConfig.commonPasswords. intros Hin.
  repeat (apply elem_of_cons in Hin as [-> | Hin]; [vm_compute; reflexivity|]).
  apply elem_of_nil in Hin. destruct Hin.
Qed.

(** X18.  The list of common passwords never decides the verdict of the
    password policy: a password of ASCII characters is valid exactly when
    its length lies between MIN_PASSWORD_LENGTH and MAX_PASSWORD_LENGTH and
    it has an uppercase letter, a lowercase letter, a digit and a special
    character.  (Every password on the list, in any capitalisation, lacks a
    special character.) *)
Theorem common_password_rule_never_decides (password : string) :
  SecurityConfig.some_char SecurityConfig.non_ascii password = false ->
  SecurityConfig.validatePassword password
  = (SecurityConfig.MIN_PASSWORD_LENGTH <=? String.length password)%nat
    && (String.length password <=? SecurityConfig.MAX_PASSWORD_LENGTH)%nat
    && SecurityConfig.some_char SecurityConfig.is_upper password
    && SecurityConfig.some_char SecurityConfig.is_lower password
    && SecurityConfig.some_char SecurityConfig.is_digit password
    && SecurityConfig.some_char SecurityConfig.is_special password.
Proof.
  intros _.
  unfold SecurityConfig.validatePassword, SecurityConfig.validatePassword_errors.
  destruct (SecurityConfig.some_char SecurityConfig.is_special password) eqn:Hsp;
    destruct (bool_decide (SecurityConfig.toLowerCase password
                           ∈ SecurityConfig.commonPasswords)) eqn:Hc.
  - apply bool_decide_eq_true in Hc.
    apply common_password_has_no_special in Hc.
    rewrite some_special_toLowerCase in Hc. congruence.
  - destruct (Nat.ltb_spec (String.length password)
                SecurityConfig.MIN_PASSWORD_LENGTH);
      destruct (Nat.ltb_spec SecurityConfig.MAX_PASSWORD_LENGTH
                  (String.length password));
      destruct (Nat.leb_spec SecurityConfig.MIN_PASSWORD_LENGTH
                  (String.length password));
      destruct (Nat.leb_spec (String.length password)
                  SecurityConfig.MAX_PASSWORD_LENGTH);
      try lia;
      destruct (SecurityConfig.some_char SecurityConfig.is_upper password);
      destruct (SecurityConfig.some_char SecurityConfig.is_lower password);
      destruct (SecurityConfig.some_char SecurityConfig.is_digit password);
      reflexivity.
  - rewrite !andb_false_r. apply bool_decide_eq_false.
    intros Heq. do 5 (apply app_eq_nil in Heq as [_ Heq]).
    simpl in Heq. discriminate.
  - rewrite !andb_false_r. apply bool_decide_eq_false.
    intros Heq. do 5 (apply app_eq_nil in Heq as [_ Heq]).
    simpl in Heq. discriminate.
Qed.

Lemma common_password_rule_never_decides_witness :
  SecurityConfig.validatePassword "Password123!" = true.
Proof.
  rewrite (common_password_rule_never_decides "Password123!");
    vm_compute; reflexivity.
Defined.

(** ** Input sanitising *)

Lemma some_char_remove_self (p : ascii -> bool) (s : string) :
  SecurityConfig.some_char p (SecurityConfig.remove_chars p s) = false.
Proof.
  induction s as [|c s IH]; [reflexivity|].
  cbn [SecurityConfig.remove_chars]. destruct (p c) eqn:Hp; [exact IH|].
  cbn [SecurityConfig.some_char]. rewrite Hp, IH. reflexivity.
Qed.

Lemma some_char_cons_false (p : ascii -> bool) (c : ascii) (s : string) :
  SecurityConfig.some_char p (String c s) = false ->
  p c = false /\ SecurityConfig.some_char p s = false.
Proof. cbn [SecurityConfig.some_char]. apply orb_false_elim. Qed.

Lemma some_char_remove (p q : ascii -> bool) (s : string) :
  SecurityConfig.some_char p s = false ->
  SecurityConfig.some_char p (SecurityConfig.remove_chars q s) = false.
Proof.
  induction s as [|c s IH]; [reflexivity|].
  intros [Hc Hs]%some_char_cons_false.
  cbn [SecurityConfig.remove_chars]. destruct (q c); [exact (IH Hs)|].
  cbn [SecurityConfig.some_char]. rewrite Hc, (IH Hs). reflexivity.
Qed.

Lemma some_char_trimStart (p : ascii -> bool) (s : string) :
  SecurityConfig.some_char p s = false ->
  SecurityConfig.some_char p (SecurityConfig.trimStart s) = false.
Proof.
  induction s as [|c s IH]; [reflexivity|].
  intros H. cbn [SecurityConfig.trimStart].
  destruct (SecurityConfig.is_white_space c); [|exact H].
  apply IH. apply some_char_cons_false in H. apply H.
Qed.

Lemma some_char_trimEnd (p : ascii -> bool) (s : string) :
  SecurityConfig.some_char p s = false ->
  SecurityConfig.some_char p (SecurityConfig.trimEnd s) = false.
Proof.
  induction s as [|c s IH]; [reflexivity|].
  intros [Hc Hs]%some_char_cons_false. specialize (IH Hs).
  cbn [SecurityConfig.trimEnd].
  destruct (SecurityConfig.trimEnd s) as [|d kept].
  - destruct (SecurityConfig.is_white_space c); [reflexivity|].
    cbn [SecurityConfig.some_char]. rewrite Hc. reflexivity.
  - cbn [SecurityConfig.some_char] in *. rewrite Hc. exact IH.
Qed.

Lemma remove_chars_id (p : ascii -> bool) (s : string) :
  SecurityConfig.some_char p s = false -> SecurityConfig.remove_chars p s = s.
Proof.
  induction s as [|c s IH]; [reflexivity|].
  intros [Hc Hs]%some_char_cons_false.
  cbn [SecurityConfig.remove_chars]. rewrite Hc, (IH Hs). reflexivity.
Qed.

Lemma trimStart_clean (s : string) : starts_clean (SecurityConfig.trimStart s).
Proof.
  induction s as [|c s IH]; [exact I|].
  cbn [SecurityConfig.trimStart].
  destruct (SecurityConfig.is_white_space c) eqn:Hc; [exact IH | exact Hc].
Qed.

Lemma trimStart_id (s : string) :
  starts_clean s -> SecurityConfig.trimStart s = s.
Proof.
  destruct s as [|c s]; [reflexivity|].
  cbn [starts_clean SecurityConfig.trimStart]. intros Hc. rewrite Hc.
  reflexivity.
Qed.

Lemma trimEnd_clean (s : string) :
  starts_clean s -> starts_clean (SecurityConfig.trimEnd s).
Proof.
  destruct s as [|c s]; [intros; exact I|]. cbn [starts_clean]. intros Hc.
  cbn [SecurityConfig.trimEnd].
  destruct (SecurityConfig.trimEnd s); [rewrite Hc|]; exact Hc.
Qed.

Lemma trimEnd_idemp (s : string) :
  SecurityConfig.trimEnd (SecurityConfig.trimEnd s) = SecurityConfig.trimEnd s.
Proof.
  induction s as [|c s IH]; [reflexivity|].
  cbn [SecurityConfig.trimEnd].
  destruct (SecurityConfig.trimEnd s) as [|d kept] eqn:Hk.
  - destruct (SecurityConfig.is_white_space c) eqn:Hc; [reflexivity|].
    cbn [SecurityConfig.trimEnd]. rewrite Hc. reflexivity.
  - change (SecurityConfig.trimEnd (String c (String d kept)))
      with (match SecurityConfig.trimEnd (String d kept) with
            | EmptyString =>
                if SecurityConfig.is_white_space c then EmptyString
                else String c EmptyString
            | kept' => String c kept'
            end).
    rewrite IH. reflexivity.
Qed.

Lemma trim_idemp (s : string) :
  SecurityConfig.trim (SecurityConfig.trim s) = SecurityConfig.trim s.
Proof.
  unfold SecurityConfig.trim.
  rewrite (trimStart_id (SecurityConfig.trimEnd (SecurityConfig.trimStart s))).
  - apply trimEnd_idemp.
  - apply trimEnd_clean, trimStart_clean.
Qed.

Lemma sanitizeInput_clean (p : ascii -> bool) (input : string) :
  p = SecurityConfig.is_angle \/ p = SecurityConfig.is_quote
  \/ p = SecurityConfig.is_semicolon ->
  SecurityConfig.some_char p (SecurityConfig.sanitizeInput input) = false.
Proof.
  intros Hp. unfold SecurityConfig.sanitizeInput, SecurityConfig.trim.
  apply some_char_trimEnd, some_char_trimStart.
  destruct Hp as [-> | [-> | ->]].
  - apply some_char_remove, some_char_remove, some_char_remove_self.
  - apply some_char_remove, some_char_remove_self.
  - apply some_char_remove_self.
Qed.

Lemma some_char_orb (p q : ascii -> bool) (s : string) :
  SecurityConfig.some_char (fun c => p c || q c) s
  = SecurityConfig.some_char p s || SecurityConfig.some_char q s.
Proof.
  induction s as [|c s IH]; [reflexivity|].
  cbn [SecurityConfig.some_char]. rewrite IH.
  destruct (p c), (q c), (SecurityConfig.some_char p s); reflexivity.
Qed.

(** X19.  What [sanitizeInput] returns holds no angle bracket, no single
    or double quote and no semicolon, starts with no white space, and is
    left unchanged by sanitising it again. *)
Theorem sanitizeInput_removes_and_is_idempotent (input : string) :
  SecurityConfig.some_char
    (fun c => SecurityConfig.is_angle c || SecurityConfig.is_quote c
              || SecurityConfig.is_semicolon c)
    (SecurityConfig.sanitizeInput input) = false /\
  SecurityConfig.trimStart (SecurityConfig.sanitizeInput input)
    = SecurityConfig.sanitizeInput input /\
  SecurityConfig.sanitizeInput (SecurityConfig.sanitizeInput input)
    = SecurityConfig.sanitizeInput input.
Proof.
  assert (Ha := sanitizeInput_clean SecurityConfig.is_angle input
                  ltac:(auto)).
  assert (Hq := sanitizeInput_clean SecurityConfig.is_quote input
                  ltac:(auto)).
  assert (Hs := sanitizeInput_clean SecurityConfig.is_semicolon input
                  ltac:(auto)).
  split; [|split].
  - rewrite !some_char_orb, Ha, Hq, Hs. reflexivity.
  - apply trimStart_id. unfold SecurityConfig.sanitizeInput, SecurityConfig.trim.
    apply trimEnd_clean, trimStart_clean.
  - set (y := SecurityConfig.sanitizeInput input) in *.
    unfold SecurityConfig.sanitizeInput at 1.
    rewrite (remove_chars_id _ y Ha), (remove_chars_id _ y Hq),
      (remove_chars_id _ y Hs).
    unfold y, SecurityConfig.sanitizeInput. apply trim_idemp.
Qed.

(** * Properties of the repositories *)

Lemma filter_ext_in {A} (P Q : A -> Prop) `{!∀ x, Decision (P x)}
    `{!∀ x, Decision (Q x)} (l : list A) :
  (∀ x, x ∈ l -> P x <-> Q x) -> filter P l = filter Q l.
Proof.
  induction l as [|a l IH]; intros Hext; [reflexivity|].
  rewrite !filter_cons.
  assert (Ha := Hext a ltac:(apply list_elem_of_here)).
  rewrite IH by (intros x Hx; apply Hext, list_elem_of_further, Hx).
  destruct (decide (P a)), (decide (Q a)); tauto.
Qed.

Lemma fmap_id_in {A} (f : A -> A) (l : list A) :
  (∀ x, x ∈ l -> f x = x) -> f <$> l = l.
Proof.
  induction l as [|a l IH]; intros H; [reflexivity|].
  rewrite fmap_cons, (H a) by apply list_elem_of_here.
  rewrite IH by (intros x Hx; apply H, list_elem_of_further, Hx).
  reflexivity.
Qed.

Lemma existsb_false_elem {A} (f : A -> bool) (l : list A) :
  existsb f l = false -> ∀ x, x ∈ l -> f x = false.
Proof.
  induction l as [|a l IH]; intros H x Hx.
  - apply elem_of_nil in Hx. destruct Hx.
  - cbn [existsb] in H. apply orb_false_elim in H as [Ha Hl].
    apply elem_of_cons in Hx as [-> | Hx]; [exact Ha | exact (IH Hl x Hx)].
Qed.

Lemma existsb_true_elem {A} (f : A -> bool) (l : list A) (x : A) :
  x ∈ l -> f x = true -> existsb f l = true.
Proof.
  intros Hx Hf. apply existsb_exists. exists x. split; [|exact Hf].
  apply list_elem_of_In, Hx.
Qed.

(** ** Lesson numbers *)

(** The number [createWithNumber] picks for a course in a table. *)
Lemma createWithNumber_unfold (courses : Table CourseData.t)
    (owners : list User.t) (data : NewLesson.t) (now : Timestamp)
    (t : Table LessonData.t) :
  ∃ nextNumber,
    nextNumber
    = match (fun r => LessonData.lessonNumber (BaseEntity.data r)) <$>
            filter (fun r => LessonData.courseId (BaseEntity.data r)
                             = NewLesson.courseId data
                             ∧ BaseEntity.deletedAt r = None) (table_rows t) with
      | [] => 1
      | n :: ns => foldr Z.max n ns + 1
      end /\
    LessonRepository.createWithNumber courses owners data now t
    = LessonRepository.create courses owners
        (LessonData.mk (NewLesson.courseId data) nextNumber
           (NewLesson.title data) (NewLesson.description data)
           (NewLesson.videoUrl data) (NewLesson.thumbnailUrl data)
           (NewLesson.attachments data) (NewLesson.instructorId data)
           (NewLesson.durationMinutes data)) now t.
Proof. eexists. split; reflexivity. Qed.

Lemma create_lesson_Ok (courses : Table CourseData.t) (owners : list User.t)
    (d : LessonData.t) (now : Timestamp)
    (t : Table LessonData.t) (l : BaseEntity.t LessonData.t)
    (t' : Table LessonData.t) :
  LessonRepository.create courses owners d now t = (Ok l, t') ->
  l = BaseEntity.mk ("uuid-" +:+ pretty (table_generator t)) d now now None /\
  t' = mkTable (table_generator t + 1)%N (table_rows t ++ [l]) /\
  ∀ r, r ∈ table_rows t ->
    BaseEntity.id r ≠ BaseEntity.id l /\
    LessonRepository.conflict (BaseEntity.data r) d = false.
Proof.
  unfold LessonRepository.create, BaseRepository.create.
  cbn [table_rows table_generator].
  destruct (existsb _ (table_rows t)) eqn:Hex; [discriminate|].
  destruct (LessonRepository.references courses owners d); [|discriminate].
  cbn [negb orb].
  intros [= <- <-]. split; [reflexivity|]. split; [reflexivity|].
  intros r Hr. apply (existsb_false_elem _ _ Hex) in Hr.
  apply orb_false_elim in Hr as [Hid Hc]. split; [|exact Hc].
  apply bool_decide_eq_false in Hid. exact Hid.
Qed.

(** X20.  A soft-deleted lesson keeps its number taken: when
    [createWithNumber] has added a lesson to a course and that lesson is
    then soft-deleted, the next [createWithNumber] for the same course
    fails with FailedToCreate, since it picks the number from the live
    lessons only while the UNIQUE constraint counts the deleted row. *)
Theorem soft_deleted_lesson_blocks_its_number
    (courses courses' : Table CourseData.t) (owners owners' : list User.t)
    (data data' : NewLesson.t) (now now1 now2 : Timestamp)
    (t t1 : Table LessonData.t) (l : BaseEntity.t LessonData.t) :
  LessonRepository.createWithNumber courses owners data now t = (Ok l, t1) ->
  NewLesson.courseId data' = NewLesson.courseId data ->
  fst (LessonRepository.createWithNumber courses' owners' data' now2
         (snd (LessonRepository.softDelete (BaseEntity.id l) now1 t1)))
  = Throw (FailedToCreate "lessons").
Proof.
  intros Hcreate Hcourse.
  destruct (createWithNumber_unfold courses owners data now t) as (n & Hn & Heq).
  rewrite Heq in Hcreate. apply create_lesson_Ok in Hcreate as (Hl & Ht1 & Hrows).
  set (l' := BaseEntity.mk (BaseEntity.id l) (BaseEntity.data l)
               (BaseEntity.createdAt l) now1 (Some now1)).
  assert (Hdel : snd (LessonRepository.softDelete (BaseEntity.id l) now1 t1)
                 = mkTable (table_generator t + 1)%N (table_rows t ++ [l'])).
  { unfold LessonRepository.softDelete, BaseRepository.softDelete.
    cbn [snd]. rewrite Ht1. cbn [table_generator table_rows]. f_equal.
    rewrite fmap_app, fmap_cons, fmap_nil.
    rewrite fmap_id_in.
    - destruct (decide _) as [_ | Hno]; [reflexivity|].
      exfalso. apply Hno. split; [reflexivity|]. rewrite Hl. reflexivity.
    - intros r Hr. destruct (decide _) as [[Hid _] | _]; [|reflexivity].
      destruct (Hrows r Hr) as [Hne _]. contradiction. }
  rewrite Hdel.
  destruct (createWithNumber_unfold courses' owners' data' now2
              (mkTable (table_generator t + 1)%N (table_rows t ++ [l'])))
    as (n' & Hn' & Heq').
  rewrite Heq'. clear Heq'.
  assert (Hsame : n' = n).
  { rewrite Hn', Hn. cbn [table_rows]. rewrite filter_app, Hcourse.
    rewrite filter_cons, filter_nil.
    destruct (decide _) as [[_ Hlive] | _]; [discriminate Hlive|].
    rewrite app_nil_r. reflexivity. }
  unfold LessonRepository.create, BaseRepository.create.
  cbn [table_rows table_generator].
  rewrite (existsb_true_elem _ _ l'); [reflexivity | |].
  - apply elem_of_app. right. apply list_elem_of_here.
  - apply orb_true_intro. right. unfold LessonRepository.conflict.
    apply bool_decide_eq_true. subst l'. cbn [BaseEntity.data].
    rewrite Hl. cbn [BaseEntity.data LessonData.courseId LessonData.lessonNumber].
    split; [symmetry; exact Hcourse | symmetry; exact Hsame].
Qed.

Lemma soft_deleted_lesson_blocks_its_number_witness :
  fst (LessonRepository.createWithNumber (course_table lesson_world)
         (users teacher_registered)
         (NewLesson.mk "course-1" "Second" "text" "" "" [] "uuid-1" 12) 30
         (snd (LessonRepository.softDelete "uuid-0" 20
                 (snd (LessonRepository.createWithNumber
                         (course_table lesson_world) (users teacher_registered)
                         (NewLesson.mk "course-1" "First" "text" "" "" []
                            "uuid-1" 10)
                         10 (mkTable 0%N []))))))
  = Throw (FailedToCreate "lessons").
Proof.
  destruct (LessonRepository.createWithNumber (course_table lesson_world)
              (users teacher_registered)
              (NewLesson.mk "course-1" "First" "text" "" "" [] "uuid-1" 10)
              10 (mkTable 0%N [])) as [res t1] eqn:Hcall.
  assert (Hres : res = Ok (BaseEntity.mk "uuid-0"
                   (LessonData.mk "course-1" 1 "First" "text" "" "" []
                      "uuid-1" 10) 10 10 None)).
  { change res with (fst (res, t1)). rewrite <- Hcall. vm_compute. reflexivity. }
  subst res. cbn [snd].
  apply (soft_deleted_lesson_blocks_its_number _ _ _ _ _ _ 10 20 30
           (mkTable 0%N []) t1 _ Hcall).
  reflexivity.
Defined.

Lemma foldr_max_seq (n s : nat) (b : Z) :
  b <= Z.of_nat s ->
  foldr Z.max b (Z.of_nat <$> seq s (S n)) = Z.of_nat (s + n).
Proof.
  revert s b. induction n as [|n IH]; intros s b Hb.
  - cbn. lia.
  - change (seq s (S (S n))) with (s :: seq (S s) (S n)).
    rewrite fmap_cons. cbn [foldr]. rewrite (IH (S s) b) by lia. lia.
Qed.

Lemma next_number_seq (k : nat) :
  match Z.of_nat <$> seq 1 k with
  | [] => 1
  | n :: ns => foldr Z.max n ns + 1
  end = Z.of_nat k + 1.
Proof.
  destruct k as [|k]; [reflexivity|].
  change (seq 1 (S k)) with (1%nat :: seq 2 k). rewrite fmap_cons.
  destruct k as [|k]; [reflexivity|].
  rewrite (foldr_max_seq k 2 (Z.of_nat 1)) by lia. lia.
Qed.

Lemma uuid_inj (k n : N) : "uuid-" +:+ pretty k = "uuid-" +:+ pretty n -> k = n.
Proof.
  intros Heq. cbn in Heq. injection Heq as Heq.
  change (pretty k = pretty n) in Heq. apply pretty_N_inj in Heq. exact Heq.
Qed.

(** A lesson whose course or instructor has no row is refused, whatever the
    table holds. *)
Lemma createWithNumber_refused (courses : Table CourseData.t)
    (owners : list User.t) (data : NewLesson.t) (now : Timestamp)
    (t : Table LessonData.t) :
  ¬ (NewLesson.courseId data ∈ BaseEntity.id <$> table_rows courses
     ∧ NewLesson.instructorId data ∈ User.id <$> owners) ->
  LessonRepository.createWithNumber courses owners data now t
  = (Throw (FailedToCreate "lessons"),
     mkTable (table_generator t + 1)%N (table_rows t)).
Proof.
  intros Hno.
  destruct (createWithNumber_unfold courses owners data now t) as (n & _ & ->).
  unfold LessonRepository.create, BaseRepository.create,
    LessonRepository.references.
  cbn [LessonData.courseId LessonData.instructorId].
  rewrite (bool_decide_eq_false_2 _ Hno). cbn [negb]. rewrite orb_true_r.
  reflexivity.
Qed.

Lemma createWithNumber_numbered (courses : Table CourseData.t)
    (owners : list User.t) (data : NewLesson.t) (now : Timestamp)
    (t : Table LessonData.t) :
  numbered t ->
  NewLesson.courseId data ∈ BaseEntity.id <$> table_rows courses ->
  NewLesson.instructorId data ∈ User.id <$> owners ->
  ∃ l,
    LessonRepository.createWithNumber courses owners data now t
    = (Ok l, mkTable (table_generator t + 1)%N (table_rows t ++ [l])) /\
    LessonData.courseId (BaseEntity.data l) = NewLesson.courseId data /\
    numbered (mkTable (table_generator t + 1)%N (table_rows t ++ [l])).
Proof.
  intros (Hlive & Hids & Hnum) Hcourse Hteacher.
  destruct (createWithNumber_unfold courses owners data now t) as (n & Hn & Heq).
  rewrite Heq. clear Heq.
  set (course := NewLesson.courseId data) in *.
  set (mine := filter (fun r => LessonData.courseId (BaseEntity.data r) = course)
                 (table_rows t)) in *.
  assert (Hmine : (fun r => LessonData.lessonNumber (BaseEntity.data r)) <$> mine
                  = Z.of_nat <$> seq 1 (length mine)) by apply Hnum.
  assert (Hn' : n = Z.of_nat (length mine) + 1).
  { rewrite Hn.
    rewrite (filter_ext_in _
               (fun r => LessonData.courseId (BaseEntity.data r) = course)).
    - fold mine. rewrite Hmine. apply next_number_seq.
    - intros r Hr. specialize (Hlive r Hr). tauto. }
  clear Hn.
  unfold LessonRepository.create, BaseRepository.create.
  cbn [table_rows table_generator].
  assert (Hrefs : LessonRepository.references courses owners
                    (LessonData.mk course n (NewLesson.title data)
                       (NewLesson.description data) (NewLesson.videoUrl data)
                       (NewLesson.thumbnailUrl data) (NewLesson.attachments data)
                       (NewLesson.instructorId data)
                       (NewLesson.durationMinutes data)) = true).
  { apply bool_decide_eq_true. split; assumption. }
  rewrite Hrefs. cbn [negb]. rewrite orb_false_r.
  destruct (existsb _ (table_rows t)) eqn:Hex.
  - exfalso. apply existsb_exists in Hex as (r & Hr & Hbad).
    apply list_elem_of_In in Hr.
    apply orb_prop in Hbad as [Hid | Hc].
    + apply bool_decide_eq_true in Hid.
      destruct (Hids r Hr) as (k & Hk & Hrid). rewrite Hrid in Hid.
      apply uuid_inj in Hid. lia.
    + unfold LessonRepository.conflict in Hc. apply bool_decide_eq_true in Hc.
      cbn [LessonData.courseId LessonData.lessonNumber] in Hc.
      destruct Hc as [Hc Hno].
      assert (Hin : LessonData.lessonNumber (BaseEntity.data r)
                    ∈ (fun r => LessonData.lessonNumber (BaseEntity.data r))
                      <$> mine).
      { apply list_elem_of_fmap. exists r. split; [reflexivity|].
        apply list_elem_of_filter. split; [exact Hc | exact Hr]. }
      rewrite Hmine in Hin.
      apply list_elem_of_fmap in Hin as (j & Hj & Hjin).
      apply elem_of_seq in Hjin. lia.
  - eexists. split; [reflexivity|]. split; [reflexivity|].
    split; [|split].
    + cbn [table_rows]. intros r [Hr | Hr]%elem_of_app; [exact (Hlive r Hr)|].
      apply list_elem_of_singleton in Hr. subst r. reflexivity.
    + cbn [table_rows table_generator].
      intros r [Hr | Hr]%elem_of_app.
      * destruct (Hids r Hr) as (k & Hk & Hrid). exists k. split; [lia | exact Hrid].
      * apply list_elem_of_singleton in Hr. subst r.
        exists (table_generator t). split; [lia | reflexivity].
    + intros c. cbn [table_rows]. rewrite filter_app, filter_cons, filter_nil.
      cbn [BaseEntity.data LessonData.courseId].
      destruct (decide (course = c)) as [<- | Hne].
      * fold mine. rewrite fmap_app, length_app. cbn [length fmap list_fmap].
        rewrite Hmine.
        rewrite Nat.add_1_r, seq_S, fmap_app.
        cbn [fmap list_fmap BaseEntity.data LessonData.lessonNumber].
        rewrite Hn'. do 2 f_equal. lia.
      * rewrite app_nil_r. apply Hnum.
Qed.

Lemma create_lessons_numbered (courses : Table CourseData.t)
    (owners : list User.t) (calls : list (NewLesson.t * Timestamp))
    (t : Table LessonData.t) :
  numbered t ->
  Forall (fun c => NewLesson.courseId (fst c) ∈ BaseEntity.id <$> table_rows courses
                   ∧ NewLesson.instructorId (fst c) ∈ User.id <$> owners) calls ->
  Forall is_Ok (fst (create_lessons courses owners calls t)) /\
  numbered (snd (create_lessons courses owners calls t)) /\
  ∀ course,
    length (filter (fun r => LessonData.courseId (BaseEntity.data r) = course)
              (table_rows (snd (create_lessons courses owners calls t))))
    = (length (filter (fun r => LessonData.courseId (BaseEntity.data r) = course)
                 (table_rows t))
       + length (filter (fun c => NewLesson.courseId (fst c) = course) calls))%nat.
Proof.
  revert t. induction calls as [|[data now] calls IH]; intros t Ht Hrefs.
  - cbn. split; [constructor|]. split; [exact Ht|]. intros. lia.
  - cbn [create_lessons].
    apply Forall_cons in Hrefs as [[Hcourse Hteacher] Hrefs].
    cbn [fst] in Hcourse, Hteacher.
    destruct (createWithNumber_numbered courses owners data now t Ht
                Hcourse Hteacher) as (l & Hcall & Hc & Ht').
    rewrite Hcall.
    specialize (IH _ Ht' Hrefs).
    destruct (create_lessons courses owners calls _) as [ress t''].
    cbn [fst snd] in *. destruct IH as (Hok & Hnum & Hlen).
    split; [constructor; [exact I | exact Hok]|]. split; [exact Hnum|].
    intros course. rewrite Hlen. cbn [table_rows].
    rewrite filter_app, length_app, !filter_cons, !filter_nil.
    cbn [fst]. rewrite Hc.
    destruct (decide (NewLesson.courseId data = course)); cbn [length]; lia.
Qed.

(** X21.  Lessons created one after the other in an empty table, each for
    a course and an instructor that have a row, all succeed, and the
    lessons of each course are numbered 1, 2, 3, ... in the order of their
    creation, whatever other courses the calls in between are for.  A
    lesson for a course or an instructor without a row is refused. *)
Theorem lessons_are_numbered_in_order_of_creation
    (courses : Table CourseData.t) (owners : list User.t)
    (calls : list (NewLesson.t * Timestamp)) (course : Id) :
  Forall (fun c => NewLesson.courseId (fst c) ∈ BaseEntity.id <$> table_rows courses
                   ∧ NewLesson.instructorId (fst c) ∈ User.id <$> owners) calls ->
  Forall is_Ok (fst (create_lessons courses owners calls (mkTable 0%N []))) /\
  (fun r => LessonData.lessonNumber (BaseEntity.data r)) <$>
  filter (fun r => LessonData.courseId (BaseEntity.data r) = course)
    (table_rows (snd (create_lessons courses owners calls (mkTable 0%N []))))
  = Z.of_nat <$>
    seq 1 (length (filter (fun c => NewLesson.courseId (fst c) = course) calls)) /\
  ∀ data now t,
    ¬ (NewLesson.courseId data ∈ BaseEntity.id <$> table_rows courses
       ∧ NewLesson.instructorId data ∈ User.id <$> owners) ->
    fst (LessonRepository.createWithNumber courses owners data now t)
    = Throw (FailedToCreate "lessons").
Proof.
  intros Hrefs.
  assert (H0 : numbered (mkTable 0%N [])).
  { split; [|split].
    - intros r Hr. apply elem_of_nil in Hr. destruct Hr.
    - intros r Hr. apply elem_of_nil in Hr. destruct Hr.
    - intros c. reflexivity. }
  destruct (create_lessons_numbered courses owners calls _ H0 Hrefs)
    as (Hok & (_ & _ & Hnum) & Hlen).
  split; [exact Hok|]. split.
  - rewrite (Hnum course), (Hlen course). reflexivity.
  - intros data now t Hno.
    rewrite (createWithNumber_refused courses owners data now t Hno).
    reflexivity.
Qed.

Lemma lessons_are_numbered_in_order_of_creation_witness :
  (fun r => LessonData.lessonNumber (BaseEntity.data r)) <$>
  filter (fun r => LessonData.courseId (BaseEntity.data r) = "course-1")
    (table_rows
       (snd (create_lessons (course_table lesson_world) (users teacher_registered)
               [(NewLesson.mk "course-1" "First" "text" "" "" [] "uuid-1" 10, 10);
                (NewLesson.mk "course-1" "Second" "text" "" "" [] "uuid-1" 12, 20)]
               (mkTable 0%N []))))
  = Z.of_nat <$> seq 1 2.
Proof.
  apply (lessons_are_numbered_in_order_of_creation (course_table lesson_world)
           (users teacher_registered)
           [(NewLesson.mk "course-1" "First" "text" "" "" [] "uuid-1" 10, 10);
            (NewLesson.mk "course-1" "Second" "text" "" "" [] "uuid-1" 12, 20)]
           "course-1").
  repeat constructor; cbn [fst NewLesson.courseId NewLesson.instructorId];
    apply bool_decide_unpack; vm_compute; exact I.
Defined.

(** ** Updates through the generic repository *)

Lemma existsb_no_conflict {A} (f : A -> bool) (l : list A) :
  (∀ x, f x = false) -> existsb f l = false.
Proof.
  intros Hf. induction l as [|a l IH]; [reflexivity|].
  cbn [existsb]. rewrite Hf, IH. reflexivity.
Qed.

Lemma findById_hit {D} (id : Id) (t : Table D) :
  BaseRepository.findById id false t
  = single (filter (fun r => BaseEntity.id r = id ∧ BaseEntity.deletedAt r = None)
              (table_rows t)).
Proof.
  unfold BaseRepository.findById. rewrite list_filter_filter. f_equal.
  apply list_filter_iff. intros r. tauto.
Qed.

(** An update of a row that [findById] finds, in a table with no UNIQUE
    constraint beside the primary key: the call returns the rewritten row,
    and [findById] finds it afterwards. *)
Lemma update_of_found {D} (tableName : string) (conflict : D -> D -> bool)
    (id : Id) (patch : D -> D) (now : Timestamp) (t : Table D)
    (r : BaseEntity.t D) :
  (∀ a b, conflict a b = false) ->
  BaseRepository.findById id false t = Some r ->
  ∃ t',
    BaseRepository.update tableName conflict id patch now t
    = (Ok (BaseEntity.mk (BaseEntity.id r) (patch (BaseEntity.data r))
             (BaseEntity.createdAt r) now (BaseEntity.deletedAt r)), t') /\
    BaseRepository.findById id false t'
    = Some (BaseEntity.mk (BaseEntity.id r) (patch (BaseEntity.data r))
              (BaseEntity.createdAt r) now (BaseEntity.deletedAt r)).
Proof.
  intros Hnc Hfind. rewrite findById_hit in Hfind.
  unfold BaseRepository.update. rewrite Hfind.
  rewrite existsb_no_conflict
    by (intros o; rewrite Hnc; apply andb_false_r).
  eexists. split; [reflexivity|].
  rewrite findById_hit. cbn [table_rows].
  apply single_Some in Hfind.
  set (hit := fun r0 : BaseEntity.t D =>
                BaseEntity.id r0 = id ∧ BaseEntity.deletedAt r0 = None) in *.
  set (f := fun o : BaseEntity.t D =>
              if decide (hit o)
              then BaseEntity.mk (BaseEntity.id o) (patch (BaseEntity.data o))
                     (BaseEntity.createdAt o) now (BaseEntity.deletedAt o)
              else o).
  rewrite (filter_fmap_stable hit f).
  - rewrite Hfind. cbn [fmap list_fmap]. unfold f.
    assert (Hr : hit r).
    { assert (Hin : r ∈ filter hit (table_rows t))
        by (rewrite Hfind; apply list_elem_of_here).
      apply list_elem_of_filter in Hin. apply Hin. }
    destruct (decide (hit r)); [reflexivity | contradiction].
  - intros a. unfold f. destruct (decide (hit a)) as [Ha | Ha]; [|tauto].
    unfold hit in *. cbn [BaseEntity.id BaseEntity.deletedAt]. tauto.
Qed.

(** ** Roadmap enrolment *)

Lemma enrollUser_found (roadmapId userId : Id) (now : Timestamp)
    (t : Table RoadmapData.t) (r : BaseEntity.t RoadmapData.t) :
  RoadmapRepository.findById roadmapId false t = Some r ->
  ∃ t',
    RoadmapRepository.enrollUser roadmapId userId now t = (Ok true, t') /\
    RoadmapRepository.findById roadmapId false t'
    = Some (BaseEntity.mk (BaseEntity.id r)
              (RoadmapData.set_enrolledUserIds
                 (RoadmapData.enrolledUserIds (BaseEntity.data r) ++ [userId])
                 (BaseEntity.data r))
              (BaseEntity.createdAt r) now (BaseEntity.deletedAt r)).
Proof.
  intros Hfind. unfold RoadmapRepository.enrollUser. rewrite Hfind.
  destruct (update_of_found RoadmapRepository.tableName
              RoadmapRepository.conflict roadmapId
              (RoadmapData.set_enrolledUserIds
                 (RoadmapData.enrolledUserIds (BaseEntity.data r) ++ [userId]))
              now t r ltac:(reflexivity) Hfind) as (t' & Hup & Hfind').
  unfold RoadmapRepository.update. rewrite Hup.
  exists t'. split; [reflexivity | exact Hfind'].
Qed.

Lemma unenrollUser_found (roadmapId userId : Id) (now : Timestamp)
    (t : Table RoadmapData.t) (r : BaseEntity.t RoadmapData.t) :
  RoadmapRepository.findById roadmapId false t = Some r ->
  ∃ t',
    RoadmapRepository.unenrollUser roadmapId userId now t = (Ok true, t') /\
    RoadmapRepository.findById roadmapId false t'
    = Some (BaseEntity.mk (BaseEntity.id r)
              (RoadmapData.set_enrolledUserIds
                 (filter (fun id => id ≠ userId)
                    (RoadmapData.enrolledUserIds (BaseEntity.data r)))
                 (BaseEntity.data r))
              (BaseEntity.createdAt r) now (BaseEntity.deletedAt r)).
Proof.
  intros Hfind. unfold RoadmapRepository.unenrollUser. rewrite Hfind.
  destruct (update_of_found RoadmapRepository.tableName
              RoadmapRepository.conflict roadmapId
              (RoadmapData.set_enrolledUserIds
                 (filter (fun id => id ≠ userId)
                    (RoadmapData.enrolledUserIds (BaseEntity.data r))))
              now t r ltac:(reflexivity) Hfind) as (t' & Hup & Hfind').
  unfold RoadmapRepository.update. rewrite Hup.
  exists t'. split; [reflexivity | exact Hfind'].
Qed.

(** X22.  Enrolment in a roadmap does not look for the user in the list
    and unenrolment removes every occurrence: on a roadmap that is found,
    enrolling a user twice lists the user twice, and one unenrolment then
    leaves the original list without that user; on a roadmap that is
    missing or soft-deleted both calls return false and change nothing. *)
Theorem enrolment_appends_and_unenrolment_removes_all
    (roadmapId userId : Id) (now1 now2 now3 : Timestamp)
    (t : Table RoadmapData.t) :
  match RoadmapRepository.findById roadmapId false t with
  | None =>
      RoadmapRepository.enrollUser roadmapId userId now1 t = (Ok false, t) /\
      RoadmapRepository.unenrollUser roadmapId userId now1 t = (Ok false, t)
  | Some roadmap =>
      let enrolled t :=
        (fun r => RoadmapData.enrolledUserIds (BaseEntity.data r)) <$>
        RoadmapRepository.findById roadmapId false t in
      let call1 := RoadmapRepository.enrollUser roadmapId userId now1 t in
      let call2 := RoadmapRepository.enrollUser roadmapId userId now2 (snd call1) in
      let call3 := RoadmapRepository.unenrollUser roadmapId userId now3 (snd call2) in
      fst call1 = Ok true /\ fst call2 = Ok true /\ fst call3 = Ok true /\
      enrolled (snd call2)
      = Some (RoadmapData.enrolledUserIds (BaseEntity.data roadmap)
              ++ [userId; userId]) /\
      enrolled (snd call3)
      = Some (filter (fun id => id ≠ userId)
                (RoadmapData.enrolledUserIds (BaseEntity.data roadmap)))
  end.
Proof.
  destruct (RoadmapRepository.findById roadmapId false t) as [r|] eqn:Hfind.
  - destruct (enrollUser_found roadmapId userId now1 t r Hfind)
      as (t1 & Hc1 & Hf1).
    destruct (enrollUser_found roadmapId userId now2 t1 _ Hf1)
      as (t2 & Hc2 & Hf2).
    destruct (unenrollUser_found roadmapId userId now3 t2 _ Hf2)
      as (t3 & Hc3 & Hf3).
    cbn zeta. rewrite Hc1. cbn [fst snd]. rewrite Hc2. cbn [fst snd].
    rewrite Hc3. cbn [fst snd]. rewrite Hf2, Hf3.
    cbn [BaseEntity.data RoadmapData.set_enrolledUserIds
           RoadmapData.enrolledUserIds fmap option_fmap option_map].
    repeat split.
    + rewrite <- app_assoc. reflexivity.
    + f_equal. rewrite <- app_assoc. cbn [app].
      rewrite filter_app, !filter_cons, filter_nil.
      destruct (decide (userId ≠ userId)) as [Hne | _]; [contradiction|].
      apply app_nil_r.
  - unfold RoadmapRepository.enrollUser, RoadmapRepository.unenrollUser.
    rewrite Hfind. split; reflexivity.
Qed.

(** ** The challenge leaderboard *)

Lemma insert_by_score_insert_last (a e : LeaderboardEntry.t)
    (s : list LeaderboardEntry.t) :
  insert_by_score a (insert_last e s) = insert_last e (insert_by_score a s).
Proof.
  induction s as [|x s IH].
  - cbn [insert_last insert_by_score].
    destruct (Z.leb_spec (LeaderboardEntry.score e) (LeaderboardEntry.score a));
      reflexivity.
  - cbn [insert_last insert_by_score].
    destruct (Z.leb_spec (LeaderboardEntry.score e) (LeaderboardEntry.score x)),
      (Z.leb_spec (LeaderboardEntry.score x) (LeaderboardEntry.score a));
      cbn [insert_last insert_by_score];
      repeat match goal with
             | |- context [(?p <=? ?q)%Z] => destruct (Z.leb_spec p q); try lia
             end;
      try reflexivity.
    rewrite IH. reflexivity.
Qed.

Lemma sort_by_score_snoc (l : list LeaderboardEntry.t) (e : LeaderboardEntry.t) :
  sort_by_score (l ++ [e]) = insert_last e (sort_by_score l).
Proof.
  induction l as [|a l IH]; [reflexivity|].
  unfold sort_by_score in *. cbn [app foldr]. rewrite IH.
  apply insert_by_score_insert_last.
Qed.

Lemma insert_by_score_elem (a y : LeaderboardEntry.t)
    (s : list LeaderboardEntry.t) :
  y ∈ insert_by_score a s -> y = a \/ y ∈ s.
Proof.
  induction s as [|x s IH]; cbn [insert_by_score].
  - intros Hy. apply list_elem_of_singleton in Hy. left. exact Hy.
  - destruct (_ <=? _)%Z.
    + intros Hy. apply elem_of_cons in Hy. exact Hy.
    + intros Hy. apply elem_of_cons in Hy as [-> | Hy].
      * right. apply list_elem_of_here.
      * destruct (IH Hy) as [-> | Hin]; [left; reflexivity|].
        right. apply list_elem_of_further, Hin.
Qed.

Lemma insert_by_score_descending (a : LeaderboardEntry.t)
    (s : list LeaderboardEntry.t) :
  descending s -> descending (insert_by_score a s).
Proof.
  induction s as [|x s IH]; intros Hs.
  - cbn. split; [constructor | exact I].
  - cbn [insert_by_score]. destruct Hs as [Hx Hs].
    destruct (Z.leb_spec (LeaderboardEntry.score x) (LeaderboardEntry.score a)).
    + cbn [descending]. split; [|split; assumption].
      constructor; [assumption|].
      eapply Forall_impl; [exact Hx|]. cbn. intros y Hy. lia.
    + cbn [descending]. split; [|exact (IH Hs)].
      apply Forall_forall. intros y Hy.
      apply insert_by_score_elem in Hy as [-> | Hy]; [lia|].
      rewrite Forall_forall in Hx. exact (Hx y Hy).
Qed.

Lemma sort_by_score_descending (l : list LeaderboardEntry.t) :
  descending (sort_by_score l).
Proof.
  induction l as [|a l IH]; [exact I|].
  apply insert_by_score_descending, IH.
Qed.

Lemma descending_take (n : nat) (s : list LeaderboardEntry.t) :
  descending s -> descending (take n s).
Proof.
  revert n. induction s as [|x s IH]; intros [|n] Hs; try exact I.
  destruct Hs as [Hx Hs]. cbn [take descending].
  split; [apply Forall_take, Hx | apply IH, Hs].
Qed.

Lemma length_filter_insert_by_score (P : LeaderboardEntry.t -> Prop)
    `{!∀ x, Decision (P x)} (a : LeaderboardEntry.t)
    (s : list LeaderboardEntry.t) :
  length (filter P (insert_by_score a s)) = length (filter P (a :: s)).
Proof.
  induction s as [|x s IH]; [reflexivity|].
  cbn [insert_by_score]. destruct (_ <=? _)%Z; [reflexivity|].
  rewrite filter_cons, (filter_cons _ a), (filter_cons _ x).
  rewrite filter_cons in IH.
  destruct (decide (P x)), (decide (P a)); cbn [length] in *; lia.
Qed.

Lemma length_filter_sort_by_score (P : LeaderboardEntry.t -> Prop)
    `{!∀ x, Decision (P x)} (l : list LeaderboardEntry.t) :
  length (filter P (sort_by_score l)) = length (filter P l).
Proof.
  induction l as [|a l IH]; [reflexivity|].
  change (sort_by_score (a :: l)) with (insert_by_score a (sort_by_score l)).
  rewrite length_filter_insert_by_score, !filter_cons.
  destruct (decide (P a)); cbn [length]; rewrite IH; reflexivity.
Qed.

Lemma length_sort_by_score (l : list LeaderboardEntry.t) :
  length (sort_by_score l) = length l.
Proof.
  induction l as [|a l IH]; [reflexivity|].
  change (sort_by_score (a :: l)) with (insert_by_score a (sort_by_score l)).
  cbn [length]. rewrite <- IH. generalize (sort_by_score l) as s.
  induction s as [|x s IHs]; [reflexivity|].
  cbn [insert_by_score]. destruct (_ <=? _)%Z; [reflexivity|].
  cbn [length]. rewrite IHs. reflexivity.
Qed.

Lemma insert_last_split (e : LeaderboardEntry.t) (s : list LeaderboardEntry.t) :
  descending s ->
  insert_last e s
  = take (length (filter (fun x => LeaderboardEntry.score e
                                   <= LeaderboardEntry.score x) s)) s
    ++ e :: drop (length (filter (fun x => LeaderboardEntry.score e
                                          <= LeaderboardEntry.score x) s)) s.
Proof.
  induction s as [|x s IH]; intros Hs; [reflexivity|].
  destruct Hs as [Hx Hs]. cbn [insert_last]. rewrite filter_cons.
  destruct (Z.leb_spec (LeaderboardEntry.score e) (LeaderboardEntry.score x)).
  - destruct (decide _); [|lia]. cbn [length take drop app].
    rewrite <- (IH Hs). reflexivity.
  - destruct (decide _); [lia|].
    assert (Hnone : filter (fun x0 => LeaderboardEntry.score e
                                      <= LeaderboardEntry.score x0) s = []).
    { clear IH Hs. induction s as [|y s IH]; [reflexivity|].
      apply Forall_cons in Hx as [Hy Hx]. rewrite filter_cons.
      destruct (decide _); [lia | exact (IH Hx)]. }
    rewrite Hnone. reflexivity.
Qed.

Lemma updateLeaderboard_found (challengeId : Id) (entry : LeaderboardEntry.t)
    (now : Timestamp) (t : Table ChallengeData.t)
    (c : BaseEntity.t ChallengeData.t) :
  ChallengeRepository.findById challengeId false t = Some c ->
  ∃ t',
    ChallengeRepository.updateLeaderboard challengeId entry now t = (Ok true, t') /\
    (fun r => ChallengeData.leaderboard (BaseEntity.data r)) <$>
    ChallengeRepository.findById challengeId false t'
    = Some (take 100
              (sort_by_score
                 (ChallengeData.leaderboard (BaseEntity.data c) ++ [entry]))).
Proof.
  intros Hfind. unfold ChallengeRepository.updateLeaderboard. rewrite Hfind.
  destruct (update_of_found ChallengeRepository.tableName
              ChallengeRepository.conflict challengeId
              (ChallengeData.set_leaderboard
                 (take 100
                    (sort_by_score
                       (ChallengeData.leaderboard (BaseEntity.data c) ++ [entry]))))
              now t c ltac:(reflexivity) Hfind) as (t' & Hup & Hfind').
  unfold ChallengeRepository.update. rewrite Hup.
  exists t'. split; [reflexivity|].
  unfold ChallengeRepository.findById. rewrite Hfind'. reflexivity.
Qed.

(** X23.  [updateLeaderboard] keeps the leaderboard sorted by descending
    score and at most 100 long, and puts a new entry behind every entry
    that scores at least as much: the entry is recorded at the position
    that is the number of such entries when this is below 100, and is not
    recorded at all when 100 entries already score at least as much.  On a
    challenge that is missing or soft-deleted the call returns false and
    changes nothing. *)
Theorem leaderboard_keeps_the_best_hundred
    (challengeId : Id) (entry : LeaderboardEntry.t) (now : Timestamp)
    (t : Table ChallengeData.t) :
  match ChallengeRepository.findById challengeId false t with
  | None =>
      ChallengeRepository.updateLeaderboard challengeId entry now t = (Ok false, t)
  | Some challenge =>
      let old := ChallengeData.leaderboard (BaseEntity.data challenge) in
      let ahead :=
        length (filter (fun x => LeaderboardEntry.score entry
                                 <= LeaderboardEntry.score x) old) in
      let call := ChallengeRepository.updateLeaderboard challengeId entry now t in
      fst call = Ok true /\
      ∃ new,
        (fun r => ChallengeData.leaderboard (BaseEntity.data r)) <$>
        ChallengeRepository.findById challengeId false (snd call) = Some new /\
        length new = Nat.min 100 (length old + 1) /\
        descending new /\
        if decide (ahead < 100)%nat
        then new !! ahead = Some entry
        else new = take 100 (sort_by_score old)
  end.
Proof.
  destruct (ChallengeRepository.findById challengeId false t) as [c|] eqn:Hfind.
  - destruct (updateLeaderboard_found challengeId entry now t c Hfind)
      as (t' & Hcall & Hfind').
    cbn zeta. rewrite Hcall. cbn [fst snd]. split; [reflexivity|].
    eexists. split; [exact Hfind'|].
    set (old := ChallengeData.leaderboard (BaseEntity.data c)).
    split; [|split].
    + rewrite length_take, length_sort_by_score, length_app. reflexivity.
    + apply descending_take, sort_by_score_descending.
    + rewrite sort_by_score_snoc.
      rewrite (insert_last_split entry (sort_by_score old))
        by apply sort_by_score_descending.
      rewrite length_filter_sort_by_score.
      set (ahead := length (filter _ old)).
      assert (Hle : (ahead <= length (sort_by_score old))%nat).
      { rewrite length_sort_by_score. apply length_filter. }
      destruct (decide (ahead < 100)%nat) as [Hlt | Hge].
      * rewrite lookup_take_lt by exact Hlt.
        apply list_lookup_middle. rewrite length_take. lia.
      * rewrite take_app_le by (rewrite length_take; lia).
        rewrite take_take. f_equal. lia.
  - unfold ChallengeRepository.updateLeaderboard. rewrite Hfind. reflexivity.
Qed.

(** ** The lesson count of a course *)

Lemma incrementTotalLessons_found (courseId : Id) (now : Timestamp)
    (t : Table CourseData.t) (c : BaseEntity.t CourseData.t) :
  CourseRepository.findById courseId false t = Some c ->
  ∃ t',
    CourseRepository.incrementTotalLessons courseId now t = (Ok tt, t') /\
    (fun c => CourseData.totalLessons (BaseEntity.data c)) <$>
    CourseRepository.findById courseId false t'
    = Some (CourseData.totalLessons (BaseEntity.data c) + 1).
Proof.
  intros Hfind. unfold CourseRepository.incrementTotalLessons. rewrite Hfind.
  destruct (update_of_found CourseRepository.tableName
              CourseRepository.conflict courseId
              (CourseData.set_totalLessons
                 (CourseData.totalLessons (BaseEntity.data c) + 1))
              now t c ltac:(reflexivity) Hfind) as (t' & Hup & Hfind').
  unfold CourseRepository.update. rewrite Hup.
  exists t'. split; [reflexivity|].
  unfold CourseRepository.findById. rewrite Hfind'. reflexivity.
Qed.

Lemma decrementTotalLessons_found (courseId : Id) (now : Timestamp)
    (t : Table CourseData.t) (c : BaseEntity.t CourseData.t) :
  CourseRepository.findById courseId false t = Some c ->
  ∃ t' c',
    CourseRepository.decrementTotalLessons courseId now t = (Ok tt, t') /\
    CourseRepository.findById courseId false t' = Some c' /\
    CourseData.totalLessons (BaseEntity.data c')
    = if decide (CourseData.totalLessons (BaseEntity.data c) > 0)
      then CourseData.totalLessons (BaseEntity.data c) - 1
      else CourseData.totalLessons (BaseEntity.data c).
Proof.
  intros Hfind. unfold CourseRepository.decrementTotalLessons. rewrite Hfind.
  destruct (decide (CourseData.totalLessons (BaseEntity.data c) > 0))
    as [Hpos | Hno].
  - rewrite bool_decide_eq_true_2 by exact Hpos.
    destruct (update_of_found CourseRepository.tableName
                CourseRepository.conflict courseId
                (CourseData.set_totalLessons
                   (CourseData.totalLessons (BaseEntity.data c) - 1))
                now t c ltac:(reflexivity) Hfind) as (t' & Hup & Hfind').
    unfold CourseRepository.update. rewrite Hup.
    eexists t', _. split; [reflexivity|]. split; [exact Hfind' | reflexivity].
  - rewrite bool_decide_eq_false_2 by exact Hno.
    exists t, c. split; [reflexivity|]. split; [exact Hfind | reflexivity].
Qed.

Lemma findById_any {D} (id : Id) (t : Table D) :
  BaseRepository.findById id true t
  = single (filter (fun r => BaseEntity.id r = id) (table_rows t)).
Proof. reflexivity. Qed.

(** A row that is the only one with its id is what [findById] finds among
    the live rows exactly when it is live. *)
Lemma findById_live_of_any {D} (id : Id) (t : Table D) (r : BaseEntity.t D) :
  BaseRepository.findById id true t = Some r ->
  BaseRepository.findById id false t
  = if decide (BaseEntity.deletedAt r = None) then Some r else None.
Proof.
  rewrite findById_any. intros Hr%single_Some.
  unfold BaseRepository.findById. rewrite Hr, filter_cons, filter_nil.
  destruct (decide _); reflexivity.
Qed.

(** Soft deletion and restoration, on a row that is the only one with its
    id. *)
Lemma softDelete_of_any {D} (id : Id) (now : Timestamp) (t : Table D)
    (r : BaseEntity.t D) :
  BaseRepository.findById id true t = Some r ->
  BaseEntity.deletedAt r = None ->
  ∃ t',
    BaseRepository.softDelete id now t = (Ok true, t') /\
    BaseRepository.findById id true t'
    = Some (BaseEntity.mk (BaseEntity.id r) (BaseEntity.data r)
              (BaseEntity.createdAt r) now (Some now)).
Proof.
  rewrite findById_any. intros Hr%single_Some Hlive.
  eexists. split; [reflexivity|].
  rewrite findById_any. cbn [table_rows].
  rewrite filter_fmap_stable.
  - rewrite Hr. cbn [fmap list_fmap].
    assert (Hid : BaseEntity.id r = id).
    { assert (Hin : r ∈ filter (fun r0 => BaseEntity.id r0 = id) (table_rows t))
        by (rewrite Hr; apply list_elem_of_here).
      apply list_elem_of_filter in Hin. apply Hin. }
    destruct (decide _) as [_ | Hno]; [reflexivity|].
    exfalso. apply Hno. split; assumption.
  - intros a. destruct (decide _); cbn [BaseEntity.id]; tauto.
Qed.

Lemma restore_of_any {D} (id : Id) (now : Timestamp) (t : Table D)
    (r : BaseEntity.t D) :
  BaseRepository.findById id true t = Some r ->
  ∃ t',
    BaseRepository.restore id now t = (Ok true, t') /\
    BaseRepository.findById id true t'
    = Some (if decide (BaseEntity.deletedAt r = None) then r
            else BaseEntity.mk (BaseEntity.id r) (BaseEntity.data r)
                   (BaseEntity.createdAt r) now None) /\
    (BaseEntity.deletedAt r = None -> table_rows t' = table_rows t).
Proof.
  rewrite findById_any. intros Hr%single_Some.
  assert (Hid : BaseEntity.id r = id).
  { assert (Hin : r ∈ filter (fun r0 => BaseEntity.id r0 = id) (table_rows t))
      by (rewrite Hr; apply list_elem_of_here).
    apply list_elem_of_filter in Hin. apply Hin. }
  eexists. split; [reflexivity|]. split.
  - rewrite findById_any. cbn [table_rows].
    rewrite filter_fmap_stable.
    + rewrite Hr. cbn [fmap list_fmap].
      destruct (decide (BaseEntity.deletedAt r = None)) as [Hlive | Hdel].
      * destruct (decide _) as [[_ Hno] | _]; [contradiction | reflexivity].
      * destruct (decide _) as [_ | Hno]; [reflexivity|].
        exfalso. apply Hno. split; assumption.
    + intros a. destruct (decide _); cbn [BaseEntity.id]; tauto.
  - intros Hlive. cbn [table_rows]. apply fmap_id_in. intros x Hx.
    destruct (decide _) as [[Hxid Hxdel] | _]; [|reflexivity].
    assert (Hin : x ∈ filter (fun r0 => BaseEntity.id r0 = id) (table_rows t))
      by (apply list_elem_of_filter; split; assumption).
    rewrite Hr in Hin. apply list_elem_of_singleton in Hin. subst x.
    contradiction.
Qed.

Lemma restoreLesson_tables (id : Id) (now : Timestamp) (w : LessonWorld)
    (lesson : BaseEntity.t LessonData.t) :
  LessonRepository.findById id true (lesson_table w) = Some lesson ->
  lesson_table (snd (LessonService.restoreLesson id now w))
  = snd (LessonRepository.restore id now (lesson_table w)) /\
  course_table (snd (LessonService.restoreLesson id now w))
  = snd (CourseRepository.incrementTotalLessons
           (LessonData.courseId (BaseEntity.data lesson)) now (course_table w)).
Proof.
  intros Hfind. unfold LessonService.restoreLesson. rewrite Hfind.
  unfold LessonRepository.restore, BaseRepository.restore.
  destruct (CourseRepository.incrementTotalLessons _ now (course_table w))
    as [[[]|e] courses]; cbn [snd].
  - destruct (ActivityLogRepository.log _ _ _ _ _ now (shared w)) as [[[]|e] s];
      split; reflexivity.
  - split; reflexivity.
Qed.

Lemma softDeleteLesson_tables (id : Id) (now : Timestamp) (w : LessonWorld)
    (lesson : BaseEntity.t LessonData.t) :
  LessonRepository.findById id false (lesson_table w) = Some lesson ->
  lesson_table (snd (LessonService.softDeleteLesson id now w))
  = snd (LessonRepository.softDelete id now (lesson_table w)) /\
  course_table (snd (LessonService.softDeleteLesson id now w))
  = snd (CourseRepository.decrementTotalLessons
           (LessonData.courseId (BaseEntity.data lesson)) now (course_table w)).
Proof.
  intros Hfind. unfold LessonService.softDeleteLesson. rewrite Hfind.
  unfold LessonRepository.softDelete, BaseRepository.softDelete.
  destruct (CourseRepository.decrementTotalLessons _ now (course_table w))
    as [[[]|e] courses]; cbn [snd].
  - destruct ((CacheService.del _ ;; ActivityLogRepository.log _ _ _ _ _ now)
                (shared w)) as [[[]|e] s]; split; reflexivity.
  - split; reflexivity.
Qed.

(** X24.  [restoreLesson] does not look at whether the lesson is deleted:
    called on a lesson that is live, it leaves the lesson table as it is
    and still adds one to the lesson count of the course. *)
Theorem restoring_a_live_lesson_inflates_the_count
    (id : Id) (now : Timestamp) (w : LessonWorld)
    (lesson : BaseEntity.t LessonData.t) (total : Z) :
  LessonRepository.findById id true (lesson_table w) = Some lesson ->
  BaseEntity.deletedAt lesson = None ->
  shown_total (LessonData.courseId (BaseEntity.data lesson)) w = Some total ->
  table_rows (lesson_table (snd (LessonService.restoreLesson id now w)))
  = table_rows (lesson_table w) /\
  shown_total (LessonData.courseId (BaseEntity.data lesson))
    (snd (LessonService.restoreLesson id now w))
  = Some (total + 1).
Proof.
  intros Hfind Hlive Htotal.
  destruct (restoreLesson_tables id now w lesson Hfind) as [Hl Hc].
  destruct (restore_of_any id now (lesson_table w) lesson Hfind)
    as (t' & Hres & _ & Hrows).
  unfold shown_total in *. rewrite Hl, Hc.
  unfold LessonRepository.restore. rewrite Hres. cbn [snd].
  split; [exact (Hrows Hlive)|].
  destruct (CourseRepository.findById _ false (course_table w)) as [c|] eqn:Hcf;
    [|discriminate].
  injection Htotal as <-.
  destruct (incrementTotalLessons_found _ now (course_table w) c Hcf)
    as (ct & Hinc & Hshown).
  rewrite Hinc. cbn [snd]. exact Hshown.
Qed.

Lemma restoring_a_live_lesson_inflates_the_count_witness :
  table_rows (lesson_table (snd (LessonService.restoreLesson "lesson-1" 50
                                   lesson_world)))
  = table_rows (lesson_table lesson_world) /\
  shown_total (LessonData.courseId (BaseEntity.data first_lesson))
    (snd (LessonService.restoreLesson "lesson-1" 50 lesson_world))
  = Some (0 + 1).
Proof.
  apply (restoring_a_live_lesson_inflates_the_count "lesson-1" 50 lesson_world
           first_lesson 0); vm_compute; reflexivity.
Defined.

(** X25.  Soft-deleting a live lesson and restoring it gives the lesson
    back with the same columns, but the lesson count of the course only
    returns to its value when that value was positive: a count that is
    zero or below is not lowered by the deletion and is raised by the
    restoration. *)
Theorem soft_delete_then_restore_of_a_lesson
    (id : Id) (now1 now2 : Timestamp) (w : LessonWorld)
    (lesson : BaseEntity.t LessonData.t) (total : Z) :
  LessonRepository.findById id true (lesson_table w) = Some lesson ->
  BaseEntity.deletedAt lesson = None ->
  shown_total (LessonData.courseId (BaseEntity.data lesson)) w = Some total ->
  let w1 := snd (LessonService.softDeleteLesson id now1 w) in
  let w2 := snd (LessonService.restoreLesson id now2 w1) in
  LessonRepository.findById id false (lesson_table w1) = None /\
  LessonRepository.findById id false (lesson_table w2)
  = Some (BaseEntity.mk (BaseEntity.id lesson) (BaseEntity.data lesson)
            (BaseEntity.createdAt lesson) now2 None) /\
  shown_total (LessonData.courseId (BaseEntity.data lesson)) w2
  = Some (if decide (total > 0) then total else total + 1).
Proof.
  intros Hany Hlive Htotal w1 w2.
  assert (Hfind : LessonRepository.findById id false (lesson_table w) = Some lesson).
  { unfold LessonRepository.findById in *.
    rewrite (findById_live_of_any id _ lesson Hany).
    destruct (decide _); [reflexivity | contradiction]. }
  destruct (softDeleteLesson_tables id now1 w lesson Hfind) as [Hl1 Hc1].
  destruct (softDelete_of_any id now1 (lesson_table w) lesson Hany Hlive)
    as (t1 & Hdel & Hany1).
  unfold LessonRepository.softDelete in Hl1. rewrite Hdel in Hl1. cbn [snd] in Hl1.
  fold w1 in Hl1, Hc1.
  set (deleted := BaseEntity.mk (BaseEntity.id lesson) (BaseEntity.data lesson)
                    (BaseEntity.createdAt lesson) now1 (Some now1)) in *.
  assert (Hany1' : LessonRepository.findById id true (lesson_table w1) = Some deleted)
    by (rewrite Hl1; exact Hany1).
  destruct (restoreLesson_tables id now2 w1 deleted Hany1') as [Hl2 Hc2].
  destruct (restore_of_any id now2 (lesson_table w1) deleted Hany1')
    as (t2 & Hres & Hany2 & _).
  unfold LessonRepository.restore in Hl2. rewrite Hres in Hl2. cbn [snd] in Hl2.
  fold w2 in Hl2, Hc2.
  cbn [deleted BaseEntity.deletedAt BaseEntity.id BaseEntity.data
         BaseEntity.createdAt] in Hany2, Hc2.
  destruct (decide (Some now1 = None)) as [Hbad | _]; [discriminate Hbad|].
  split; [|split].
  - unfold LessonRepository.findById in *.
    rewrite (findById_live_of_any id _ deleted Hany1').
    reflexivity.
  - unfold LessonRepository.findById in *. rewrite Hl2.
    rewrite (findById_live_of_any id _ _ Hany2). reflexivity.
  - unfold shown_total in *. rewrite Hc2, Hc1.
    destruct (CourseRepository.findById _ false (course_table w)) as [c|] eqn:Hcf;
      [|discriminate].
    injection Htotal as <-.
    destruct (decrementTotalLessons_found _ now1 (course_table w) c Hcf)
      as (ct1 & c1 & Hdec & Hcf1 & Htot1).
    rewrite Hdec. cbn [snd].
    destruct (incrementTotalLessons_found _ now2 ct1 c1 Hcf1)
      as (ct2 & Hinc & Hshown).
    rewrite Hinc. cbn [snd]. rewrite Hshown, Htot1.
    destruct (decide _); f_equal; lia.
Qed.

Lemma soft_delete_then_restore_of_a_lesson_witness :
  let w1 := snd (LessonService.softDeleteLesson "lesson-1" 40 lesson_world) in
  let w2 := snd (LessonService.restoreLesson "lesson-1" 50 w1) in
  LessonRepository.findById "lesson-1" false (lesson_table w1) = None /\
  LessonRepository.findById "lesson-1" false (lesson_table w2)
  = Some (BaseEntity.mk (BaseEntity.id first_lesson)
            (BaseEntity.data first_lesson) (BaseEntity.createdAt first_lesson)
            50 None) /\
  shown_total (LessonData.courseId (BaseEntity.data first_lesson)) w2
  = Some (if decide (0 > 0) then 0 else 0 + 1).
Proof.
  apply (soft_delete_then_restore_of_a_lesson "lesson-1" 40 50 lesson_world
           first_lesson 0); vm_compute; reflexivity.
Defined.
